(** * trade-calendar: session resolution, virtual time and the calendar manager

    A shallow embedding of [lib/trade.js] (TradeCalendar), of the
    VirtualCalendar time transform and of the CalendarManager scheduler,
    together with the properties of the specification that concern them.

    Conventions of the embedding.
    - Timestamps are epoch milliseconds, integers ([Z]); the virtual-time
      transform, which divides by a ratio, is stated over the rationals
      ([Q]), both in exact arithmetic and with the rounding of IEEE doubles
      after each operation.
    - A JavaScript value that is tested for truthiness is modelled with its
      falsy cases written out: a number is falsy when it is [0], an absent
      argument ([undefined]) is [None].
    - [async]/[await] is sequential composition: the manager is single
      threaded and a pass runs to completion; a rejected promise is [Throw].
    - Unbounded loops and recursion take a fuel argument; [Diverge] is the
      outcome of a run that needs more steps than the fuel allows. *)

From Stdlib Require Import ZArith QArith Qround Qabs Qpower Qfield Lqa List Bool Lia Sorted.
From stdpp Require Import gmap strings list fin_maps.
Import ListNotations.

Local Open Scope Z_scope.

(** ** The moment / moment-timezone primitives used by the sources

    The library is not part of the repository.  Its calendar arithmetic is
    modelled for zones with a fixed UTC offset (in milliseconds, east of
    Greenwich positive): a date is the number of days since 1970-01-01 in
    the zone, and the proleptic Gregorian calendar converts between day
    numbers and [YYYYMMDD] integers.  Two limits of the model:
    - a zone with daylight-saving time is the model only between two
      transitions; a day on which the offset changes does not last
      86400000 ms and is outside the model;
    - [parse8] stands for [moment] on calendar dates only: the eight-digit
      numbers [n] with [format8 (parse8 n) = n].  For any other number
      (20170230, say) [moment] gives another or an invalid date, on which
      timeInfo may never return; statements that assert a result for a date
      take [calendar_date], defined below, as a hypothesis. *)
Module Moment.

Definition msPerDay : Z := 86400000.

(** [moment(s, 'YYYYMMDD')]: day number of the date written [YYYYMMDD]. *)
Definition parse8 (n : Z) : Z :=
  let y0 := n / 10000 in
  let m := (n / 100) mod 100 in
  let d := n mod 100 in
  let y := if m <=? 2 then y0 - 1 else y0 in
  let era := y / 400 in
  let yoe := y - era * 400 in
  let doy := (153 * (if 2 <? m then m - 3 else m + 9) + 2) / 5 + d - 1 in
  let doe := yoe * 365 + yoe / 4 - yoe / 100 + doy in
  era * 146097 + doe - 719468.

(** [parseInt(m.format('YYYYMMDD'), 10)] for the day numbered [z]. *)
Definition format8 (z : Z) : Z :=
  let z1 := z + 719468 in
  let era := z1 / 146097 in
  let doe := z1 - era * 146097 in
  let yoe := (doe - doe / 1460 + doe / 36524 - doe / 146096) / 365 in
  let doy := doe - (365 * yoe + yoe / 4 - yoe / 100) in
  let mp := (5 * doy + 2) / 153 in
  let d := doy - (153 * mp + 2) / 5 + 1 in
  let m := if mp <? 10 then mp + 3 else mp - 9 in
  let y := yoe + era * 400 + (if m <=? 2 then 1 else 0) in
  y * 10000 + m * 100 + d.

(** [m.days()]: 0 is Sunday, 6 is Saturday; 1970-01-01 was a Thursday. *)
Definition days (z : Z) : Z := (z + 4) mod 7.

(** [moment.tz(ts, zone)] seen as a date: the day that contains the
    instant [ts] in the zone at offset [off]. *)
Definition dayOf (off ts : Z) : Z := (ts + off) / msPerDay.

(** [m.startOf('day').valueOf()] and [m.endOf('day').valueOf()]. *)
Definition startOfDay (off day : Z) : Z := day * msPerDay - off.
Definition endOfDay (off day : Z) : Z := day * msPerDay - off + (msPerDay - 1).

End Moment.

(** ** Data model (the typedefs of lib/trade.js) *)

Record TimePoint := mkTimePoint {
  hour : Z; minute : Z; second : Z; millisecond : Z }.

(** [{start, end}]; holiday intervals have the same shape. *)
Record TimePeriod := mkPeriod { start : Z; end_ : Z }.

(** [period.start], under a name that the manager's [start] does not hide. *)
Abbreviation period_start := start (only parsing).

Record TimeInfo := mkTimeInfo {
  tradeDate : Z;
  timePeriods : list TimePeriod;
  dayStart : Z;
  dayEnd : Z }.

Record ConfigPeriod := mkConfigPeriod { cp_start : TimePoint; cp_end : TimePoint }.

Record CalendarConfig := mkConfig {
  cfg_before : ConfigPeriod;
  cfg_start : TimePoint;
  cfg_end : TimePoint;
  cfg_after : ConfigPeriod }.

(** What [await this._holidayFinder(start, end)] can produce: a rejection,
    a falsy value, or an array of intervals. *)
Inductive FinderResult :=
| FinderError (err : string)
| FinderNothing
| FinderList (holidays : list TimePeriod).

(** Outcome of a call. *)
Inductive Outcome (A : Type) :=
| Ok (a : A)
| Throw (err : string)
| Diverge.
Arguments Ok {A} a.
Arguments Throw {A} err.
Arguments Diverge {A}.

(** ** TradeCalendar (lib/trade.js) *)
Module TradeCalendar.

(** The fields of a calendar object that the resolver reads.
    [timezoneOffset] stands for [timezoneName]; [hostOffset] is the offset
    of the zone of the process, which [moment(...)] without a zone uses. *)
Record t := mk {
  _config : CalendarConfig;
  timezoneOffset : Z;
  hostOffset : Z;
  _holidayFinder : Z -> Z -> FinderResult }.

(** [holidays.sort((a, b) => a.start - b.start)]: a stable sort by start. *)
Fixpoint sort_insert (h : TimePeriod) (l : list TimePeriod) : list TimePeriod :=
  match l with
  | [] => [h]
  | x :: xs => if start h <=? start x then h :: x :: xs else x :: sort_insert h xs
  end.

Definition sort_by_start (l : list TimePeriod) : list TimePeriod :=
  fold_right sort_insert [] l.

(** One turn of the [forEach] of findHolidays.  The accumulator is [rs]
    in reverse, so that its head is the object [pre], which the source
    both keeps in [rs] and updates in place. *)
Definition merge_step (acc : list TimePeriod) (holiday : TimePeriod) : list TimePeriod :=
  match acc with
  | [] => [mkPeriod (start holiday) (end_ holiday)]
  | pre :: rest =>
      if end_ pre <? start holiday
      then mkPeriod (start holiday) (end_ holiday) :: pre :: rest
      else mkPeriod (start pre) (end_ holiday) :: rest
  end.

(** The body of findHolidays after the await. *)
Definition normalize (holidays : list TimePeriod) : list TimePeriod :=
  rev (fold_left merge_step (sort_by_start holidays) []).

Definition findHolidays (c : t) (s e : Z) : Outcome (list TimePeriod) :=
  match _holidayFinder c s e with
  | FinderError err => Throw err
  | FinderNothing => Ok []
  | FinderList holidays => Ok (normalize holidays)
  end.

Definition pointMs (p : TimePoint) : Z :=
  hour p * 3600000 + minute p * 60000 + second p * 1000 + millisecond p.

(** The local helpers of timeInfo.  [_point2timestamp] builds the instant
    in the zone of the process; [_stamp] re-reads its wall-clock digits in
    the zone of the calendar. *)
Definition _point2timestamp (c : t) (day : Z) (point : TimePoint) : Z :=
  day * Moment.msPerDay + pointMs point - hostOffset c.

Definition _stamp (c : t) (time : Z) : Z :=
  time + hostOffset c - timezoneOffset c.

(** The [forEach] over the merged holidays inside timeInfo. *)
Definition holiday_periods (c : t) (s e : Z) (timePeriods : list TimePeriod)
    (holiday : TimePeriod) : list TimePeriod :=
  let tp1 :=
    if s <? start holiday
    then timePeriods ++ [mkPeriod (_stamp c s) (_stamp c (start holiday))]
    else timePeriods in
  if end_ holiday <? e
  then tp1 ++ [mkPeriod (_stamp c (end_ holiday)) (_stamp c e)]
  else tp1.

(** [direction = direction < 0 ? -1 : 1]; an absent direction is [None]. *)
Definition normDirection (direction : option Z) : Z :=
  match direction with
  | Some d => if d <? 0 then -1 else 1
  | None => 1
  end.

(** The day-stepping loop of timeInfo, [date] being the candidate day. *)
Fixpoint timeInfo_loop (fuel : nat) (c : t) (date direction : Z) : Outcome TimeInfo :=
  match fuel with
  | O => Diverge
  | S fuel' =>
      let days := Moment.days date in
      if (0 <? days) && (days <? 6) then
        let s := _point2timestamp c date (cfg_start (_config c)) in
        let e := _point2timestamp c date (cfg_end (_config c)) in
        match findHolidays c s e with
        | Throw err => Throw err
        | Diverge => Diverge
        | Ok holidays =>
            let timePeriods :=
              match holidays with
              | [] => [mkPeriod (_stamp c s) (_stamp c e)]
              | _ => fold_left (holiday_periods c s e) holidays []
              end in
            match timePeriods with
            | [] => timeInfo_loop fuel' c (date + direction) direction
            | _ =>
                Ok (mkTimeInfo (Moment.format8 date) timePeriods
                      (Moment.startOfDay (timezoneOffset c) date)
                      (Moment.endOfDay (timezoneOffset c) date))
            end
        end
      else timeInfo_loop fuel' c (date + direction) direction
  end.

(** [timeInfo(date, direction)] for a date given as [YYYYMMDD]. *)
Definition timeInfo (fuel : nat) (c : t) (date : Z) (direction : option Z)
    : Outcome TimeInfo :=
  timeInfo_loop fuel c (Moment.parse8 date) (normDirection direction).

(** [timestamp(time)] and [realStamp(time)]:
    [time && time.valueOf && time.valueOf() || time || Date.now()].
    For a number the chain yields the number unless it is [0]; [now] is
    the value [Date.now()] returns at the call. *)
Definition timestamp (now : Z) (time : option Z) : Z :=
  match time with
  | Some v => if v =? 0 then now else v
  | None => now
  end.

Definition realStamp (now : Z) (time : option Z) : Z :=
  match time with
  | Some v => if v =? 0 then now else v
  | None => now
  end.

Definition realTimePeriod (now : Z) (period : TimePeriod) : TimePeriod :=
  mkPeriod (realStamp now (Some (start period))) (realStamp now (Some (end_ period))).

(** [today()]: the date of the current calendar time, as [YYYYMMDD]. *)
Definition today (c : t) (now : Z) : Z :=
  Moment.format8 (Moment.dayOf (timezoneOffset c) (timestamp now None)).

(** [realTimeInfo(date, direction)] (also [getTimeInfo]); a date that is
    [0] or absent is falsy and replaced by [today()]. *)
Definition realTimeInfo (fuel : nat) (c : t) (now : Z) (date : Z)
    (direction : option Z) : Outcome TimeInfo :=
  match timeInfo fuel c (if date =? 0 then today c now else date) direction with
  | Ok timeInfo =>
      Ok (mkTimeInfo (tradeDate timeInfo)
            (map (realTimePeriod now) (timePeriods timeInfo))
            (realStamp now (Some (dayStart timeInfo)))
            (realStamp now (Some (dayEnd timeInfo))))
  | Throw err => Throw err
  | Diverge => Diverge
  end.

(** The method [point2timestamp(date, point)], in the calendar's zone. *)
Definition point2timestamp (c : t) (date : Z) (point : TimePoint) : Z :=
  Moment.parse8 date * Moment.msPerDay + pointMs point - timezoneOffset c.

Definition afterMarketEnd (c : t) (date : Z) : Z :=
  point2timestamp c date (cp_end (cfg_after (_config c))).

Definition realAfterMarketEnd (c : t) (now : Z) (date : Z) : Z :=
  realStamp now (Some (afterMarketEnd c date)).

(** [realMarketOpen(date)], [realMarketClose(date)] and
    [realBeforeMarketStart(date)]: a boundary of the date, through
    [realStamp]. *)
Definition realMarketOpen (c : t) (now : Z) (date : Z) : Z :=
  realStamp now (Some (point2timestamp c date (cfg_start (_config c)))).

Definition realMarketClose (c : t) (now : Z) (date : Z) : Z :=
  realStamp now (Some (point2timestamp c date (cfg_end (_config c)))).

Definition realBeforeMarketStart (c : t) (now : Z) (date : Z) : Z :=
  realStamp now (Some (point2timestamp c date (cp_start (cfg_before (_config c))))).

(** [marketOpen(date)], [marketClose(date)] and [beforeMarketStart(date)]:
    the real boundary, through [timestamp]. *)
Definition marketOpen (c : t) (now : Z) (date : Z) : Z :=
  timestamp now (Some (realMarketOpen c now date)).

Definition marketClose (c : t) (now : Z) (date : Z) : Z :=
  timestamp now (Some (realMarketClose c now date)).

Definition beforeMarketStart (c : t) (now : Z) (date : Z) : Z :=
  timestamp now (Some (realBeforeMarketStart c now date)).

(** [startOfDay(date)] and [endOfDay(date)]. *)
Definition startOfDay (c : t) (date : Z) : Z :=
  point2timestamp c date (mkTimePoint 0 0 0 0).

Definition endOfDay (c : t) (date : Z) : Z :=
  point2timestamp c date (mkTimePoint 23 59 59 999).

(** [timePeriod(period)]: a real period in calendar coordinates. *)
Definition timePeriod (now : Z) (period : TimePeriod) : TimePeriod :=
  mkPeriod (timestamp now (Some (start period))) (timestamp now (Some (end_ period))).

End TradeCalendar.


(** ** The arithmetic of the host: IEEE 754 binary64

    JavaScript numbers are doubles: every arithmetic operation returns the
    exact result rounded to the nearest double, ties to even.  [round] is
    that rounding on the rationals, for the normal range (no overflow, no
    subnormal numbers), which holds the timestamps and ratios of the
    sources. *)
Module Double.

Local Open Scope Q_scope.

(** The nearest integer, ties to even. *)
Definition round_int (q : Q) : Z :=
  let f := Qfloor q in
  match Qcompare (q - inject_Z f) (1 # 2) with
  | Lt => f
  | Gt => (f + 1)%Z
  | Eq => if Z.even f then f else (f + 1)%Z
  end.

(** The binary exponent [e] of a positive rational: [2^e <= a < 2^(e+1)]. *)
Definition exponent (a : Q) : Z :=
  let k := (Z.log2 (Qnum a) - Z.log2 (Zpos (Qden a)))%Z in
  if Qle_bool (2 ^ k) a then k else (k - 1)%Z.

(** The nearest number with a 53-bit significand. *)
Definition round (x : Q) : Q :=
  if Qeq_bool x 0 then 0
  else
    let a := Qabs x in
    let s := (52 - exponent a)%Z in
    let r := inject_Z (round_int (a * 2 ^ s)) * 2 ^ (- s) in
    if Qle_bool 0 x then r else - r.

(** The unit roundoff. *)
Definition u : Q := 2 ^ (-53).

End Double.

(** ** VirtualCalendar: the virtual-time transform

    [timestamp] and [realStamp] are the two formulas in exact arithmetic,
    over [Q]; [timestampFl] and [realStampFl] are the same formulas with the
    rounding [fl] of the host applied after each operation, as the source
    computes them ([fl] is [Double.round]); with the identity for [fl] they
    are the exact ones.  Division by a ratio of [0], which in the source
    gives a non-finite number, is outside the model: the statements assume
    a non-zero ratio. *)
Module VirtualCalendar.

Local Open Scope Q_scope.

Inductive Strategy := SYSTEM | STANDARD | START | CUSTOM.

(** [config.virtual]; [vc_strategy] is [None] when absent, and
    [Some None] stands for a string that names no strategy. *)
Record VirtualConfig := mkVirtualConfig {
  vc_strategy : option (option Strategy);
  vc_standard : Q;
  vc_custom : option Q;
  vc_oneDay : Q }.

Record t := mk {
  _realBase : Q;
  _virtualBase : Q;
  _timeRatio : Q }.

(** [reload]: the ratio and the two anchors chosen by the strategy. *)
Definition reload (vc : VirtualConfig) (startTime : Q) : Outcome t :=
  let timeRatio := vc_oneDay vc / (24 * 60 * 60 * 1000) in
  let virtualBase := vc_standard vc in
  match vc_strategy vc with
  | Some (Some SYSTEM) => Ok (mk 0 0 1)
  | None | Some (Some STANDARD) => Ok (mk virtualBase virtualBase timeRatio)
  | Some (Some START) => Ok (mk startTime virtualBase timeRatio)
  | Some (Some CUSTOM) =>
      match vc_custom vc with
      | Some custom =>
          if Qeq_bool custom 0 then Throw "AssertionError"
          else Ok (mk custom virtualBase timeRatio)
      | None => Throw "AssertionError"
      end
  | Some None => Throw "INVALID_STRATEGY"
  end.

(** [time = time || Date.now()]. *)
Definition orNow (now : Q) (time : option Q) : Q :=
  match time with
  | Some v => if Qeq_bool v 0 then now else v
  | None => now
  end.

Definition timestamp (v : t) (now : Q) (time : option Q) : Q :=
  (orNow now time - _realBase v) / _timeRatio v + _virtualBase v.

Definition realStamp (v : t) (now : Q) (time : option Q) : Q :=
  (orNow now time - _virtualBase v) * _timeRatio v + _realBase v.

(** [(time - this._realBase) / this._timeRatio + this._virtualBase], each
    of the three operations rounded by [fl]. *)
Definition timestampFl (fl : Q -> Q) (v : t) (now : Q) (time : option Q) : Q :=
  fl (fl (fl (orNow now time - _realBase v) / _timeRatio v) + _virtualBase v).

(** [(time - this._virtualBase) * this._timeRatio + this._realBase], each
    of the three operations rounded by [fl]. *)
Definition realStampFl (fl : Q -> Q) (v : t) (now : Q) (time : option Q) : Q :=
  fl (fl (fl (orNow now time - _virtualBase v) * _timeRatio v) + _realBase v).

End VirtualCalendar.

(** ** CalendarManager (the manager with market-open and market-close timers)

    The state of the manager and of the host is one record, [World]: the
    registered calendars with the properties the manager assigns on them,
    the table of armed timers, the events emitted so far and the clock.
    A closure of the source holds the calendar object; a name is never
    rebound to another object ([start] raises REPEAT_NAME), so the model
    finds the object by its name.  The clock does not advance during a
    pass; a timer fires at an instant chosen by the host ([fire]). *)
Module CalendarManager.

(** The listeners handed to [realTimeoutAt] by changeSystemPeriod. *)
Inductive Listener :=
| SystemTimeStart (name : string)
| SystemTimeEnd (name : string).

(** The closures handed to [setTimeout]; a closure is kept as data and
    run by [run_callback] when its timer fires. *)
Inductive Callback :=
| MarketOpenCb (name : string)
| MarketCloseCb (name : string)
| AfterMarketCloseCb (name : string)
| RetryCb (name : string) (start_ : Z) (retry : bool)
| RealTimeoutAtCb (listener : Listener) (time : Z).

Record Timer := mkTimer { callback : Callback; delay : Z }.

Inductive Event :=
| trade_date_change (name : string) (td : Z) (pre : option Z) (next : Z)
| system_period_change (name : string) (p : TimePeriod) (rest : list TimePeriod)
| system_time_start (name : string) (p : option TimePeriod)
| system_time_end (name : string) (p : option TimePeriod)
| market_open (name : string) (td : Z)
| market_close (name : string) (td : Z)
| after_market_close (name : string) (td : Z).

(** A calendar object as the manager sees it: the TradeCalendar itself,
    its identity, and the properties the manager reads and assigns.
    The timer-handle properties ([_timeInfoHandler], [_startTimeHandler],
    [_endTimeHandler], [_marketOpenTimeHandler], [_marketCloseTimeHandler],
    [_timeHandler]) are the map [handlers], keyed by property name; a
    property that is undefined or [null] is absent from the map. *)
Module Cal.
Record t := mk {
  self : TradeCalendar.t;
  oid : nat;
  tradeDate : Z;
  preTradeDate : option Z;
  nextTradeDate : Z;
  dayStart : Z;
  dayEnd : Z;
  systemPeriods : list TimePeriod;
  systemPeriod : option TimePeriod;
  handlers : gmap string nat }.

(** [new TradeCalendar(config, holidayFinder)]. *)
Definition new (c : TradeCalendar.t) (id : nat) : t :=
  mk c id 0 None 0 0 0 [] None ∅.

Definition set_preTradeDate (v : option Z) (c : t) : t :=
  mk (self c) (oid c) (tradeDate c) v (nextTradeDate c) (dayStart c) (dayEnd c)
     (systemPeriods c) (systemPeriod c) (handlers c).

Definition set_dates (next td ds de : Z) (c : t) : t :=
  mk (self c) (oid c) td (preTradeDate c) next ds de
     (systemPeriods c) (systemPeriod c) (handlers c).

Definition set_systemPeriods (l : list TimePeriod) (c : t) : t :=
  mk (self c) (oid c) (tradeDate c) (preTradeDate c) (nextTradeDate c)
     (dayStart c) (dayEnd c) l (systemPeriod c) (handlers c).

Definition set_systemPeriod (p : option TimePeriod) (c : t) : t :=
  mk (self c) (oid c) (tradeDate c) (preTradeDate c) (nextTradeDate c)
     (dayStart c) (dayEnd c) (systemPeriods c) p (handlers c).

Definition set_handlers (h : gmap string nat) (c : t) : t :=
  mk (self c) (oid c) (tradeDate c) (preTradeDate c) (nextTradeDate c)
     (dayStart c) (dayEnd c) (systemPeriods c) (systemPeriod c) h.
End Cal.

(** The manager, the host's timer table and clock, and the events
    emitted so far (oldest first). *)
Record World := mkWorld {
  calendars : gmap string Cal.t;
  timers : gmap nat Timer;
  nextHandle : nat;
  emitted : list Event;
  clock : Z }.

Inductive Result (A : Type) :=
| Done (a : A) (w : World)
| Raised (err : string) (w : World)
| Stuck.
Arguments Done {A} a w.
Arguments Raised {A} err w.
Arguments Stuck {A}.

Definition set_calendars (m : gmap string Cal.t) (w : World) : World :=
  mkWorld m (timers w) (nextHandle w) (emitted w) (clock w).

Definition emit (e : Event) (w : World) : World :=
  mkWorld (calendars w) (timers w) (nextHandle w) (emitted w ++ [e]) (clock w).

(** [setTimeout(cb, delay)]: arms a timer and returns its handle. *)
Definition setTimeout (cb : Callback) (d : Z) (w : World) : nat * World :=
  (nextHandle w,
   mkWorld (calendars w) (<[nextHandle w := mkTimer cb d]> (timers w))
           (S (nextHandle w)) (emitted w) (clock w)).

Definition clearTimeout (h : nat) (w : World) : World :=
  mkWorld (calendars w) (delete h (timers w)) (nextHandle w) (emitted w) (clock w).

(** [calendar.setTimeoutAt(code, timestamp)], with [calendar.now()] the
    host clock. *)
Definition setTimeoutAt (cb : Callback) (timestamp : Z) (w : World) : nat * World :=
  setTimeout cb (timestamp - clock w) w.

(** [calendar.realTimeoutAt(listener, time)]. *)
Definition realTimeoutAt (listener : Listener) (time : Z) (w : World) : nat * World :=
  setTimeout (RealTimeoutAtCb listener time) (time - clock w) w.

(** [calendar.<prop> = v] on the calendar registered as [name]. *)
Definition update (name : string) (f : Cal.t -> Cal.t) (w : World) : World :=
  set_calendars (alter f name (calendars w)) w.

Definition set_handler (name prop : string) (h : nat) (w : World) : World :=
  update name (fun c => Cal.set_handlers (<[prop := h]> (Cal.handlers c)) c) w.

Definition unset_handler (name prop : string) (w : World) : World :=
  update name (fun c => Cal.set_handlers (delete prop (Cal.handlers c)) c) w.

(** [if (calendar.<prop>) clearTimeout(calendar.<prop>)]. *)
Definition clear_handler (name prop : string) (w : World) : World :=
  match calendars w !! name with
  | Some c =>
      match Cal.handlers c !! prop with
      | Some h => clearTimeout h w
      | None => w
      end
  | None => w
  end.

(** [moment(tradeDate.toString()).add(n, 'days').format('YYYYMMDD')]. *)
Definition addDays (n : Z) (td : Z) : Z :=
  Moment.format8 (Moment.parse8 td + n).

(** changeSystemPeriod.  [systemPeriods.shift()] also shortens the
    [timePeriods] array of the TimeInfo it was assigned from; the pass
    reads that array only before the call. *)
Definition changeSystemPeriod (name : string) (w : World) : World :=
  match calendars w !! name with
  | None => w
  | Some c =>
      match Cal.systemPeriods c with
      | [] => w
      | p :: rest =>
          let w1 := update name (fun c => Cal.set_systemPeriods rest
                                   (Cal.set_systemPeriod (Some p) c)) w in
          let w2 := emit (system_period_change name p rest) w1 in
          let w3 := clear_handler name "_startTimeHandler" w2 in
          let w4 := clear_handler name "_endTimeHandler" w3 in
          let '(h1, w5) := realTimeoutAt (SystemTimeStart name) (start p) w4 in
          let w6 := set_handler name "_startTimeHandler" h1 w5 in
          let '(h2, w7) := realTimeoutAt (SystemTimeEnd name) (end_ p) w6 in
          set_handler name "_endTimeHandler" h2 w7
      end
  end.

(** The block [if (calendar.tradeDate !== timeInfo.tradeDate) { ... }]. *)
Definition changeTradeDate (fuel : nat) (name : string) (timeInfo : TimeInfo)
    (w : World) : Result unit :=
  match calendars w !! name with
  | None => Raised "TypeError" w
  | Some c =>
      if Cal.tradeDate c =? tradeDate timeInfo then Done tt w
      else
        let pre :=
          if 0 <? Cal.tradeDate c then Ok (Some (Cal.tradeDate c))
          else
            match TradeCalendar.realTimeInfo fuel (Cal.self c) (clock w)
                    (addDays (-1) (tradeDate timeInfo)) (Some (-1)) with
            | Ok ti => Ok (Some (tradeDate ti))
            | Throw err => Throw err
            | Diverge => Diverge
            end in
        match pre with
        | Throw err => Raised err w
        | Diverge => Stuck
        | Ok p =>
            let w1 := update name (Cal.set_preTradeDate p) w in
            match TradeCalendar.realTimeInfo fuel (Cal.self c) (clock w)
                    (addDays 1 (tradeDate timeInfo)) (Some 1) with
            | Throw err => Raised err w1
            | Diverge => Stuck
            | Ok nd =>
                let w2 := update name
                            (Cal.set_dates (tradeDate nd) (tradeDate timeInfo)
                               (dayStart timeInfo) (dayEnd timeInfo)) w1 in
                Done tt (emit (trade_date_change name (tradeDate timeInfo) p
                                 (tradeDate nd)) w2)
            end
        end
  end.

(** [first && first.start] and [last && last.end]: [None] is undefined. *)
Definition marketOpenOf (ti : TimeInfo) : option Z :=
  match timePeriods ti with
  | [] => None
  | first :: _ => Some (start first)
  end.

Definition marketCloseOf (ti : TimeInfo) : option Z :=
  match rev (timePeriods ti) with
  | [] => None
  | last :: _ => Some (end_ last)
  end.

Definition truthy (v : option Z) : bool :=
  match v with
  | Some n => negb (n =? 0)
  | None => false
  end.

(** The block [if (marketOpen && marketClose) { ... }]. *)
Definition armMarketTimers (name : string)
    (marketOpen marketClose : option Z) (now : Z) (w : World) : World :=
  match marketOpen, marketClose with
  | Some mo, Some mc =>
      if truthy marketOpen && truthy marketClose then
        let w1 :=
          if now <? mc then
            let '(h, w') := setTimeoutAt (MarketOpenCb name)
                              (TradeCalendar.timestamp (clock w) (Some mo)) w in
            set_handler name "_marketOpenTimeHandler" h w'
          else w in
        let '(h, w2) := setTimeoutAt (MarketCloseCb name)
                          (TradeCalendar.timestamp (clock w1) (Some mc)) w1 in
        set_handler name "_marketCloseTimeHandler" h w2
      else w
  | _, _ => w
  end.

(** The try block of setTimeInfo after the catch-up test. *)
Definition resolved (fuel : nat) (name : string) (c : TradeCalendar.t)
    (timeInfo : TimeInfo) (now : Z) (w : World) : Result unit :=
  let marketOpen := marketOpenOf timeInfo in
  let marketClose := marketCloseOf timeInfo in
  match changeTradeDate fuel name timeInfo w with
  | Raised err w' => Raised err w'
  | Stuck => Stuck
  | Done _ w1 =>
      let w2 := update name (Cal.set_systemPeriods (timePeriods timeInfo)) w1 in
      let w3 := changeSystemPeriod name w2 in
      let w4 := clear_handler name "_timeInfoHandler" w3 in
      let w5 := armMarketTimers name marketOpen marketClose now w4 in
      let '(h, w6) := setTimeoutAt (AfterMarketCloseCb name)
                        (TradeCalendar.afterMarketEnd c (tradeDate timeInfo)) w5 in
      Done tt (set_handler name "_timeInfoHandler" h w6)
  end.

(** The catch block of setTimeInfo. *)
Definition caught (name : string) (start_ : Z) (retry : bool) (err : string)
    (w : World) : Result unit :=
  if retry then
    let w1 := unset_handler name "_timeInfoHandler"
                (clear_handler name "_timeInfoHandler" w) in
    let '(h, w2) := setTimeout (RetryCb name start_ retry) (10 * 1000) w1 in
    Done tt (set_handler name "_timeHandler" h w2)
  else Raised err w.

Definition try_catch (body : Result unit) (handler : string -> World -> Result unit)
    : Result unit :=
  match body with
  | Raised err w => handler err w
  | r => r
  end.

(** setTimeInfo(name, start, retry); [retry] absent is [false]. *)
Fixpoint setTimeInfo (fuel : nat) (name : string) (start_ : Z) (retry : bool)
    (w : World) : Result unit :=
  match fuel with
  | O => Stuck
  | S fuel' =>
      match calendars w !! name with
      | None => Raised "TypeError" w
      | Some calendar =>
          let c := Cal.self calendar in
          let now := clock w in
          try_catch
            match TradeCalendar.realTimeInfo fuel' c (clock w) start_ None with
            | Throw err => Raised err w
            | Diverge => Stuck
            | Ok timeInfo =>
                let afterMarketClose :=
                  TradeCalendar.realAfterMarketEnd c (clock w) (tradeDate timeInfo) in
                if afterMarketClose <? now
                then setTimeInfo fuel' name (addDays 1 (tradeDate timeInfo)) retry w
                else resolved fuel' name c timeInfo now w
            end
            (caught name start_ retry)
      end
  end.

(** start(name, calendar) with a string [name]. *)
Definition start (fuel : nat) (name : string) (calendar : option Cal.t)
    (w : World) : Result unit :=
  match calendars w !! name, calendar with
  | Some old, Some c =>
      if Nat.eqb (Cal.oid old) (Cal.oid c)
      then setTimeInfo fuel name 0 false w
      else Raised "REPEAT_NAME" w
  | None, Some c =>
      setTimeInfo fuel name 0 false (set_calendars (<[name := c]> (calendars w)) w)
  | _, None => setTimeInfo fuel name 0 false w
  end.

(** stop(name). *)
Definition stop (name : string) (w : World) : World :=
  match calendars w !! name with
  | None => w
  | Some _ =>
      clear_handler name "_endTimeHandler"
        (clear_handler name "_startTimeHandler"
           (clear_handler name "_timeInfoHandler" w))
  end.

(** What a listener of [realTimeoutAt] does. *)
Definition run_listener (l : Listener) (w : World) : World :=
  match l with
  | SystemTimeStart name =>
      match calendars w !! name with
      | Some c => emit (system_time_start name (Cal.systemPeriod c)) w
      | None => w
      end
  | SystemTimeEnd name =>
      match calendars w !! name with
      | Some c => changeSystemPeriod name
                    (emit (system_time_end name (Cal.systemPeriod c)) w)
      | None => w
      end
  end.

(** What each closure does when its timer fires. *)
Definition run_callback (fuel : nat) (cb : Callback) (w : World) : Result unit :=
  match cb with
  | MarketOpenCb name =>
      match calendars w !! name with
      | Some c => Done tt (emit (market_open name (Cal.tradeDate c)) w)
      | None => Raised "TypeError" w
      end
  | MarketCloseCb name =>
      match calendars w !! name with
      | Some c => Done tt (emit (market_close name (Cal.tradeDate c)) w)
      | None => Raised "TypeError" w
      end
  | AfterMarketCloseCb name =>
      match calendars w !! name with
      | Some c =>
          setTimeInfo fuel name (addDays 1 (Cal.tradeDate c)) false
            (emit (after_market_close name (Cal.tradeDate c)) w)
      | None => Raised "TypeError" w
      end
  | RetryCb name start_ retry => setTimeInfo fuel name start_ retry w
  | RealTimeoutAtCb listener time =>
      if time <=? clock w then Done tt (run_listener listener w)
      else Done tt (snd (realTimeoutAt listener time w))
  end.

(** The host fires the armed timer [h] at the instant [now]. *)
Definition fire (fuel : nat) (h : nat) (now : Z) (w : World) : Result unit :=
  match timers w !! h with
  | None => Done tt w
  | Some t =>
      run_callback fuel (callback t)
        (mkWorld (calendars w) (delete h (timers w)) (nextHandle w) (emitted w) now)
  end.

(** stopAll(): [stop] for every key of [this.calendars]. *)
Definition stopAll (w : World) : World :=
  foldl (fun w' name => stop name w') w (map fst (map_to_list (calendars w))).

End CalendarManager.

(** ** The calendars of the repository's tests *)

Definition tp (h m : Z) : TimePoint := mkTimePoint h m 0 0.

(** The configuration of the repository's tests. *)
Definition test_config : CalendarConfig :=
  mkConfig (mkConfigPeriod (tp 8 5) (tp 9 25)) (tp 9 30) (tp 16 0)
           (mkConfigPeriod (tp 16 5) (tp 17 25)).

Definition emptyHolidayFinder (s e : Z) : FinderResult := FinderList [].

Definition cn : TradeCalendar.t :=
  TradeCalendar.mk test_config 28800000 0 emptyHolidayFinder.
(** America/New_York while daylight-saving time is in force (-04:00), as on
    the summer dates of the tests; a host at +01:00. *)
Definition us : TradeCalendar.t :=
  TradeCalendar.mk test_config (-14400000) 3600000 emptyHolidayFinder.


(** ** Predicates and auxiliary functions of the statements *)

(** The [forEach] of findHolidays as a recursion on the remaining
    holidays, with [pre] the interval being built. *)
Fixpoint merge_from (pre : TimePeriod) (l : list TimePeriod) : list TimePeriod :=
  match l with
  | [] => [pre]
  | h :: t =>
      if end_ pre <? start h
      then pre :: merge_from (mkPeriod (start h) (end_ h)) t
      else merge_from (mkPeriod (start pre) (end_ h)) t
  end.

Definition le_start (a b : TimePeriod) : Prop := start a <= start b.

(** Ascending by start and pairwise disjoint: every later interval starts
    strictly after the end of every earlier one. *)
Definition apart (a b : TimePeriod) : Prop :=
  start a <= start b /\ end_ a < start b.

Definition DisjointAscending (l : list TimePeriod) : Prop :=
  StronglySorted apart l.

(** The instants a list of closed intervals covers. *)
Definition covers (l : list TimePeriod) (x : Z) : Prop :=
  exists p, In p l /\ start p <= x <= end_ p.

(** Trading periods in chronological order that do not overlap: a later
    period starts no earlier than any earlier period starts and ends. *)
Definition in_order (a b : TimePeriod) : Prop :=
  start a <= start b /\ end_ a <= start b.

Definition Chronological (l : list TimePeriod) : Prop :=
  StronglySorted in_order l.

(** [calendar.<prop>] for the calendar registered as [name]. *)
Definition handler_of (w : CalendarManager.World) (name prop : string) : option nat :=
  match CalendarManager.calendars w !! name with
  | Some c => CalendarManager.Cal.handlers c !! prop
  | None => None
  end.



(** [w'] has no armed timer that [w] did not have, except timers whose
    closure satisfies [P]. *)
Definition arms_only (P : CalendarManager.Callback -> Prop)
    (w w' : CalendarManager.World) : Prop :=
  forall h t, CalendarManager.timers w' !! h = Some t ->
    CalendarManager.timers w !! h = Some t \/ P (CalendarManager.callback t).

Definition not_market_open (cb : CalendarManager.Callback) : Prop :=
  forall n, cb <> CalendarManager.MarketOpenCb n.

(** [calendar.<prop> = setTimeout(cb, d)]. *)
Definition arm (name prop : string) (cb : CalendarManager.Callback) (d : Z)
    (w : CalendarManager.World) : CalendarManager.World :=
  CalendarManager.set_handler name prop (CalendarManager.nextHandle w)
    (snd (CalendarManager.setTimeout cb d w)).

(** The timer table after [if (calendar.<prop>) clearTimeout(calendar.<prop>)]. *)
Definition cancel (cal : CalendarManager.Cal.t) (prop : string)
    (m : gmap nat CalendarManager.Timer) : gmap nat CalendarManager.Timer :=
  match CalendarManager.Cal.handlers cal !! prop with
  | Some h => delete h m
  | None => m
  end.


(** Starts and ends both ascend along the list. *)
Definition le_both (a b : TimePeriod) : Prop :=
  start a <= start b /\ end_ a <= end_ b.

(** The interval spans the whole session from [s] to [e]. *)
Definition spans (s e : Z) (h : TimePeriod) : Prop :=
  start h <= s /\ e <= end_ h.

(** The TimeInfo of a day whose session is not cut by any holiday. *)
Definition whole_session (c : TradeCalendar.t) (day : Z) : TimeInfo :=
  mkTimeInfo (Moment.format8 day)
    [mkPeriod
       (Moment.startOfDay (TradeCalendar.timezoneOffset c) day
        + TradeCalendar.pointMs (cfg_start (TradeCalendar._config c)))
       (Moment.startOfDay (TradeCalendar.timezoneOffset c) day
        + TradeCalendar.pointMs (cfg_end (TradeCalendar._config c)))]
    (Moment.startOfDay (TradeCalendar.timezoneOffset c) day)
    (Moment.endOfDay (TradeCalendar.timezoneOffset c) day).

(** No timestamp of the TimeInfo is 0. *)
Definition no_zero_stamp (ti : TimeInfo) : Prop :=
  dayStart ti <> 0 /\ dayEnd ti <> 0 /\
  Forall (fun p => start p <> 0 /\ end_ p <> 0) (timePeriods ti).

(** The magnitudes of the six exact results that are rounded on the way
    from a real time [t] to virtual time and back; the rounding error of the
    round trip is at most the unit roundoff times this sum. *)
Definition roundtrip_scale (fl : Q -> Q) (v : VirtualCalendar.t) (t : Q) : Q :=
  (let rb := VirtualCalendar._realBase v in
   let vb := VirtualCalendar._virtualBase v in
   let r := VirtualCalendar._timeRatio v in
   let x1 := t - rb in
   let x2 := fl x1 / r in
   let x3 := fl x2 + vb in
   let x4 := fl x3 - vb in
   let x5 := fl x4 * r in
   let x6 := fl x5 + rb in
   Qabs x1 + Qabs r * (Qabs x2 + Qabs x3 + Qabs x4) + Qabs x5 + Qabs x6)%Q.

(** The same for the way from a virtual time [x] to real time and back. *)
Definition reverse_scale (fl : Q -> Q) (v : VirtualCalendar.t) (x : Q) : Q :=
  (let rb := VirtualCalendar._realBase v in
   let vb := VirtualCalendar._virtualBase v in
   let r := VirtualCalendar._timeRatio v in
   let x1 := x - vb in
   let x2 := fl x1 * r in
   let x3 := fl x2 + rb in
   let x4 := fl x3 - rb in
   let x5 := fl x4 / r in
   let x6 := fl x5 + vb in
   Qabs x1 + (Qabs x2 + Qabs x3 + Qabs x4) / Qabs r + Qabs x5 + Qabs x6)%Q.

(** The periods timeInfo computes for the session of [day] when the merged
    holidays of the session are [hs]. *)
Definition periods_for (c : TradeCalendar.t) (day : Z) (hs : list TimePeriod)
    : list TimePeriod :=
  let s := TradeCalendar._point2timestamp c day (cfg_start (TradeCalendar._config c)) in
  let e := TradeCalendar._point2timestamp c day (cfg_end (TradeCalendar._config c)) in
  match hs with
  | [] => [mkPeriod (TradeCalendar._stamp c s) (TradeCalendar._stamp c e)]
  | _ => fold_left (TradeCalendar.holiday_periods c s e) hs []
  end.

(** The merged holidays findHolidays returns for the session of [day]. *)
Definition holidays_of (c : TradeCalendar.t) (day : Z) : Outcome (list TimePeriod) :=
  TradeCalendar.findHolidays c
    (TradeCalendar._point2timestamp c day (cfg_start (TradeCalendar._config c)))
    (TradeCalendar._point2timestamp c day (cfg_end (TradeCalendar._config c))).

(** A day that is not a trade date: a Sunday, a Saturday, or a day from
    Monday to Friday with at least one merged holiday, each of which starts
    at or before the session start and ends at or after the session end. *)
Definition not_a_trade_date (c : TradeCalendar.t) (day : Z) : Prop :=
  Moment.days day = 0 \/ Moment.days day = 6 \/
  exists hs,
    holidays_of c day = Ok hs /\ hs <> [] /\
    forall h, In h hs ->
      spans (TradeCalendar._point2timestamp c day (cfg_start (TradeCalendar._config c)))
            (TradeCalendar._point2timestamp c day (cfg_end (TradeCalendar._config c)))
            h.

(** A date argument that [moment(date.toString(), 'YYYYMMDD')] reads as the
    calendar date it spells: eight digits that name an existing day. *)
Definition calendar_date (date : Z) : Prop :=
  10000101 <= date <= 99991231 /\
  Moment.format8 (Moment.parse8 date) = date.

(** ** Calendars used as concrete inputs *)

(** A holiday source that reports an interval nested in the previous one. *)
Definition nested_finder (s e : Z) : FinderResult :=
  FinderList [mkPeriod 0 100; mkPeriod 10 20].

Definition cn_nested : TradeCalendar.t :=
  TradeCalendar.mk test_config 28800000 28800000 nested_finder.

(** A holiday source with two closures inside the session of 2017-08-01
    (+08:00): 10:00 to 11:00 and 13:00 to 14:00. *)
Definition two_closures : list TimePeriod :=
  [mkPeriod 1501552800000 1501556400000; mkPeriod 1501563600000 1501567200000].

Definition two_closures_finder (s e : Z) : FinderResult := FinderList two_closures.

Definition cn_two_closures : TradeCalendar.t :=
  TradeCalendar.mk test_config 28800000 28800000 two_closures_finder.

(** A holiday source that is unreachable. *)
Definition failing_finder (s e : Z) : FinderResult := FinderError "ECONNREFUSED".

Definition cn_failing : TradeCalendar.t :=
  TradeCalendar.mk test_config 28800000 0 failing_finder.

(** Instants of 2017-08-01 (+08:00): 08:00, 12:00 and 18:00. *)
Definition at_0800 : Z := 1501545600000.
Definition at_1200 : Z := 1501560000000.
Definition at_1800 : Z := 1501581600000.

(** A new manager, and the manager once [start] has registered a new
    calendar as ["cn"], before the first pass. *)
Definition new_manager (now : Z) : CalendarManager.World :=
  CalendarManager.mkWorld ∅ ∅ 1 [] now.

Definition world_with (c : TradeCalendar.t) (now : Z) : CalendarManager.World :=
  CalendarManager.mkWorld {["cn" := CalendarManager.Cal.new c 1]} ∅ 1 [] now.

Definition world_of (r : CalendarManager.Result unit) : CalendarManager.World :=
  match r with
  | CalendarManager.Done _ w => w
  | CalendarManager.Raised _ w => w
  | CalendarManager.Stuck => world_with cn 0
  end.

(** The world after [start("cn", calendar)] on a new manager, at 08:00 and
    at 12:00. *)
Definition started_0800 : CalendarManager.World :=
  world_of (CalendarManager.start 10 "cn" (Some (CalendarManager.Cal.new cn 1))
              (new_manager at_0800)).

Definition started_1200 : CalendarManager.World :=
  world_of (CalendarManager.start 10 "cn" (Some (CalendarManager.Cal.new cn 1))
              (new_manager at_1200)).

(** The same calendar after a first day, with an unreachable holiday
    source, when its after-market-close timer is due. *)
Definition cal_failing : CalendarManager.Cal.t :=
  CalendarManager.Cal.mk cn_failing 1 20170801 (Some 20170731) 20170802
    1501516800000 1501603199999 [] (Some (mkPeriod 1501551000000 1501574400000))
    {["_timeInfoHandler" := 5%nat]}.

Definition world_failing : CalendarManager.World :=
  CalendarManager.mkWorld {["cn" := cal_failing]}
    {[5%nat := CalendarManager.mkTimer (CalendarManager.AfterMarketCloseCb "cn") 33900000]}
    6 [] at_0800.

(** The calendar registered as ["cn"] after [start] at 08:00. *)
Definition cal_started_0800 : CalendarManager.Cal.t :=
  match CalendarManager.calendars started_0800 !! "cn" with
  | Some c => c
  | None => CalendarManager.Cal.new cn 1
  end.

(** The TimeInfo of 2017-08-01 for the calendar [cn]. *)
Definition ti_20170801 : TimeInfo :=
  mkTimeInfo 20170801 [mkPeriod 1501551000000 1501574400000]
    1501516800000 1501603199999.

(** A holiday source that closes the whole of Friday 2017-08-04 (+08:00):
    it reports the closure to every query that overlaps it. *)
Definition friday_closure : TimePeriod := mkPeriod 1501776000000 1501862399999.

Definition friday_closed_finder (s e : Z) : FinderResult :=
  if (s <=? end_ friday_closure) && (start friday_closure <=? e)
  then FinderList [friday_closure] else FinderList [].

Definition cn_friday_closed : TradeCalendar.t :=
  TradeCalendar.mk test_config 28800000 28800000 friday_closed_finder.

(** A holiday source that reports a closure of the morning of 2017-08-01
    (+08:00), from 09:30 to 12:00, and one that reports the closure of the
    evening before, 18:00 to 20:00 of 2017-07-31, which no session meets. *)
Definition morning_finder (s e : Z) : FinderResult :=
  FinderList [mkPeriod 1501551000000 1501560000000].

Definition cn_morning_closed : TradeCalendar.t :=
  TradeCalendar.mk test_config 28800000 28800000 morning_finder.

Definition eve_finder (s e : Z) : FinderResult :=
  FinderList [mkPeriod 1501495200000 1501502400000].

Definition cn_eve_closed : TradeCalendar.t :=
  TradeCalendar.mk test_config 28800000 28800000 eve_finder.

(** A holiday source that answers for sessions before 2017-08-02 (+08:00)
    and is unreachable for later ones, and the calendar of 2017-07-31 with
    that source, on the morning of 2017-08-01. *)
Definition flaky_finder (s e : Z) : FinderResult :=
  if 1501603200000 <=? s then FinderError "ETIMEDOUT" else FinderList [].

Definition cn_flaky : TradeCalendar.t :=
  TradeCalendar.mk test_config 28800000 28800000 flaky_finder.

Definition cal_flaky : CalendarManager.Cal.t :=
  CalendarManager.Cal.mk cn_flaky 1 20170731 (Some 20170728) 20170801
    1501430400000 1501516799999 [] (Some (mkPeriod 1501464600000 1501488000000))
    ∅.

Definition world_flaky : CalendarManager.World :=
  CalendarManager.mkWorld {["cn" := cal_flaky]} ∅ 6 [] at_0800.

(** * Properties *)

(** ** The resolver on the dates of the repository's tests *)

Example test_cn_20170801 :
  TradeCalendar.timeInfo 10 cn 20170801 None =
  Ok (mkTimeInfo 20170801 [mkPeriod 1501551000000 1501574400000]
        1501516800000 1501603199999).
Proof. vm_compute. reflexivity. Qed.

Example test_us_20170801 :
  TradeCalendar.timeInfo 10 us 20170801 (Some (-1)) =
  Ok (mkTimeInfo 20170801 [mkPeriod 1501594200000 1501617600000]
        1501560000000 1501646399999).
Proof. vm_compute. reflexivity. Qed.

Example test_cn_20170730 :
  TradeCalendar.timeInfo 10 cn 20170730 (Some 1) =
  Ok (mkTimeInfo 20170731 [mkPeriod 1501464600000 1501488000000]
        1501430400000 1501516799999).
Proof. vm_compute. reflexivity. Qed.

(** ** Holiday normalization *)
Section Normalization.
Import TradeCalendar.

Lemma period_eta (p : TimePeriod) : mkPeriod (start p) (end_ p) = p.
Proof. destruct p; reflexivity. Qed.

Lemma fold_merge_step (l : list TimePeriod) :
  forall pre acc,
    rev (fold_left merge_step l (pre :: acc)) = rev acc ++ merge_from pre l.
Proof.
  induction l as [|h t IH]; intros pre acc; simpl.
  - reflexivity.
  - destruct (end_ pre <? start h).
    + rewrite IH. simpl. rewrite <- app_assoc. reflexivity.
    + apply IH.
Qed.

Lemma normalize_unfold (hs : list TimePeriod) :
  normalize hs =
  match sort_by_start hs with
  | [] => []
  | h :: t => merge_from h t
  end.
Proof.
  unfold normalize. destruct (sort_by_start hs) as [|h t]; simpl.
  - reflexivity.
  - rewrite fold_merge_step, period_eta. reflexivity.
Qed.

Lemma sort_insert_In (h x : TimePeriod) (l : list TimePeriod) :
  In x (sort_insert h l) <-> x = h \/ In x l.
Proof.
  induction l as [|y ys IH]; simpl.
  - intuition auto.
  - destruct (start h <=? start y); simpl; rewrite ?IH; intuition auto.
Qed.



Lemma sort_by_start_id (l : list TimePeriod) :
  StronglySorted le_start l -> sort_by_start l = l.
Proof.
  induction 1 as [|a l Hs IH Hall]; simpl.
  - reflexivity.
  - rewrite IH. destruct l as [|x xs]; simpl.
    + reflexivity.
    + inversion Hall as [|? ? Hax _]; subst.
      unfold le_start in Hax. apply Z.leb_le in Hax. rewrite Hax. reflexivity.
Qed.

Lemma merge_from_starts (l : list TimePeriod) :
  forall pre x, In x (merge_from pre l) ->
    start x = start pre \/ exists y, In y l /\ start x = start y.
Proof.
  induction l as [|h t IH]; intros pre x Hx; simpl in Hx.
  - destruct Hx as [<-|[]]. left; reflexivity.
  - destruct (end_ pre <? start h).
    + destruct Hx as [<-|Hx]; [left; reflexivity|].
      apply IH in Hx. simpl in Hx. right.
      destruct Hx as [Hx|(y & Hy & Hx)].
      * exists h; split; [left; reflexivity|exact Hx].
      * exists y; split; [right; exact Hy|exact Hx].
    + apply IH in Hx. simpl in Hx.
      destruct Hx as [Hx|(y & Hy & Hx)]; [left; exact Hx|].
      right. exists y; split; [right; exact Hy|exact Hx].
Qed.


Lemma merge_from_id (l : list TimePeriod) :
  forall pre, DisjointAscending (pre :: l) -> merge_from pre l = pre :: l.
Proof.
  induction l as [|h t IH]; intros pre Hd; simpl.
  - reflexivity.
  - inversion Hd as [|? ? Hd' Hall]; subst.
    inversion Hall as [|? ? [_ Hlt] _]; subst.
    apply Z.ltb_lt in Hlt. rewrite Hlt, period_eta.
    f_equal. apply IH. exact Hd'.
Qed.

Lemma DisjointAscending_sorted (l : list TimePeriod) :
  DisjointAscending l -> StronglySorted le_start l.
Proof.
  induction 1 as [|a l Hs IH Hall]; constructor.
  - exact IH.
  - rewrite List.Forall_forall in Hall |- *. intros x Hx. apply (Hall x Hx).
Qed.


Lemma normalize_id (hs : list TimePeriod) :
  DisjointAscending hs -> normalize hs = hs.
Proof.
  intros Hd. rewrite normalize_unfold.
  rewrite (sort_by_start_id hs (DisjointAscending_sorted hs Hd)).
  destruct hs as [|h t]; [reflexivity|]. apply merge_from_id, Hd.
Qed.

(** C7: when the source returns an interval [b] nested strictly inside
    the preceding interval [a], findHolidays overwrites the end of the
    merged interval with the smaller end of [b] instead of keeping the
    maximum; the result is the single interval from [start a] to [end b]
    (for [{0,100}], [{10,20}] it is [{0,20}]), it covers nothing the input
    did not cover, and the instant [end a], which the input covers, is no
    longer covered. *)
Theorem findHolidays_nested_interval_loses_coverage
    (c : TradeCalendar.t) (s e : Z) (a b : TimePeriod) :
  _holidayFinder c s e = FinderList [a; b] ->
  start a < start b -> start b <= end_ b -> end_ b < end_ a ->
  (forall rest, merge_step (a :: rest) b = mkPeriod (start a) (end_ b) :: rest) /\
  findHolidays c s e = Ok [mkPeriod (start a) (end_ b)] /\
  (forall x, covers [mkPeriod (start a) (end_ b)] x -> covers [a; b] x) /\
  covers [a; b] (end_ a) /\
  ~ covers [mkPeriod (start a) (end_ b)] (end_ a).
Proof.
  intros Hf Hab Hb Hba.
  assert (Hstep : forall rest,
             merge_step (a :: rest) b = mkPeriod (start a) (end_ b) :: rest).
  { intros rest. unfold merge_step.
    destruct (end_ a <? start b) eqn:E; [apply Z.ltb_lt in E; lia|reflexivity]. }
  split; [exact Hstep|]. split.
  - unfold findHolidays. rewrite Hf. unfold normalize, sort_by_start. simpl.
    destruct (start a <=? start b) eqn:E; [|apply Z.leb_gt in E; lia].
    simpl. rewrite period_eta.
    destruct (end_ a <? start b) eqn:E'; [apply Z.ltb_lt in E'; lia|].
    reflexivity.
  - split; [|split].
    + intros x (p & [<-|[]] & Hx). simpl in Hx.
      exists a. split; [left; reflexivity|lia].
    + exists a. split; [left; reflexivity|lia].
    + intros (p & [<-|[]] & Hx). simpl in Hx. lia.
Qed.

Lemma findHolidays_nested_interval_loses_coverage_witness :
  findHolidays cn_nested 0 100 = Ok [mkPeriod 0 20] /\
  covers [mkPeriod 0 100; mkPeriod 10 20] 100 /\
  ~ covers [mkPeriod 0 20] 100.
Proof.
  pose proof (findHolidays_nested_interval_loses_coverage cn_nested 0 100
                (mkPeriod 0 100) (mkPeriod 10 20)
                eq_refl ltac:(simpl; lia) ltac:(simpl; lia) ltac:(simpl; lia))
    as (_ & H1 & _ & H2 & H3).
  exact (conj H1 (conj H2 H3)).
Defined.



End Normalization.

(** ** The session resolver *)
Section Resolver.
Import TradeCalendar.



Lemma findHolidays_never_diverges (c : TradeCalendar.t) (s e : Z) :
  findHolidays c s e <> Diverge.
Proof.
  unfold findHolidays. destruct (_holidayFinder c s e); congruence.
Qed.



(** With a holiday source that reports no holiday the loop returns within
    three candidate days, whatever the date and the direction. *)
Lemma timeInfo_total_without_holidays
    (fuel : nat) (c : TradeCalendar.t) (date : Z) (direction : option Z) :
  (forall s e, _holidayFinder c s e = FinderList [] \/
               _holidayFinder c s e = FinderNothing) ->
  exists ti, timeInfo (3 + fuel) c date direction = Ok ti.
Proof.
  intros Hfree. unfold timeInfo.
  set (d := Moment.parse8 date). clearbody d.
  set (dir := normDirection direction).
  assert (Hdir : dir = 1 \/ dir = -1).
  { unfold dir, normDirection. destruct direction as [z|]; [|auto].
    destruct (z <? 0); auto. }
  clearbody dir.
  assert (Hopen : forall n day,
             (0 <? Moment.days day) && (Moment.days day <? 6) = true ->
             exists ti, timeInfo_loop (S n) c day dir = Ok ti).
  { intros n day Hwd. simpl. rewrite Hwd.
    unfold findHolidays.
    destruct (Hfree (_point2timestamp c day (cfg_start (_config c)))
                    (_point2timestamp c day (cfg_end (_config c)))) as [-> | ->];
      simpl; eauto. }
  assert (Hskip : forall n day,
             (0 <? Moment.days day) && (Moment.days day <? 6) = false ->
             timeInfo_loop (S n) c day dir = timeInfo_loop n c (day + dir) dir).
  { intros n day Hwd. simpl. rewrite Hwd. reflexivity. }
  destruct ((0 <? Moment.days d) && (Moment.days d <? 6)) eqn:H1;
    [apply Hopen, H1|].
  change (3 + fuel)%nat with (S (S (S fuel))). rewrite (Hskip _ _ H1).
  destruct ((0 <? Moment.days (d + dir)) && (Moment.days (d + dir) <? 6)) eqn:H2;
    [apply Hopen, H2|].
  rewrite (Hskip _ _ H2). apply Hopen.
  apply andb_false_iff in H1. apply andb_false_iff in H2.
  apply andb_true_iff.
  rewrite !Z.ltb_ge in H1, H2. rewrite !Z.ltb_lt.
  unfold Moment.days in *. clear Hopen Hskip.
  destruct Hdir as [-> | ->]; Z.div_mod_to_equations; lia.
Qed.

(** With a single holiday strictly inside the session the two periods
    around it are returned in order. *)
Lemma timeInfo_one_holiday_chronological
    (fuel : nat) (c : TradeCalendar.t) (date : Z) (direction : option Z)
    (h : TimePeriod) :
  let day := Moment.parse8 date in
  let s := _point2timestamp c day (cfg_start (_config c)) in
  let e := _point2timestamp c day (cfg_end (_config c)) in
  0 < Moment.days day < 6 ->
  _holidayFinder c s e = FinderList [h] ->
  s < start h -> start h <= end_ h -> end_ h < e ->
  exists ti,
    timeInfo (S fuel) c date direction = Ok ti /\
    timePeriods ti =
      [mkPeriod (_stamp c s) (_stamp c (start h));
       mkPeriod (_stamp c (end_ h)) (_stamp c e)] /\
    Chronological (timePeriods ti).
Proof.
  intros day s e Hwd Hf Hs Hw He.
  assert (Hn : normalize [h] = [h]) by (apply normalize_id; repeat constructor).
  unfold timeInfo. fold day. simpl.
  assert (Hb : (0 <? Moment.days day) && (Moment.days day <? 6) = true).
  { apply andb_true_iff. rewrite !Z.ltb_lt. lia. }
  rewrite Hb. fold s e. unfold findHolidays. rewrite Hf, Hn. simpl.
  unfold holiday_periods. simpl.
  assert (E1 : (s <? start h) = true) by (apply Z.ltb_lt; lia).
  assert (E2 : (end_ h <? e) = true) by (apply Z.ltb_lt; lia).
  rewrite E1, E2. simpl.
  eexists. split; [reflexivity|]. simpl. split; [reflexivity|].
  repeat constructor; simpl; unfold _stamp; lia.
Qed.

(** C1, on the code: with two disjoint holidays inside the session, the
    loop over the merged holidays emits, for each holiday, the stretch
    from the session start to the holiday and the stretch from the holiday
    to the session end; the four periods are returned in that order, and
    the third starts before the second does, so the sequence is neither
    chronological nor free of overlap. *)
Theorem timeInfo_two_holidays_not_chronological
    (fuel : nat) (c : TradeCalendar.t) (date : Z) (direction : option Z)
    (h1 h2 : TimePeriod) :
  let day := Moment.parse8 date in
  let s := _point2timestamp c day (cfg_start (_config c)) in
  let e := _point2timestamp c day (cfg_end (_config c)) in
  0 < Moment.days day < 6 ->
  _holidayFinder c s e = FinderList [h1; h2] ->
  s < start h1 -> start h1 <= end_ h1 -> end_ h1 < start h2 ->
  start h2 <= end_ h2 -> end_ h2 < e ->
  exists ti,
    timeInfo (S fuel) c date direction = Ok ti /\
    timePeriods ti =
      [mkPeriod (_stamp c s) (_stamp c (start h1));
       mkPeriod (_stamp c (end_ h1)) (_stamp c e);
       mkPeriod (_stamp c s) (_stamp c (start h2));
       mkPeriod (_stamp c (end_ h2)) (_stamp c e)] /\
    ~ Chronological (timePeriods ti).
Proof.
  intros day s e Hwd Hf Hs1 Hw1 H12 Hw2 H2e.
  assert (Hn : normalize [h1; h2] = [h1; h2]).
  { apply normalize_id. repeat constructor; lia. }
  unfold timeInfo. fold day. simpl.
  assert (Hb : (0 <? Moment.days day) && (Moment.days day <? 6) = true).
  { apply andb_true_iff. rewrite !Z.ltb_lt. lia. }
  rewrite Hb. fold s e. unfold findHolidays. rewrite Hf, Hn. simpl.
  unfold holiday_periods. simpl.
  assert (E1 : (s <? start h1) = true) by (apply Z.ltb_lt; lia).
  assert (E2 : (end_ h1 <? e) = true) by (apply Z.ltb_lt; lia).
  assert (E3 : (s <? start h2) = true) by (apply Z.ltb_lt; lia).
  assert (E4 : (end_ h2 <? e) = true) by (apply Z.ltb_lt; lia).
  rewrite E1, E2, E3, E4. simpl.
  eexists. split; [reflexivity|]. simpl. split; [reflexivity|].
  intros Hc.
  apply StronglySorted_inv in Hc as [Hc _].
  apply StronglySorted_inv in Hc as [_ Hall].
  apply List.Forall_inv in Hall. destruct Hall as [Hlt _].
  simpl in Hlt. unfold _stamp in Hlt. lia.
Qed.

Lemma timeInfo_two_holidays_not_chronological_witness :
  exists ti,
    timeInfo 1 cn_two_closures 20170801 None = Ok ti /\
    timePeriods ti =
      [mkPeriod 1501551000000 1501552800000;
       mkPeriod 1501556400000 1501574400000;
       mkPeriod 1501551000000 1501563600000;
       mkPeriod 1501567200000 1501574400000] /\
    ~ Chronological (timePeriods ti).
Proof.
  exact (timeInfo_two_holidays_not_chronological 0 cn_two_closures 20170801 None
           (mkPeriod 1501552800000 1501556400000)
           (mkPeriod 1501563600000 1501567200000)
           ltac:(vm_compute; split; reflexivity) eq_refl
           ltac:(vm_compute; reflexivity) ltac:(vm_compute; discriminate)
           ltac:(vm_compute; reflexivity) ltac:(vm_compute; discriminate)
           ltac:(vm_compute; reflexivity)).
Defined.

End Resolver.

(** ** Rounding to the nearest double *)
Section Rounding.
Local Open Scope Q_scope.

(** The nearest integer is within one half. *)
Lemma round_int_err (q : Q) : Qabs (inject_Z (Double.round_int q) - q) <= 1 # 2.
Proof.
  unfold Double.round_int.
  pose proof (Qfloor_le q) as Hlo. pose proof (Qlt_floor q) as Hhi.
  rewrite inject_Z_plus in Hhi. change (inject_Z 1) with 1 in Hhi.
  apply Qabs_Qle_condition.
  destruct (Qcompare (q - inject_Z (Qfloor q)) (1 # 2)) eqn:E.
  - apply Qeq_alt in E.
    destruct (Z.even (Qfloor q)); rewrite ?inject_Z_plus;
      change (inject_Z 1) with 1; split; lra.
  - apply Qlt_alt in E. split; lra.
  - apply Qgt_alt in E. rewrite inject_Z_plus. change (inject_Z 1) with 1.
    split; lra.
Qed.

Lemma pow2_pos (k : Z) : 0 < 2 ^ k.
Proof. apply Qpower_0_lt. reflexivity. Qed.

(** [2 ^ exponent a] is a lower bound of [a]. *)
Lemma exponent_le (a : Q) : 0 < a -> 2 ^ Double.exponent a <= a.
Proof.
  intros Ha. unfold Double.exponent.
  set (p := Z.log2 (Qnum a)). set (q := Z.log2 (Zpos (Qden a))).
  destruct (Qle_bool (2 ^ (p - q)) a) eqn:E; [apply Qle_bool_iff, E|].
  assert (Hn : (0 < Qnum a)%Z).
  { destruct a as [n d]. unfold Qlt in Ha. simpl in *. lia. }
  destruct (Z.log2_spec (Qnum a) Hn) as [Hp _]. fold p in Hp.
  destruct (Z.log2_spec (Zpos (Qden a)) eq_refl) as [_ Hq]. fold q in Hq.
  assert (Hp0 : (0 <= p)%Z) by apply Z.log2_nonneg.
  assert (Hq0 : (0 <= q)%Z) by apply Z.log2_nonneg.
  assert (HP : 2 ^ p <= inject_Z (Qnum a)).
  { change 2 with (inject_Z 2). rewrite <- Zpower_Qpower by exact Hp0.
    rewrite <- Zle_Qle. exact Hp. }
  assert (HQ : inject_Z (Zpos (Qden a)) <= 2 ^ (q + 1)).
  { change 2 with (inject_Z 2). rewrite <- Zpower_Qpower by lia.
    rewrite <- Zle_Qle. unfold Z.succ in Hq. lia. }
  assert (Hd : 0 < inject_Z (Zpos (Qden a))) by reflexivity.
  replace (p - q - 1)%Z with (p - (q + 1))%Z by lia.
  rewrite Qpower_minus by discriminate.
  assert (Hfact : a == inject_Z (Qnum a) / inject_Z (Zpos (Qden a))).
  { destruct a as [n d]. simpl. apply Qmake_Qdiv. }
  pose proof (pow2_pos p) as Hpp. pose proof (pow2_pos (q + 1)) as Hqq.
  clearbody p q.
  apply Qle_trans with (inject_Z (Qnum a) / inject_Z (Zpos (Qden a)));
    [|rewrite <- Hfact; apply Qle_refl].
  apply Qle_shift_div_l; [exact Hd|].
  apply Qle_trans with (2 ^ p); [|exact HP].
  assert (Hone : inject_Z (Zpos (Qden a)) / 2 ^ (q + 1) <= 1).
  { apply Qle_shift_div_r; [exact Hqq|]. rewrite Qmult_1_l. exact HQ. }
  assert (Heq : 2 ^ p / 2 ^ (q + 1) * inject_Z (Zpos (Qden a))
                == 2 ^ p * (inject_Z (Zpos (Qden a)) / 2 ^ (q + 1))).
  { field. intros H0. rewrite H0 in Hqq. discriminate. }
  rewrite Heq. rewrite <- (Qmult_1_r (2 ^ p)) at 2.
  apply Qmult_le_l; [exact Hpp|exact Hone].
Qed.

(** [2 ^ (exponent a + 1)] is a strict upper bound of [a]: the significand
    [a * 2 ^ (52 - exponent a)] that [Double.round] rounds to an integer lies
    between [2^52] and [2^53], so the result keeps 53 bits. *)
Lemma exponent_lt (a : Q) : 0 < a -> a < 2 ^ (Double.exponent a + 1).
Proof.
  intros Ha. unfold Double.exponent.
  set (p := Z.log2 (Qnum a)). set (q := Z.log2 (Zpos (Qden a))).
  destruct (Qle_bool (2 ^ (p - q)) a) eqn:E.
  - assert (Hn : (0 < Qnum a)%Z).
    { destruct a as [n d]. unfold Qlt in Ha. simpl in *. lia. }
    destruct (Z.log2_spec (Qnum a) Hn) as [_ Hp]. fold p in Hp.
    destruct (Z.log2_spec (Zpos (Qden a)) eq_refl) as [Hq _]. fold q in Hq.
    assert (Hp0 : (0 <= p)%Z) by apply Z.log2_nonneg.
    assert (Hq0 : (0 <= q)%Z) by apply Z.log2_nonneg.
    assert (HP : inject_Z (Qnum a) < 2 ^ (p + 1)).
    { change 2 with (inject_Z 2). rewrite <- Zpower_Qpower by lia.
      rewrite <- Zlt_Qlt. unfold Z.succ in Hp. lia. }
    assert (HQ : 2 ^ q <= inject_Z (Zpos (Qden a))).
    { change 2 with (inject_Z 2). rewrite <- Zpower_Qpower by lia.
      rewrite <- Zle_Qle. exact Hq. }
    assert (Hfact : a == inject_Z (Qnum a) / inject_Z (Zpos (Qden a))).
    { destruct a as [n d]. simpl. apply Qmake_Qdiv. }
    assert (Hd : 0 < inject_Z (Zpos (Qden a))) by reflexivity.
    pose proof (pow2_pos q) as Hqq. pose proof (pow2_pos (p + 1)) as Hpp.
    replace (p - q + 1)%Z with (p + 1 - q)%Z by lia.
    rewrite Qpower_minus by discriminate.
    clearbody p q.
    apply Qle_lt_trans with (inject_Z (Qnum a) / inject_Z (Zpos (Qden a)));
      [rewrite <- Hfact; apply Qle_refl|].
    apply Qlt_shift_div_r; [exact Hd|].
    apply Qlt_le_trans with (2 ^ (p + 1)); [exact HP|].
    assert (Hone : 1 <= inject_Z (Zpos (Qden a)) / 2 ^ q).
    { apply Qle_shift_div_l; [exact Hqq|]. rewrite Qmult_1_l. exact HQ. }
    assert (Heq : 2 ^ (p + 1) / 2 ^ q * inject_Z (Zpos (Qden a))
                  == 2 ^ (p + 1) * (inject_Z (Zpos (Qden a)) / 2 ^ q)).
    { field. intros H0. rewrite H0 in Hqq. discriminate. }
    rewrite Heq. rewrite <- (Qmult_1_r (2 ^ (p + 1))) at 1.
    apply Qmult_le_l; [exact Hpp|exact Hone].
  - replace (p - q - 1 + 1)%Z with (p - q)%Z by lia.
    destruct (Qlt_le_dec a (2 ^ (p - q))) as [H|H]; [exact H|].
    apply Qle_bool_iff in H. congruence.
Qed.

(** The standard model of rounding: the relative error of [Double.round]
    is at most the unit roundoff. *)
Lemma round_error (x : Q) : Qabs (Double.round x - x) <= Double.u * Qabs x.
Proof.
  unfold Double.round.
  destruct (Qeq_bool x 0) eqn:E0.
  - apply Qeq_bool_iff in E0. rewrite E0. unfold Double.u. simpl Qabs at 1.
    change (Qabs (0 - 0)) with 0. rewrite Qmult_0_r. apply Qle_refl.
  - assert (Hx : ~ x == 0) by (intros H; apply Qeq_bool_iff in H; congruence).
    assert (Ha : 0 < Qabs x).
    { destruct (Qlt_le_dec 0 (Qabs x)) as [H|H]; [exact H|].
      exfalso. apply Hx. pose proof (Qabs_nonneg x).
      apply Qabs_Qle_condition in H. lra. }
    pose proof (exponent_le (Qabs x) Ha) as He.
    set (e := Double.exponent (Qabs x)) in *. clearbody e.
    set (s := (52 - e)%Z).
    set (m := Qabs x * 2 ^ s).
    pose proof (round_int_err m) as Hr.
    set (R := inject_Z (Double.round_int m)) in *. clearbody R.
    pose proof (pow2_pos s) as Hs. pose proof (pow2_pos (- s)) as Hs'.
    assert (Hinv : 2 ^ s * 2 ^ (- s) == 1).
    { rewrite <- Qpower_plus by discriminate.
      replace (s + - s)%Z with 0%Z by lia. reflexivity. }
    assert (Hm : m * 2 ^ (- s) == Qabs x).
    { unfold m. rewrite <- Qmult_assoc, Hinv. ring. }
    assert (He' : 2 ^ e == 2 ^ 52 * 2 ^ (- s)).
    { rewrite <- Qpower_plus by discriminate.
      replace (52 + - s)%Z with e by (unfold s; lia). reflexivity. }
    assert (Hbound : Qabs (R * 2 ^ (- s) - Qabs x) <= Double.u * Qabs x).
    { assert (Hd : R * 2 ^ (- s) - Qabs x == (R - m) * 2 ^ (- s)).
      { rewrite <- Hm. ring. }
      rewrite Hd, Qabs_Qmult. rewrite (Qabs_pos (2 ^ (- s))) by lra.
      apply Qle_trans with ((1 # 2) * 2 ^ (- s)).
      - apply Qmult_le_compat_r; [exact Hr|lra].
      - apply Qle_trans with (Double.u * 2 ^ e).
        + rewrite He'. unfold Double.u.
          assert (Hc : 2 ^ (-53) * (2 ^ 52 * 2 ^ (- s)) == (1 # 2) * 2 ^ (- s)).
          { rewrite Qmult_assoc. apply Qmult_comp; [reflexivity|reflexivity]. }
          rewrite Hc. apply Qle_refl.
        + apply Qmult_le_l; [reflexivity|exact He]. }
    destruct (Qle_bool 0 x) eqn:Es.
    + apply Qle_bool_iff in Es.
      assert (Hd : R * 2 ^ (- s) - x == R * 2 ^ (- s) - Qabs x).
      { rewrite (Qabs_pos x Es). reflexivity. }
      rewrite Hd. exact Hbound.
    + assert (Hneg : x <= 0).
      { destruct (Qlt_le_dec 0 x) as [H|H]; [|exact H].
        exfalso. apply Qlt_le_weak, Qle_bool_iff in H. congruence. }
      assert (Hd : - (R * 2 ^ (- s)) - x == - (R * 2 ^ (- s) - Qabs x)).
      { rewrite (Qabs_neg x Hneg). ring. }
      rewrite Hd, Qabs_opp. exact Hbound.
Qed.

(** The values of [Double.round] on 1/3 and 1/10, and two ties, are those of
    the host's doubles. *)
Example round_one_third :
  Double.round (1 # 3) == 6004799503160661 # 18014398509481984.
Proof. vm_compute. reflexivity. Qed.

Example round_one_tenth :
  Double.round (1 # 10) == 3602879701896397 # 36028797018963968.
Proof. vm_compute. reflexivity. Qed.

Example round_ties_to_even :
  Double.round 9007199254740993 == 9007199254740992 /\
  Double.round 9007199254740995 == 9007199254740996.
Proof. split; vm_compute; reflexivity. Qed.

(** The error of a sum of six rounded results, three of them scaled by
    [k]. *)
Lemma six_roundings (u k E1 E2 E3 E4 E5 E6 X1 X2 X3 X4 X5 X6 : Q) :
  Qabs E1 <= u * X1 -> Qabs E2 <= u * X2 -> Qabs E3 <= u * X3 ->
  Qabs E4 <= u * X4 -> Qabs E5 <= u * X5 -> Qabs E6 <= u * X6 ->
  Qabs (E1 + k * (E2 + E3 + E4) + E5 + E6)
    <= u * (X1 + Qabs k * (X2 + X3 + X4) + X5 + X6).
Proof.
  intros H1 H2 H3 H4 H5 H6.
  assert (Hk : Qabs (k * (E2 + E3 + E4)) <= Qabs k * (u * (X2 + X3 + X4))).
  { rewrite Qabs_Qmult.
    rewrite (Qmult_comm (Qabs k) (Qabs _)), (Qmult_comm (Qabs k) (u * _)).
    apply Qmult_le_compat_r; [|apply Qabs_nonneg].
    pose proof (Qabs_triangle (E2 + E3) E4). pose proof (Qabs_triangle E2 E3).
    lra. }
  pose proof (Qabs_triangle (E1 + k * (E2 + E3 + E4) + E5) E6) as T1.
  pose proof (Qabs_triangle (E1 + k * (E2 + E3 + E4)) E5) as T2.
  pose proof (Qabs_triangle E1 (k * (E2 + E3 + E4))) as T3.
  assert (Hd : u * (X1 + Qabs k * (X2 + X3 + X4) + X5 + X6)
               == u * X1 + Qabs k * (u * (X2 + X3 + X4)) + u * X5 + u * X6)
    by ring.
  rewrite Hd. lra.
Qed.

End Rounding.

(** ** The virtual-time transform and the falsy time argument *)
Section VirtualTime.
Local Open Scope Q_scope.

Lemma orNow_nonzero (now v : Q) :
  ~ v == 0 -> VirtualCalendar.orNow now (Some v) = v.
Proof.
  intros Hv. unfold VirtualCalendar.orNow.
  destruct (Qeq_bool v 0) eqn:E; [|reflexivity].
  apply Qeq_bool_iff in E. contradiction.
Qed.

Lemma orNow_zero (now v : Q) :
  v == 0 -> VirtualCalendar.orNow now (Some v) = now.
Proof.
  intros Hv. unfold VirtualCalendar.orNow.
  apply Qeq_bool_iff in Hv. rewrite Hv. reflexivity.
Qed.

(** The round trip in exact arithmetic. *)
Lemma realStamp_timestamp_exact
    (v : VirtualCalendar.t) (now1 now2 t : Q) :
  ~ VirtualCalendar._timeRatio v == 0 ->
  ~ t == 0 ->
  ~ VirtualCalendar.timestamp v now1 (Some t) == 0 ->
  VirtualCalendar.realStamp v now2
    (Some (VirtualCalendar.timestamp v now1 (Some t))) == t.
Proof.
  intros Hr Ht Hv.
  unfold VirtualCalendar.realStamp. rewrite (orNow_nonzero _ _ Hv).
  unfold VirtualCalendar.timestamp. rewrite (orNow_nonzero _ _ Ht).
  field. exact Hr.
Qed.

(** C5, as the code has it: take a real timestamp [t] other than 0, a
    non-zero ratio, and any rounding [fl] whose relative error is at most
    [u] (for the doubles of the host, [Double.round] and [2^-53]).  When the
    virtual image the code computes is not 0, converting to virtual time and
    back, every operation rounded, gives [t] within [u] times the sum of the
    magnitudes of the six intermediate results, whatever the clock shows at
    either call; in exact arithmetic it gives [t] itself. *)
Theorem realStamp_timestamp_roundtrip_within_epsilon
    (fl : Q -> Q) (u : Q) (v : VirtualCalendar.t) (now1 now2 t : Q) :
  (forall x, Qabs (fl x - x) <= u * Qabs x) ->
  ~ VirtualCalendar._timeRatio v == 0 ->
  ~ t == 0 ->
  (~ VirtualCalendar.timestampFl fl v now1 (Some t) == 0 ->
   Qabs (VirtualCalendar.realStampFl fl v now2
           (Some (VirtualCalendar.timestampFl fl v now1 (Some t))) - t)
     <= u * roundtrip_scale fl v t) /\
  (~ VirtualCalendar.timestamp v now1 (Some t) == 0 ->
   VirtualCalendar.realStamp v now2
     (Some (VirtualCalendar.timestamp v now1 (Some t))) == t).
Proof.
  intros Hfl Hr Ht. split.
  - intros Hv.
    unfold VirtualCalendar.realStampFl. rewrite (orNow_nonzero _ _ Hv).
    unfold VirtualCalendar.timestampFl, roundtrip_scale.
    rewrite (orNow_nonzero _ _ Ht).
    destruct v as [rb vb r].
    cbn [VirtualCalendar._realBase VirtualCalendar._virtualBase
         VirtualCalendar._timeRatio] in *.
    set (x1 := t - rb). set (x2 := fl x1 / r). set (x3 := fl x2 + vb).
    set (x4 := fl x3 - vb). set (x5 := fl x4 * r). set (x6 := fl x5 + rb).
    assert (E : fl x6 - t ==
                (fl x1 - x1) + r * ((fl x2 - x2) + (fl x3 - x3) + (fl x4 - x4))
                + (fl x5 - x5) + (fl x6 - x6)).
    { unfold x6, x5, x4, x3, x2, x1. field. exact Hr. }
    eapply Qle_trans;
      [apply Qle_lteq; right; apply Qabs_wd; exact E
      |apply six_roundings; apply Hfl].
  - intros Hv. apply realStamp_timestamp_exact; assumption.
Qed.

Lemma realStamp_timestamp_roundtrip_within_epsilon_witness :
  Qabs (VirtualCalendar.realStampFl Double.round
          (VirtualCalendar.mk 1483200000000 1483200000000 3) 7
          (Some (VirtualCalendar.timestampFl Double.round
                   (VirtualCalendar.mk 1483200000000 1483200000000 3) 9
                   (Some 1501551000001))) - 1501551000001)
    <= Double.u * roundtrip_scale Double.round
                    (VirtualCalendar.mk 1483200000000 1483200000000 3)
                    1501551000001.
Proof.
  apply (realStamp_timestamp_roundtrip_within_epsilon Double.round Double.u
           (VirtualCalendar.mk 1483200000000 1483200000000 3) 9 7
           1501551000001 round_error);
    vm_compute; discriminate.
Defined.

(** The round trip of 1501551000001 at ratio 3, both anchors at
    1483200000000: the host's doubles give 1489317000000.3333 for the
    virtual time and 1501551000000.9998 for the way back, [2^-12] below
    [t], inside the bound of about 0.0017. *)
Example roundtrip_ratio_3 :
  let v := VirtualCalendar.mk 1483200000000 1483200000000 3 in
  VirtualCalendar.timestampFl Double.round v 9 (Some 1501551000001)
    == 6100242432001365 # 4096 /\
  VirtualCalendar.realStampFl Double.round v 7
    (Some (VirtualCalendar.timestampFl Double.round v 9 (Some 1501551000001)))
    == 6150352896004095 # 4096 /\
  1501551000001 - (6150352896004095 # 4096) == 1 # 4096 /\
  Double.u * roundtrip_scale Double.round v 1501551000001 < 2 # 1000.
Proof. vm_compute. repeat split; discriminate. Qed.

(** C5 as stated fails at the epoch: at [t = 0] the clock value is
    converted instead, and the round trip returns the clock value. *)
Lemma realStamp_timestamp_roundtrip_fails_at_zero :
  ~ (forall (v : VirtualCalendar.t) (now t : Q),
       VirtualCalendar.realStamp v now
         (Some (VirtualCalendar.timestamp v now (Some t))) == t).
Proof.
  intros H. specialize (H (VirtualCalendar.mk 0 0 1) 5 0).
  vm_compute in H. discriminate.
Qed.

Lemma timestamp_zero_image (v : VirtualCalendar.t) (x : Q) :
  0 < VirtualCalendar._timeRatio v ->
  (x - VirtualCalendar._realBase v) / VirtualCalendar._timeRatio v
    + VirtualCalendar._virtualBase v == 0 ->
  x - VirtualCalendar._realBase v
    == - (VirtualCalendar._virtualBase v * VirtualCalendar._timeRatio v).
Proof.
  intros Hr H.
  assert (Hne : ~ VirtualCalendar._timeRatio v == 0) by lra.
  assert (E : x - VirtualCalendar._realBase v ==
              ((x - VirtualCalendar._realBase v) / VirtualCalendar._timeRatio v
               + VirtualCalendar._virtualBase v) * VirtualCalendar._timeRatio v
              - VirtualCalendar._virtualBase v * VirtualCalendar._timeRatio v)
    by (field; exact Hne).
  rewrite H in E. rewrite E. ring.
Qed.

(** The round trip through virtual time, for a clock after the epoch and a
    positive ratio, misses [t] when [t] is 0 or its image is 0. *)
Lemma virtual_roundtrip_fails (v : VirtualCalendar.t) (now1 now2 t : Q) :
  0 < VirtualCalendar._timeRatio v -> 0 < now1 -> 0 < now2 ->
  t == 0 \/ VirtualCalendar.timestamp v now1 (Some t) == 0 ->
  ~ VirtualCalendar.realStamp v now2
      (Some (VirtualCalendar.timestamp v now1 (Some t))) == t.
Proof.
  intros Hr H1 H2 Hcase.
  assert (Hne : ~ VirtualCalendar._timeRatio v == 0) by lra.
  assert (Hpos : 0 < now2 * VirtualCalendar._timeRatio v)
    by (apply Qmult_lt_0_compat; assumption).
  set (u := VirtualCalendar.timestamp v now1 (Some t)) in *.
  destruct (Qeq_dec u 0) as [Hu|Hu].
  - (* the image is 0: realStamp converts the clock value *)
    unfold VirtualCalendar.realStamp. rewrite (orNow_zero _ _ Hu).
    unfold u, VirtualCalendar.timestamp in Hu.
    apply (timestamp_zero_image v) in Hu; [|exact Hr].
    destruct (Qeq_dec t 0) as [Ht|Ht].
    + rewrite (orNow_zero _ _ Ht) in Hu. lra.
    + rewrite (orNow_nonzero _ _ Ht) in Hu. lra.
  - (* the image is not 0, hence [t] is 0 and the clock value comes back *)
    destruct Hcase as [Ht|Hz]; [|contradiction].
    unfold VirtualCalendar.realStamp. rewrite (orNow_nonzero _ _ Hu).
    unfold u, VirtualCalendar.timestamp. rewrite (orNow_zero _ _ Ht).
    intros E.
    assert (E' : (now1 - VirtualCalendar._realBase v)
                   / VirtualCalendar._timeRatio v
                 + VirtualCalendar._virtualBase v
                 - VirtualCalendar._virtualBase v
                 == (now1 - VirtualCalendar._realBase v)
                    / VirtualCalendar._timeRatio v) by ring.
    assert (E2 : ((now1 - VirtualCalendar._realBase v)
                    / VirtualCalendar._timeRatio v
                  + VirtualCalendar._virtualBase v
                  - VirtualCalendar._virtualBase v)
                 * VirtualCalendar._timeRatio v
                 + VirtualCalendar._realBase v == now1)
      by (field; exact Hne).
    rewrite E2 in E. lra.
Qed.

(** C10: [timestamp] and [realStamp], of TradeCalendar and of
    VirtualCalendar, read the clock when the time argument is 0 or absent;
    with a clock after the epoch and a positive ratio they therefore do
    not take 0 to the value of their linear map at 0, and the round trip
    of real to virtual and back misses every [t] that is 0 or whose
    virtual image is 0. *)
Theorem stamp_of_falsy_time_reads_clock
    (v : VirtualCalendar.t) (now1 now2 t : Q) (clock1 clock2 : Z) :
  0 < VirtualCalendar._timeRatio v -> 0 < now1 -> 0 < now2 ->
  (0 < clock1)%Z -> (0 < clock2)%Z ->
  (TradeCalendar.timestamp clock1 (Some 0%Z) = clock1 /\
   TradeCalendar.timestamp clock1 None = clock1 /\
   TradeCalendar.realStamp clock1 (Some 0%Z) = clock1 /\
   TradeCalendar.realStamp clock1 None = clock1) /\
  (VirtualCalendar.timestamp v now1 (Some 0) =
     (now1 - VirtualCalendar._realBase v) / VirtualCalendar._timeRatio v
     + VirtualCalendar._virtualBase v /\
   VirtualCalendar.timestamp v now1 None =
     (now1 - VirtualCalendar._realBase v) / VirtualCalendar._timeRatio v
     + VirtualCalendar._virtualBase v /\
   VirtualCalendar.realStamp v now1 (Some 0) =
     (now1 - VirtualCalendar._virtualBase v) * VirtualCalendar._timeRatio v
     + VirtualCalendar._realBase v /\
   VirtualCalendar.realStamp v now1 None =
     (now1 - VirtualCalendar._virtualBase v) * VirtualCalendar._timeRatio v
     + VirtualCalendar._realBase v) /\
  (TradeCalendar.timestamp clock1 (Some 0%Z) <> 0%Z /\
   TradeCalendar.realStamp clock1 (Some 0%Z) <> 0%Z /\
   ~ VirtualCalendar.timestamp v now1 (Some 0) ==
       (0 - VirtualCalendar._realBase v) / VirtualCalendar._timeRatio v
       + VirtualCalendar._virtualBase v /\
   ~ VirtualCalendar.realStamp v now1 (Some 0) ==
       (0 - VirtualCalendar._virtualBase v) * VirtualCalendar._timeRatio v
       + VirtualCalendar._realBase v) /\
  TradeCalendar.realStamp clock2 (Some (TradeCalendar.timestamp clock1 (Some 0%Z)))
    <> 0%Z /\
  (t == 0 \/ VirtualCalendar.timestamp v now1 (Some t) == 0 ->
   ~ VirtualCalendar.realStamp v now2
       (Some (VirtualCalendar.timestamp v now1 (Some t))) == t).
Proof.
  intros Hr H1 H2 Hc1 Hc2.
  assert (Hne : ~ VirtualCalendar._timeRatio v == 0) by lra.
  assert (Hpos : 0 < now1 * VirtualCalendar._timeRatio v)
    by (apply Qmult_lt_0_compat; assumption).
  split; [repeat split|]. split; [repeat split|]. split; [|split].
  - simpl. repeat split; try lia.
    + unfold VirtualCalendar.timestamp. simpl. intros E.
      assert (E' : (now1 - VirtualCalendar._realBase v)
                     / VirtualCalendar._timeRatio v
                   - (0 - VirtualCalendar._realBase v)
                     / VirtualCalendar._timeRatio v
                   == now1 / VirtualCalendar._timeRatio v)
        by (field; exact Hne).
      assert (E3 : now1 / VirtualCalendar._timeRatio v == 0) by lra.
      assert (E4 : now1 == now1 / VirtualCalendar._timeRatio v
                           * VirtualCalendar._timeRatio v)
        by (field; exact Hne).
      rewrite E3 in E4. lra.
    + unfold VirtualCalendar.realStamp. simpl. lra.
  - simpl. destruct (clock1 =? 0)%Z eqn:E; [apply Z.eqb_eq in E; lia|lia].
  - apply virtual_roundtrip_fails; assumption.
Qed.

Lemma stamp_of_falsy_time_reads_clock_witness :
  TradeCalendar.realStamp 1501551000001
    (Some (TradeCalendar.timestamp 1501551000000 (Some 0%Z))) <> 0%Z /\
  ~ VirtualCalendar.realStamp (VirtualCalendar.mk 1000 4000 (1 # 2)) 7
      (Some (VirtualCalendar.timestamp (VirtualCalendar.mk 1000 4000 (1 # 2)) 9
               (Some 0))) == 0.
Proof.
  pose proof (stamp_of_falsy_time_reads_clock
                (VirtualCalendar.mk 1000 4000 (1 # 2)) 9 7 0
                1501551000000 1501551000001
                ltac:(reflexivity) ltac:(reflexivity) ltac:(reflexivity)
                ltac:(reflexivity) ltac:(reflexivity))
    as (_ & _ & _ & Ht & Hv).
  split; [exact Ht|]. apply Hv. left. reflexivity.
Defined.

End VirtualTime.

(** ** The calendar manager *)
Section Manager.
Import CalendarManager.

(** *** What each primitive leaves alone *)

Lemma update_lookup (name : string) (f : Cal.t -> Cal.t) (w : World) (n : string) :
  calendars (update name f w) !! n =
  if decide (name = n) then f <$> calendars w !! name else calendars w !! n.
Proof.
  unfold update. simpl. rewrite lookup_alter. reflexivity.
Qed.

Lemma caught_with_retry (name : string) (start_ : Z) (err : string) (w : World) :
  caught name start_ true err w =
  Done tt (set_handler name "_timeHandler" (nextHandle w)
             (snd (setTimeout (RetryCb name start_ true) 10000
                     (unset_handler name "_timeInfoHandler"
                        (clear_handler name "_timeInfoHandler" w))))).
Proof.
  unfold caught. simpl. f_equal. f_equal.
  unfold clear_handler.
  destruct (calendars w !! name) as [c|]; [|reflexivity].
  destruct (Cal.handlers c !! "_timeInfoHandler"); reflexivity.
Qed.

Lemma caught_without_retry (name : string) (start_ : Z) (err : string) (w : World) :
  caught name start_ false err w = Raised err w.
Proof. reflexivity. Qed.

Lemma setTimeInfo_with_retry_never_raises
    (fuel : nat) (name : string) (start_ : Z) (w : World) (err : string) (w' : World) :
  setTimeInfo fuel name start_ true w = Raised err w' ->
  calendars w !! name = None.
Proof.
  destruct fuel as [|fuel]; simpl; [discriminate|].
  destruct (calendars w !! name) as [cal|]; [|reflexivity].
  intros H. exfalso. unfold try_catch in H.
  match type of H with
  | match ?b with _ => _ end = _ => destruct b as [[] w1|e1 w1|]
  end; discriminate.
Qed.

(** C9: when the clock is already past the after-market-close boundary of
    the resolved trade date, the pass is the pass for the day after that
    trade date, run from the very same world: no timer was armed, no
    property of the calendar was assigned and no event was emitted for the
    skipped day, and no error is raised on account of the overrun. *)
Theorem setTimeInfo_overrun_recurses_next_day
    (fuel : nat) (name : string) (start_ : Z) (retry : bool) (w : World)
    (cal : Cal.t) (ti : TimeInfo) :
  calendars w !! name = Some cal ->
  TradeCalendar.realTimeInfo fuel (Cal.self cal) (clock w) start_ None = Ok ti ->
  TradeCalendar.realAfterMarketEnd (Cal.self cal) (clock w) (tradeDate ti) < clock w ->
  setTimeInfo (S fuel) name start_ retry w =
  setTimeInfo fuel name (addDays 1 (tradeDate ti)) retry w.
Proof.
  intros Hcal Hti Hlate. simpl. rewrite Hcal, Hti.
  apply Z.ltb_lt in Hlate. rewrite Hlate.
  unfold try_catch.
  destruct (setTimeInfo fuel name (addDays 1 (tradeDate ti)) retry w)
    as [[] w1|e1 w1|] eqn:Hrec; try reflexivity.
  destruct retry; [|reflexivity].
  apply setTimeInfo_with_retry_never_raises in Hrec. congruence.
Qed.

Lemma setTimeInfo_overrun_recurses_next_day_witness :
  setTimeInfo 11 "cn" 0 false (world_with cn at_1800) =
  setTimeInfo 10 "cn" 20170802 false (world_with cn at_1800).
Proof.
  exact (setTimeInfo_overrun_recurses_next_day 10 "cn" 0 false
           (world_with cn at_1800) (CalendarManager.Cal.new cn 1)
           (mkTimeInfo 20170801 [mkPeriod 1501551000000 1501574400000]
              1501516800000 1501603199999)
           ltac:(vm_compute; reflexivity) ltac:(vm_compute; reflexivity)
           ltac:(vm_compute; reflexivity)).
Defined.

(** At 18:00, after the after-market-close boundary of 17:25, the pass
    started for 2017-08-01 ends as the pass for 2017-08-02 and nothing is
    emitted for the skipped day. *)
Example catch_up_at_1800 :
  exists w',
    setTimeInfo 11 "cn" 0 false (world_with cn at_1800) = Done tt w' /\
    emitted w' =
      [trade_date_change "cn" 20170802 (Some 20170801) 20170803;
       system_period_change "cn" (mkPeriod 1501637400000 1501660800000) []] /\
    handler_of w' "cn" "_timeInfoHandler" = Some 5%nat.
Proof.
  eexists. split; [vm_compute; reflexivity|].
  split; vm_compute; reflexivity.
Qed.

(** [start] on a new manager registers the calendar and runs the first
    pass; at 08:00 the pass emits the trade-date and period changes and arms
    the period, market-open, market-close and terminal timers. *)
Example start_at_0800 :
  start 10 "cn" (Some (Cal.new cn 1)) (new_manager at_0800) = Done tt started_0800 /\
  emitted started_0800 =
    [trade_date_change "cn" 20170801 (Some 20170731) 20170802;
     system_period_change "cn" (mkPeriod 1501551000000 1501574400000) []] /\
  map_to_list (timers started_0800) ≡ₚ
    [(1%nat, mkTimer (RealTimeoutAtCb (SystemTimeStart "cn") 1501551000000) 5400000);
     (2%nat, mkTimer (RealTimeoutAtCb (SystemTimeEnd "cn") 1501574400000) 28800000);
     (3%nat, mkTimer (MarketOpenCb "cn") 5400000);
     (4%nat, mkTimer (MarketCloseCb "cn") 28800000);
     (5%nat, mkTimer (AfterMarketCloseCb "cn") 33900000)].
Proof.
  split; [vm_compute; reflexivity|]. split; [vm_compute; reflexivity|].
  vm_compute. apply NoDup_Permutation.
  - repeat constructor; rewrite ?list_elem_of_In; simpl; intuition congruence.
  - repeat constructor; rewrite ?list_elem_of_In; simpl; intuition congruence.
  - intros x. rewrite !list_elem_of_In. simpl. intuition auto.
Qed.

(** *** Errors of a resolution pass *)

Lemma setTimeInfo_error_with_retry
    (fuel : nat) (name : string) (start_ : Z) (w : World) (cal : Cal.t) (err : string) :
  calendars w !! name = Some cal ->
  TradeCalendar.realTimeInfo fuel (Cal.self cal) (clock w) start_ None = Throw err ->
  setTimeInfo (S fuel) name start_ true w =
  Done tt (set_handler name "_timeHandler" (nextHandle w)
             (snd (setTimeout (RetryCb name start_ true) 10000
                     (unset_handler name "_timeInfoHandler"
                        (clear_handler name "_timeInfoHandler" w))))).
Proof.
  intros Hcal Hti. simpl. rewrite Hcal, Hti. apply caught_with_retry.
Qed.

Lemma setTimeInfo_error_without_retry
    (fuel : nat) (name : string) (start_ : Z) (w : World) (cal : Cal.t) (err : string) :
  calendars w !! name = Some cal ->
  TradeCalendar.realTimeInfo fuel (Cal.self cal) (clock w) start_ None = Throw err ->
  setTimeInfo (S fuel) name start_ false w = Raised err w.
Proof.
  intros Hcal Hti. simpl. rewrite Hcal, Hti. reflexivity.
Qed.

(** The retry timer re-invokes the pass with the same arguments. *)
Lemma retry_timer_reinvokes (fuel : nat) (name : string) (start_ : Z)
    (retry : bool) (w : World) :
  run_callback fuel (RetryCb name start_ retry) w = setTimeInfo fuel name start_ retry w.
Proof. reflexivity. Qed.

(** An error of the initial pass reaches the caller of [start]. *)
Lemma start_error_propagates
    (fuel : nat) (name : string) (w : World) (cal : Cal.t) (err : string) :
  calendars w !! name = Some cal ->
  TradeCalendar.realTimeInfo fuel (Cal.self cal) (clock w) 0 None = Throw err ->
  start (S fuel) name None w = Raised err w.
Proof.
  intros Hcal Hti. unfold start. rewrite Hcal.
  apply (setTimeInfo_error_without_retry fuel name 0 w cal err Hcal Hti).
Qed.

(** C2, on the code: the pass that the after-market-close timer starts is
    called without the retry flag, so when the holiday source fails during
    it the error is raised out of the timer callback and nothing else
    happens: the fired timer is gone, the after-market-close event is
    emitted, no retry timer is armed and no property of the calendar
    changes. *)
Theorem afterMarketClose_pass_error_is_not_retried
    (fuel : nat) (name : string) (w : World) (cal : Cal.t) (h : nat) (d now : Z)
    (err : string) :
  timers w !! h = Some (mkTimer (AfterMarketCloseCb name) d) ->
  calendars w !! name = Some cal ->
  TradeCalendar.realTimeInfo fuel (Cal.self cal) now
    (addDays 1 (Cal.tradeDate cal)) None = Throw err ->
  fire (S fuel) h now w =
  Raised err (mkWorld (calendars w) (delete h (timers w)) (nextHandle w)
                (emitted w ++ [after_market_close name (Cal.tradeDate cal)]) now).
Proof.
  intros Ht Hcal Hti. unfold fire. rewrite Ht.
  cbn [callback run_callback calendars]. rewrite Hcal.
  apply (setTimeInfo_error_without_retry fuel name _ _ cal err); [exact Hcal|exact Hti].
Qed.

Lemma afterMarketClose_pass_error_is_not_retried_witness :
  fire 11 5 1501579500000 world_failing =
  Raised "ECONNREFUSED"
    (mkWorld {["cn" := cal_failing]} (delete 5%nat (timers world_failing)) 6
       [after_market_close "cn" 20170801] 1501579500000).
Proof.
  exact (afterMarketClose_pass_error_is_not_retried 10 "cn" world_failing
           cal_failing 5 33900000 1501579500000 "ECONNREFUSED"
           ltac:(vm_compute; reflexivity) ltac:(vm_compute; reflexivity)
           ltac:(vm_compute; reflexivity)).
Defined.

(** *** stop *)

Lemma clear_handler_calendars (name prop : string) (w : World) :
  calendars (clear_handler name prop w) = calendars w.
Proof.
  unfold clear_handler. destruct (calendars w !! name) as [c|]; [|reflexivity].
  destruct (Cal.handlers c !! prop); reflexivity.
Qed.

Lemma clear_handler_timers (name prop : string) (w : World) (cal : Cal.t) :
  calendars w !! name = Some cal ->
  timers (clear_handler name prop w) =
  match Cal.handlers cal !! prop with
  | Some h => delete h (timers w)
  | None => timers w
  end.
Proof.
  intros Hcal. unfold clear_handler. rewrite Hcal.
  destruct (Cal.handlers cal !! prop); reflexivity.
Qed.

Lemma clear_handler_other (name prop : string) (w : World) (cal : Cal.t) (h : nat) :
  calendars w !! name = Some cal ->
  Cal.handlers cal !! prop <> Some h ->
  timers (clear_handler name prop w) !! h = timers w !! h.
Proof.
  intros Hcal Hne. rewrite (clear_handler_timers _ _ _ _ Hcal).
  destruct (Cal.handlers cal !! prop) as [h'|]; [|reflexivity].
  apply lookup_delete_ne. congruence.
Qed.

Lemma stop_unknown_name (name : string) (w : World) :
  calendars w !! name = None -> stop name w = w.
Proof. intros H. unfold stop. rewrite H. reflexivity. Qed.

Lemma clear_handler_eq (name prop : string) (w : World) (cal : Cal.t) :
  calendars w !! name = Some cal ->
  clear_handler name prop w =
  mkWorld (calendars w) (cancel cal prop (timers w)) (nextHandle w) (emitted w) (clock w).
Proof.
  intros Hcal. unfold clear_handler, cancel. rewrite Hcal.
  destruct (Cal.handlers cal !! prop); [reflexivity|]. destruct w; reflexivity.
Qed.

Lemma stop_eq (name : string) (w : World) (cal : Cal.t) :
  calendars w !! name = Some cal ->
  stop name w =
  mkWorld (calendars w)
    (cancel cal "_endTimeHandler"
       (cancel cal "_startTimeHandler" (cancel cal "_timeInfoHandler" (timers w))))
    (nextHandle w) (emitted w) (clock w).
Proof.
  intros Hcal. unfold stop. rewrite Hcal.
  rewrite (clear_handler_eq name "_timeInfoHandler" w cal Hcal).
  rewrite (clear_handler_eq name "_startTimeHandler" (mkWorld _ _ _ _ _) cal Hcal).
  rewrite (clear_handler_eq name "_endTimeHandler" (mkWorld _ _ _ _ _) cal Hcal).
  reflexivity.
Qed.

Lemma cancel_lookup (cal : Cal.t) (prop : string) (m : gmap nat Timer) (i : nat) :
  cancel cal prop m !! i =
  if decide (Cal.handlers cal !! prop = Some i) then None else m !! i.
Proof.
  unfold cancel. destruct (Cal.handlers cal !! prop) as [h|].
  - rewrite lookup_delete. repeat case_decide; congruence.
  - case_decide; [discriminate|reflexivity].
Qed.

Lemma stop_idempotent (name : string) (w : World) :
  stop name (stop name w) = stop name w.
Proof.
  destruct (calendars w !! name) as [cal|] eqn:Hcal.
  - rewrite (stop_eq name w cal Hcal).
    rewrite (stop_eq name (mkWorld _ _ _ _ _) cal Hcal). simpl. f_equal.
    apply map_eq. intros i. rewrite !cancel_lookup.
    repeat case_decide; reflexivity.
  - rewrite !(stop_unknown_name name w Hcal). reflexivity.
Qed.

Lemma stop_cancels_three (name : string) (w : World) (cal : Cal.t) (prop : string) (h : nat) :
  calendars w !! name = Some cal ->
  prop = "_timeInfoHandler" \/ prop = "_startTimeHandler" \/ prop = "_endTimeHandler" ->
  Cal.handlers cal !! prop = Some h ->
  timers (stop name w) !! h = None.
Proof.
  intros Hcal Hprop Hh. rewrite (stop_eq name w cal Hcal). simpl.
  rewrite !cancel_lookup.
  destruct Hprop as [-> | [-> | ->]]; repeat case_decide; congruence.
Qed.

(** C3, on the code: stop cancels the handles kept in [_timeInfoHandler],
    [_startTimeHandler] and [_endTimeHandler] and no other; a timer whose
    handle is kept in [_marketOpenTimeHandler], [_marketCloseTimeHandler]
    or [_timeHandler] (the retry timer) is still armed after stop. *)
Theorem stop_leaves_market_and_retry_timers_armed
    (name : string) (w : World) (cal : Cal.t) (prop : string) (h : nat) (t : Timer) :
  calendars w !! name = Some cal ->
  prop = "_marketOpenTimeHandler" \/ prop = "_marketCloseTimeHandler" \/
    prop = "_timeHandler" ->
  Cal.handlers cal !! prop = Some h ->
  timers w !! h = Some t ->
  Cal.handlers cal !! "_timeInfoHandler" <> Some h ->
  Cal.handlers cal !! "_startTimeHandler" <> Some h ->
  Cal.handlers cal !! "_endTimeHandler" <> Some h ->
  timers (stop name w) !! h = Some t.
Proof.
  intros Hcal _ _ Ht Hn1 Hn2 Hn3. unfold stop. rewrite Hcal.
  assert (H1 : calendars (clear_handler name "_timeInfoHandler" w) !! name = Some cal)
    by (rewrite clear_handler_calendars; exact Hcal).
  assert (H2 : calendars (clear_handler name "_startTimeHandler"
                            (clear_handler name "_timeInfoHandler" w)) !! name = Some cal)
    by (rewrite clear_handler_calendars; exact H1).
  rewrite (clear_handler_other _ _ _ _ _ H2 Hn3),
    (clear_handler_other _ _ _ _ _ H1 Hn2),
    (clear_handler_other _ _ _ _ _ Hcal Hn1).
  exact Ht.
Qed.

Lemma stop_leaves_market_and_retry_timers_armed_witness :
  timers (stop "cn" started_0800) !! 4%nat =
  Some (mkTimer (MarketCloseCb "cn") 28800000).
Proof.
  exact (stop_leaves_market_and_retry_timers_armed "cn" started_0800
           cal_started_0800 "_marketCloseTimeHandler" 4
           (mkTimer (MarketCloseCb "cn") 28800000)
           ltac:(vm_compute; reflexivity)
           ltac:(right; left; reflexivity)
           ltac:(vm_compute; reflexivity) ltac:(vm_compute; reflexivity)
           ltac:(vm_compute; discriminate) ltac:(vm_compute; discriminate)
           ltac:(vm_compute; discriminate)).
Defined.

(** *** The timers armed by a successful pass *)

Lemma arm_timers (name prop : string) (cb : Callback) (d : Z) (w : World) :
  timers (arm name prop cb d w) = <[nextHandle w := mkTimer cb d]> (timers w).
Proof. reflexivity. Qed.

Lemma arm_nextHandle (name prop : string) (cb : Callback) (d : Z) (w : World) :
  nextHandle (arm name prop cb d w) = S (nextHandle w).
Proof. reflexivity. Qed.

Lemma arm_clock (name prop : string) (cb : Callback) (d : Z) (w : World) :
  clock (arm name prop cb d w) = clock w.
Proof. reflexivity. Qed.

Lemma arm_registered (name prop : string) (cb : Callback) (d : Z) (w : World) :
  is_Some (calendars w !! name) -> is_Some (calendars (arm name prop cb d w) !! name).
Proof.
  intros [c Hc]. unfold arm, set_handler. rewrite update_lookup.
  case_decide; [|congruence]. simpl. rewrite Hc. eauto.
Qed.

Lemma arm_handler_of (name prop prop' : string) (cb : Callback) (d : Z) (w : World) :
  is_Some (calendars w !! name) ->
  handler_of (arm name prop cb d w) name prop' =
  if decide (prop = prop') then Some (nextHandle w) else handler_of w name prop'.
Proof.
  intros [c Hc]. unfold handler_of, arm, set_handler. rewrite update_lookup.
  case_decide; [|congruence]. simpl. rewrite Hc. simpl.
  rewrite lookup_insert. reflexivity.
Qed.

Lemma arm_arms_only (P : Callback -> Prop) (name prop : string) (cb : Callback)
    (d : Z) (w : World) :
  P cb -> arms_only P w (arm name prop cb d w).
Proof.
  intros HP h t. rewrite arm_timers. rewrite lookup_insert.
  case_decide; [|auto]. intros [= <-]. right. exact HP.
Qed.

Lemma arms_only_refl (P : Callback -> Prop) (w w' : World) :
  timers w' = timers w -> arms_only P w w'.
Proof. intros E h t H. left. rewrite <- E. exact H. Qed.

Lemma arms_only_trans (P : Callback -> Prop) (w1 w2 w3 : World) :
  arms_only P w1 w2 -> arms_only P w2 w3 -> arms_only P w1 w3.
Proof.
  intros H12 H23 h t H. destruct (H23 h t H) as [H2|HP]; [|right; exact HP].
  apply H12, H2.
Qed.

Lemma clear_handler_arms_only (P : Callback -> Prop) (name prop : string) (w : World) :
  arms_only P w (clear_handler name prop w).
Proof.
  intros h t. unfold clear_handler.
  destruct (calendars w !! name) as [c|]; [|auto].
  destruct (Cal.handlers c !! prop) as [h'|]; [|auto].
  simpl. rewrite lookup_delete. case_decide; [discriminate|auto].
Qed.

Lemma clear_handler_clock (name prop : string) (w : World) :
  clock (clear_handler name prop w) = clock w.
Proof.
  unfold clear_handler. destruct (calendars w !! name) as [c|]; [|reflexivity].
  destruct (Cal.handlers c !! prop); reflexivity.
Qed.

Lemma update_registered (name : string) (f : Cal.t -> Cal.t) (w : World) :
  is_Some (calendars w !! name) -> is_Some (calendars (update name f w) !! name).
Proof.
  intros [c Hc]. rewrite update_lookup. case_decide; [|congruence].
  rewrite Hc. simpl. eauto.
Qed.

Lemma changeSystemPeriod_eq (name : string) (w : World) (c : Cal.t)
    (p : TimePeriod) (rest : list TimePeriod) :
  calendars w !! name = Some c ->
  Cal.systemPeriods c = p :: rest ->
  changeSystemPeriod name w =
  let w1 := update name (fun c => Cal.set_systemPeriods rest
                           (Cal.set_systemPeriod (Some p) c)) w in
  let w4 := clear_handler name "_endTimeHandler"
              (clear_handler name "_startTimeHandler"
                 (emit (system_period_change name p rest) w1)) in
  let w6 := arm name "_startTimeHandler"
              (RealTimeoutAtCb (SystemTimeStart name) (period_start p))
              (period_start p - clock w4) w4 in
  arm name "_endTimeHandler" (RealTimeoutAtCb (SystemTimeEnd name) (end_ p))
    (end_ p - clock w6) w6.
Proof.
  intros Hc Hp. unfold changeSystemPeriod. rewrite Hc, Hp. reflexivity.
Qed.

Lemma changeSystemPeriod_facts (name : string) (w : World) :
  is_Some (calendars w !! name) ->
  is_Some (calendars (changeSystemPeriod name w) !! name) /\
  clock (changeSystemPeriod name w) = clock w /\
  arms_only not_market_open w (changeSystemPeriod name w).
Proof.
  intros Hreg. destruct Hreg as [c Hc].
  destruct (Cal.systemPeriods c) as [|p rest] eqn:Hp.
  - unfold changeSystemPeriod. rewrite Hc, Hp.
    split; [eauto|]. split; [reflexivity|]. apply arms_only_refl. reflexivity.
  - rewrite (changeSystemPeriod_eq name w c p rest Hc Hp). cbv zeta.
    set (w1 := update name _ w).
    set (w4 := clear_handler name "_endTimeHandler" _).
    assert (Hreg4 : is_Some (calendars w4 !! name)).
    { unfold w4. rewrite !clear_handler_calendars. simpl.
      apply (update_registered name _ w). eauto. }
    assert (Hclk4 : clock w4 = clock w).
    { unfold w4. rewrite !clear_handler_clock. reflexivity. }
    split; [apply arm_registered, arm_registered, Hreg4|].
    split; [rewrite !arm_clock; exact Hclk4|].
    apply arms_only_trans with w4.
    + unfold w4.
      eapply arms_only_trans; [|apply clear_handler_arms_only].
      eapply arms_only_trans; [|apply clear_handler_arms_only].
      apply arms_only_refl. reflexivity.
    + eapply arms_only_trans; apply arm_arms_only; intros n; discriminate.
Qed.

Lemma changeTradeDate_facts (fuel : nat) (name : string) (ti : TimeInfo)
    (w w1 : World) :
  changeTradeDate fuel name ti w = Done tt w1 ->
  is_Some (calendars w1 !! name) /\ clock w1 = clock w /\
  timers w1 = timers w /\ nextHandle w1 = nextHandle w.
Proof.
  unfold changeTradeDate.
  destruct (calendars w !! name) as [c|] eqn:Hc; [|discriminate].
  destruct (Cal.tradeDate c =? tradeDate ti).
  { intros [= <-]. rewrite Hc. eauto. }
  set (pre := if 0 <? Cal.tradeDate c then _ else _).
  destruct pre as [p|e|]; try discriminate.
  destruct (TradeCalendar.realTimeInfo fuel (Cal.self c) (clock w)
              (addDays 1 (tradeDate ti)) (Some 1)) as [nd|e|]; try discriminate.
  intros [= <-]. simpl. split; [|auto].
  rewrite lookup_alter. case_decide; [|congruence].
  rewrite lookup_alter. case_decide; [|congruence].
  rewrite Hc. simpl. eauto.
Qed.

Lemma armMarketTimers_eq (name : string) (mo mc now : Z) (w : World) :
  mo <> 0 -> mc <> 0 ->
  armMarketTimers name (Some mo) (Some mc) now w =
  arm name "_marketCloseTimeHandler" (MarketCloseCb name) (mc - clock w)
    (if now <? mc
     then arm name "_marketOpenTimeHandler" (MarketOpenCb name) (mo - clock w) w
     else w).
Proof.
  intros Hmo Hmc. unfold armMarketTimers, truthy.
  apply Z.eqb_neq in Hmo. apply Z.eqb_neq in Hmc. rewrite Hmo, Hmc. simpl.
  unfold TradeCalendar.timestamp. rewrite Hmo, Hmc.
  destruct (now <? mc); reflexivity.
Qed.

Lemma resolved_eq (fuel : nat) (name : string) (c : TradeCalendar.t)
    (ti : TimeInfo) (now : Z) (w w1 : World) :
  changeTradeDate fuel name ti w = Done tt w1 ->
  resolved fuel name c ti now w =
  let w4 := clear_handler name "_timeInfoHandler"
              (changeSystemPeriod name
                 (update name (Cal.set_systemPeriods (timePeriods ti)) w1)) in
  let w5 := armMarketTimers name (marketOpenOf ti) (marketCloseOf ti) now w4 in
  Done tt (arm name "_timeInfoHandler" (AfterMarketCloseCb name)
             (TradeCalendar.afterMarketEnd c (tradeDate ti) - clock w5) w5).
Proof.
  intros H. unfold resolved. rewrite H. reflexivity.
Qed.

(** C4, as the code has it: a successful pass whose first period starts
    and whose last period ends at non-zero timestamps always arms the
    market-close timer, and arms the market-open timer exactly when the
    clock is before the market close (the end of the last period), hence
    also when the market-open time has passed but the market has not yet
    closed; at or after the close no market-open timer is armed; each of
    the two timers emits its event when it fires. *)
Theorem setTimeInfo_arms_market_timers
    (fuel : nat) (name : string) (start_ : Z) (retry : bool) (w w' : World)
    (cal : Cal.t) (ti : TimeInfo) (mo mc : Z) :
  calendars w !! name = Some cal ->
  TradeCalendar.realTimeInfo fuel (Cal.self cal) (clock w) start_ None = Ok ti ->
  clock w <= TradeCalendar.realAfterMarketEnd (Cal.self cal) (clock w) (tradeDate ti) ->
  marketOpenOf ti = Some mo -> marketCloseOf ti = Some mc ->
  mo <> 0 -> mc <> 0 ->
  resolved fuel name (Cal.self cal) ti (clock w) w = Done tt w' ->
  setTimeInfo (S fuel) name start_ retry w = Done tt w' /\
  (exists h, handler_of w' name "_marketCloseTimeHandler" = Some h /\
             timers w' !! h = Some (mkTimer (MarketCloseCb name) (mc - clock w))) /\
  (clock w < mc ->
   exists h, handler_of w' name "_marketOpenTimeHandler" = Some h /\
             timers w' !! h = Some (mkTimer (MarketOpenCb name) (mo - clock w))) /\
  (mc <= clock w -> arms_only not_market_open w w') /\
  (forall f w2 c, calendars w2 !! name = Some c ->
     run_callback f (MarketOpenCb name) w2 =
       Done tt (emit (market_open name (Cal.tradeDate c)) w2) /\
     run_callback f (MarketCloseCb name) w2 =
       Done tt (emit (market_close name (Cal.tradeDate c)) w2)).
Proof.
  intros Hcal Hti Hnot Hmo Hmc Hmo0 Hmc0 Hres.
  split.
  { simpl. rewrite Hcal, Hti.
    destruct (_ <? clock w) eqn:E; [apply Z.ltb_lt in E; lia|].
    rewrite Hres. reflexivity. }
  destruct (changeTradeDate fuel name ti w) as [[] w1|e w1|] eqn:Hctd;
    try (unfold resolved in Hres; rewrite Hctd in Hres; discriminate).
  rewrite (resolved_eq _ _ _ _ _ _ _ Hctd) in Hres. cbv zeta in Hres.
  destruct (changeTradeDate_facts _ _ _ _ _ Hctd) as (Hreg1 & Hclk1 & Htm1 & _).
  set (w2 := update name (Cal.set_systemPeriods (timePeriods ti)) w1) in *.
  assert (Hreg2 : is_Some (calendars w2 !! name)) by (apply update_registered, Hreg1).
  destruct (changeSystemPeriod_facts name w2 Hreg2) as (Hreg3 & Hclk3 & Harm3).
  set (w4 := clear_handler name "_timeInfoHandler" (changeSystemPeriod name w2)) in *.
  assert (Hreg4 : is_Some (calendars w4 !! name))
    by (unfold w4; rewrite clear_handler_calendars; exact Hreg3).
  assert (Hclk4 : clock w4 = clock w).
  { unfold w4. rewrite clear_handler_clock, Hclk3. exact Hclk1. }
  assert (Harm4 : arms_only not_market_open w w4).
  { apply arms_only_trans with w2; [apply arms_only_refl; exact Htm1|].
    apply arms_only_trans with (changeSystemPeriod name w2); [exact Harm3|].
    apply clear_handler_arms_only. }
  rewrite Hmo, Hmc, (armMarketTimers_eq name mo mc (clock w) w4 Hmo0 Hmc0) in Hres.
  rewrite Hclk4 in Hres.
  set (wX := if clock w <? mc then _ else w4) in *.
  assert (HregX : is_Some (calendars wX !! name)).
  { unfold wX. destruct (clock w <? mc); [apply arm_registered|]; exact Hreg4. }
  injection Hres as <-.
  split; [|split; [|split]].
  - exists (nextHandle wX). split.
    + rewrite arm_handler_of by (apply arm_registered, HregX).
      case_decide; [discriminate|].
      rewrite arm_handler_of by exact HregX.
      case_decide; [reflexivity|congruence].
    + rewrite arm_timers, arm_nextHandle.
      rewrite lookup_insert_ne by lia.
      rewrite arm_timers. apply lookup_insert_eq.
  - intros Hlt. apply Z.ltb_lt in Hlt.
    exists (nextHandle w4). unfold wX in *. rewrite Hlt in *. split.
    + rewrite arm_handler_of by (apply arm_registered, HregX).
      case_decide; [discriminate|].
      rewrite arm_handler_of by exact HregX.
      case_decide; [discriminate|].
      rewrite arm_handler_of by exact Hreg4.
      case_decide; [reflexivity|congruence].
    + rewrite arm_timers, !arm_nextHandle.
      rewrite lookup_insert_ne by lia.
      rewrite arm_timers, arm_nextHandle.
      rewrite lookup_insert_ne by lia.
      rewrite arm_timers. apply lookup_insert_eq.
  - intros Hge. apply Z.ltb_ge in Hge. unfold wX. rewrite Hge.
    apply arms_only_trans with w4; [exact Harm4|].
    eapply arms_only_trans; apply arm_arms_only; intros n; discriminate.
  - intros f w2' c Hc. simpl. rewrite Hc. split; reflexivity.
Qed.

Lemma setTimeInfo_arms_market_timers_witness :
  setTimeInfo 10 "cn" 0 false (world_with cn at_0800) = Done tt started_0800 /\
  exists h, handler_of started_0800 "cn" "_marketCloseTimeHandler" = Some h /\
            timers started_0800 !! h =
            Some (mkTimer (MarketCloseCb "cn") (1501574400000 - at_0800)).
Proof.
  pose proof (setTimeInfo_arms_market_timers 9 "cn" 0 false
                (world_with cn at_0800) started_0800 (Cal.new cn 1) ti_20170801
                1501551000000 1501574400000
                ltac:(vm_compute; reflexivity) ltac:(vm_compute; reflexivity)
                ltac:(vm_compute; discriminate)
                ltac:(vm_compute; reflexivity) ltac:(vm_compute; reflexivity)
                ltac:(discriminate) ltac:(discriminate)
                ltac:(vm_compute; reflexivity))
    as (H1 & H2 & _).
  exact (conj H1 H2).
Defined.

(** C4 as stated fails between open and close: started at 12:00, after the
    market-open time of 09:30, the pass arms a market-open timer (with a
    negative delay). *)
Lemma market_open_timer_armed_after_open_time :
  setTimeInfo 10 "cn" 0 false (world_with cn at_1200) = Done tt started_1200 /\
  TradeCalendar.realTimeInfo 9 cn at_1200 0 None = Ok ti_20170801 /\
  marketOpenOf ti_20170801 = Some 1501551000000 /\
  ~ (1501551000000 <= at_1200 ->
     forall h t, timers started_1200 !! h = Some t ->
                 callback t <> MarketOpenCb "cn").
Proof.
  split; [vm_compute; reflexivity|].
  split; [vm_compute; reflexivity|].
  split; [reflexivity|].
  intros H.
  apply (H ltac:(vm_compute; discriminate) 3%nat
           (mkTimer (MarketOpenCb "cn") (1501551000000 - at_1200))).
  - vm_compute. reflexivity.
  - reflexivity.
Qed.

End Manager.

(** * Further properties of the sources *)

(** ** findHolidays *)
Section NormalizationMore.
Import TradeCalendar.

Lemma covers_cons (p : TimePeriod) (l : list TimePeriod) (x : Z) :
  covers (p :: l) x <-> start p <= x <= end_ p \/ covers l x.
Proof.
  unfold covers. split.
  - intros (q & [<-|Hq] & Hx); [left; exact Hx|right; eauto].
  - intros [Hx|(q & Hq & Hx)]; [exists p|exists q]; simpl; auto.
Qed.

Lemma sort_by_start_In (x : TimePeriod) (l : list TimePeriod) :
  In x (sort_by_start l) <-> In x l.
Proof.
  induction l as [|h t IH]; simpl; [tauto|].
  rewrite sort_insert_In, IH. intuition auto.
Qed.

Lemma merge_from_covered (l : list TimePeriod) :
  forall pre x, covers (merge_from pre l) x -> covers (pre :: l) x.
Proof.
  induction l as [|h t IH]; intros pre x; simpl; [auto|].
  destruct (end_ pre <? start h) eqn:E.
  - rewrite period_eta. rewrite (covers_cons pre (merge_from h t)).
    intros [Hx|Hx]; [apply covers_cons; auto|].
    apply covers_cons. right. apply IH, Hx.
  - apply Z.ltb_ge in E. intros Hx. apply IH in Hx.
    apply covers_cons in Hx. simpl in Hx.
    rewrite !covers_cons. destruct Hx as [Hx|Hx]; [|auto].
    destruct (Z_le_gt_dec x (end_ pre)); [left; lia|right; left; lia].
Qed.

Lemma sort_insert_length (h : TimePeriod) (l : list TimePeriod) :
  length (sort_insert h l) = S (length l).
Proof.
  induction l as [|x xs IH]; simpl; [reflexivity|].
  destruct (start h <=? start x); simpl; [reflexivity|]. rewrite IH. reflexivity.
Qed.

Lemma sort_by_start_length (l : list TimePeriod) :
  length (sort_by_start l) = length l.
Proof.
  induction l as [|h t IH]; simpl; [reflexivity|].
  rewrite sort_insert_length, IH. reflexivity.
Qed.

Lemma merge_from_length (l : list TimePeriod) :
  forall pre, (length (merge_from pre l) <= S (length l))%nat.
Proof.
  induction l as [|h t IH]; intros pre; simpl; [lia|].
  destruct (end_ pre <? start h); simpl.
  - specialize (IH (mkPeriod (start h) (end_ h))). lia.
  - specialize (IH (mkPeriod (start pre) (end_ h))). lia.
Qed.

(** X1: findHolidays never invents a holiday: every instant covered by an
    interval of its result is covered by an interval the source returned,
    and the result has no more intervals than the source returned. *)
Theorem findHolidays_adds_no_coverage
    (c : TradeCalendar.t) (s e : Z) (hs rs : list TimePeriod) :
  _holidayFinder c s e = FinderList hs ->
  findHolidays c s e = Ok rs ->
  (forall x, covers rs x -> covers hs x) /\
  (length rs <= length hs)%nat.
Proof.
  intros Hf Hr. unfold findHolidays in Hr. rewrite Hf in Hr.
  injection Hr as <-. rewrite normalize_unfold.
  pose proof (sort_by_start_length hs) as Hlen.
  assert (Hin : forall x, covers (sort_by_start hs) x -> covers hs x).
  { intros x (p & Hp & Hx). exists p. split; [apply sort_by_start_In, Hp|exact Hx]. }
  destruct (sort_by_start hs) as [|h t].
  - split; [intros x (p & [] & _)|simpl; lia].
  - split.
    + intros x Hx. apply Hin, merge_from_covered, Hx.
    + pose proof (merge_from_length t h). simpl in Hlen. lia.
Qed.

Lemma findHolidays_adds_no_coverage_witness :
  (forall x, covers [mkPeriod 0 20] x -> covers [mkPeriod 0 100; mkPeriod 10 20] x) /\
  (length [mkPeriod 0 20] <= length [mkPeriod 0 100; mkPeriod 10 20])%nat.
Proof.
  exact (findHolidays_adds_no_coverage cn_nested 0 100
           [mkPeriod 0 100; mkPeriod 10 20] [mkPeriod 0 20] eq_refl eq_refl).
Defined.

Lemma merge_from_covers_all (l : list TimePeriod) :
  forall pre x, StronglySorted le_both (pre :: l) ->
    covers (pre :: l) x -> covers (merge_from pre l) x.
Proof.
  induction l as [|h t IH]; intros pre x Hs; simpl; [auto|].
  apply StronglySorted_inv in Hs as [Hs' Hall].
  pose proof (List.Forall_inv Hall) as [Hph1 Hph2].
  apply List.Forall_inv_tail in Hall.
  destruct (end_ pre <? start h) eqn:E.
  - rewrite period_eta. rewrite (covers_cons pre (h :: t)).
    intros [Hx|Hx]; apply covers_cons; [left; exact Hx|].
    right. apply IH; assumption.
  - apply Z.ltb_ge in E. intros Hx. apply IH.
    + apply StronglySorted_inv in Hs' as [Hst Hht].
      constructor; [exact Hst|].
      rewrite List.Forall_forall in Hht |- *. intros z Hz.
      specialize (Hht z Hz). unfold le_both in *. simpl. lia.
    + rewrite !covers_cons in Hx. rewrite covers_cons. simpl.
      destruct Hx as [Hx|[Hx|Hx]]; [left; lia|left; lia|right; exact Hx].
Qed.

Lemma le_both_sorted (l : list TimePeriod) :
  StronglySorted le_both l -> StronglySorted le_start l.
Proof.
  induction 1 as [|a l Hs IH Hall]; constructor; [exact IH|].
  rewrite List.Forall_forall in Hall |- *. intros x Hx. apply (Hall x Hx).
Qed.

(** X2: when the source returns its intervals ordered by start and their
    ends ascend as well (no interval ends before an earlier one does),
    findHolidays loses nothing: its result covers exactly the instants the
    source's intervals cover. *)
Theorem findHolidays_keeps_coverage_when_ends_ascend
    (c : TradeCalendar.t) (s e : Z) (hs : list TimePeriod) :
  _holidayFinder c s e = FinderList hs ->
  StronglySorted le_both hs ->
  exists rs, findHolidays c s e = Ok rs /\
             forall x, covers rs x <-> covers hs x.
Proof.
  intros Hf Hs. exists (normalize hs). split.
  - unfold findHolidays. rewrite Hf. reflexivity.
  - intros x. rewrite normalize_unfold.
    rewrite (sort_by_start_id hs (le_both_sorted hs Hs)).
    destruct hs as [|h t]; [tauto|]. split.
    + apply merge_from_covered.
    + apply merge_from_covers_all, Hs.
Qed.

Lemma findHolidays_keeps_coverage_when_ends_ascend_witness :
  exists rs, findHolidays cn_two_closures 0 1 = Ok rs /\
             forall x, covers rs x <-> covers two_closures x.
Proof.
  apply (findHolidays_keeps_coverage_when_ends_ascend cn_two_closures 0 1
           two_closures eq_refl).
  unfold two_closures. repeat constructor; simpl; lia.
Defined.

End NormalizationMore.

(** ** timeInfo and realTimeInfo *)
Section ResolverMore.
Import TradeCalendar.

(** One candidate day: with fuel 1 the loop either settles the day or,
    when the day is rejected, runs out of fuel. *)
Lemma timeInfo_loop_step (fuel : nat) (c : TradeCalendar.t) (d dir : Z) :
  timeInfo_loop (S fuel) c d dir =
  match timeInfo_loop 1 c d dir with
  | Diverge => timeInfo_loop fuel c (d + dir) dir
  | r => r
  end.
Proof.
  simpl.
  destruct ((0 <? Moment.days d) && (Moment.days d <? 6)); [|reflexivity].
  unfold findHolidays.
  destruct (_holidayFinder c _ _) as [err| |hs]; try reflexivity.
  - destruct (normalize hs) as [|h t]; [reflexivity|].
    destruct (fold_left _ (h :: t) []); reflexivity.
Qed.

Lemma timeInfo_loop_one_dayStart (c : TradeCalendar.t) (d dir : Z) (ti : TimeInfo) :
  timeInfo_loop 1 c d dir = Ok ti ->
  dayStart ti = Moment.startOfDay (timezoneOffset c) d /\
  dayEnd ti = Moment.endOfDay (timezoneOffset c) d /\
  tradeDate ti = Moment.format8 d.
Proof.
  simpl.
  destruct ((0 <? Moment.days d) && (Moment.days d <? 6)); [|discriminate].
  destruct (findHolidays c _ _) as [hs|err|]; try discriminate.
  match goal with
  | |- match ?tps with _ => _ end = _ -> _ => destruct tps; [discriminate|]
  end.
  intros [= <-]. simpl. auto.
Qed.

Lemma timeInfo_loop_first_open (fuel : nat) (c : TradeCalendar.t) (dir : Z) :
  forall d ti,
    timeInfo_loop fuel c d dir = Ok ti ->
    exists k : nat,
      (k < fuel)%nat /\
      timeInfo_loop 1 c (d + Z.of_nat k * dir) dir = Ok ti /\
      forall j : nat, (j < k)%nat ->
        timeInfo_loop 1 c (d + Z.of_nat j * dir) dir = Diverge.
Proof.
  induction fuel as [|fuel IH]; intros d ti H; [discriminate|].
  rewrite timeInfo_loop_step in H.
  destruct (timeInfo_loop 1 c d dir) as [ti'|err|] eqn:H1; try discriminate.
  - exists 0%nat. split; [lia|]. split.
    + replace (d + Z.of_nat 0 * dir) with d by lia. congruence.
    + intros j Hj. lia.
  - destruct (IH _ _ H) as (k & Hk & Hok & Hrej).
    exists (S k). split; [lia|]. split.
    + replace (d + Z.of_nat (S k) * dir) with (d + dir + Z.of_nat k * dir) by lia.
      exact Hok.
    + intros [|j] Hj.
      * replace (d + Z.of_nat 0 * dir) with d by lia. exact H1.
      * replace (d + Z.of_nat (S j) * dir) with (d + dir + Z.of_nat j * dir) by lia.
        apply Hrej. lia.
Qed.

Lemma holiday_periods_none (c : TradeCalendar.t) (s e : Z) (l : list TimePeriod) :
  forall acc,
    fold_left (holiday_periods c s e) l acc = [] ->
    acc = [] /\ forall h, In h l -> spans s e h.
Proof.
  induction l as [|h t IH]; intros acc H; simpl in H.
  - split; [exact H|intros h []].
  - destruct (IH _ H) as [Hacc Ht]. unfold holiday_periods in Hacc.
    destruct (s <? start h) eqn:E1.
    { destruct (end_ h <? e); destruct acc; discriminate. }
    destruct (end_ h <? e) eqn:E2.
    { destruct acc; discriminate. }
    split; [exact Hacc|].
    intros x [<-|Hx]; [|apply Ht; exact Hx].
    apply Z.ltb_ge in E1. apply Z.ltb_ge in E2. split; lia.
Qed.

(** The day the loop settles on is a day from Monday to Friday whose
    periods, computed from its merged holidays, are not empty. *)
Lemma timeInfo_loop_one_accepts (c : TradeCalendar.t) (d dir : Z) (ti : TimeInfo) :
  timeInfo_loop 1 c d dir = Ok ti ->
  0 < Moment.days d < 6 /\
  exists hs,
    holidays_of c d = Ok hs /\
    timePeriods ti = periods_for c d hs /\
    timePeriods ti <> [].
Proof.
  unfold holidays_of, periods_for. simpl.
  destruct ((0 <? Moment.days d) && (Moment.days d <? 6)) eqn:Hb; [|discriminate].
  apply andb_true_iff in Hb. rewrite !Z.ltb_lt in Hb.
  destruct (findHolidays c _ _) as [hs|err|]; try discriminate.
  match goal with
  | |- match ?tps with _ => _ end = _ -> _ => destruct tps eqn:E; [discriminate|]
  end.
  intros [= <-]. split; [lia|]. exists hs. split; [reflexivity|].
  simpl. split; [symmetry; exact E|discriminate].
Qed.

(** A day the loop passes over is not a trade date. *)
Lemma timeInfo_loop_one_rejects (c : TradeCalendar.t) (d dir : Z) :
  timeInfo_loop 1 c d dir = Diverge -> not_a_trade_date c d.
Proof.
  unfold not_a_trade_date, holidays_of. simpl.
  destruct ((0 <? Moment.days d) && (Moment.days d <? 6)) eqn:Hb.
  - destruct (findHolidays c _ _) as [hs|err|] eqn:Hf; try discriminate.
    + match goal with
      | |- match ?tps with _ => _ end = _ -> _ => destruct tps eqn:E; [|discriminate]
      end.
      intros _. right. right. exists hs. split; [reflexivity|].
      destruct hs as [|h t]; [discriminate|].
      split; [discriminate|]. apply (holiday_periods_none _ _ _ _ _ E).
    + unfold findHolidays in Hf. destruct (_holidayFinder c _ _); discriminate.
  - intros _. apply andb_false_iff in Hb. rewrite !Z.ltb_ge in Hb.
    unfold Moment.days in *. clear -Hb. Z.div_mod_to_equations. lia.
Qed.

(** X3: for a calendar date, the TimeInfo timeInfo returns is that of the
    first trade date counting from the given date in the search direction.
    The day [k] steps away is a day from Monday to Friday; its periods are
    the ones computed from its merged holidays and are not empty;
    [tradeDate], [dayStart] and [dayEnd] are those of that day; and each of
    the [k] days before it in that direction is a Saturday, a Sunday, or a
    day with at least one holiday all of whose merged holidays span the
    whole session. *)
Theorem timeInfo_returns_first_open_day
    (fuel : nat) (c : TradeCalendar.t) (date : Z) (direction : option Z)
    (ti : TimeInfo) :
  calendar_date date ->
  timeInfo fuel c date direction = Ok ti ->
  exists (k : nat) (hs : list TimePeriod),
    (k < fuel)%nat /\
    let dir := normDirection direction in
    let day := Moment.parse8 date + Z.of_nat k * dir in
    0 < Moment.days day < 6 /\
    holidays_of c day = Ok hs /\
    timePeriods ti = periods_for c day hs /\
    timePeriods ti <> [] /\
    tradeDate ti = Moment.format8 day /\
    dayStart ti = Moment.startOfDay (timezoneOffset c) day /\
    dayEnd ti = Moment.endOfDay (timezoneOffset c) day /\
    forall j : nat, (j < k)%nat ->
      not_a_trade_date c (Moment.parse8 date + Z.of_nat j * dir).
Proof.
  unfold timeInfo. intros _ H.
  destruct (timeInfo_loop_first_open _ _ _ _ _ H) as (k & Hk & Hok & Hrej).
  destruct (timeInfo_loop_one_accepts _ _ _ _ Hok) as (Hwd & hs & Hh & Hp & Hne).
  destruct (timeInfo_loop_one_dayStart _ _ _ _ Hok) as (H1 & H2 & H3).
  exists k, hs. split; [exact Hk|]. cbv zeta.
  repeat (split; [assumption|]).
  intros j Hj. apply (timeInfo_loop_one_rejects c _ (normDirection direction)).
  apply Hrej. exact Hj.
Qed.

Lemma timeInfo_returns_first_open_day_witness :
  exists k : nat,
    (k < 10)%nat /\
    0 < Moment.days (Moment.parse8 20170729 + Z.of_nat k * 1) < 6 /\
    Moment.format8 (Moment.parse8 20170729 + Z.of_nat k * 1) = 20170731 /\
    forall j : nat, (j < k)%nat ->
      not_a_trade_date cn (Moment.parse8 20170729 + Z.of_nat j * 1).
Proof.
  destruct (timeInfo_returns_first_open_day 10 cn 20170729 (Some 1)
              (mkTimeInfo 20170731 [mkPeriod 1501464600000 1501488000000]
                 1501430400000 1501516799999)
              ltac:(split; [lia|vm_compute; reflexivity])
              ltac:(vm_compute; reflexivity))
    as (k & hs & Hk & Hwd & _ & _ & _ & Hd & _ & _ & Hrej).
  exists k. simpl in Hd. auto.
Defined.

(** X4: for a calendar date that is a day from Monday to Friday for which
    the source reports no holiday (an empty list or a falsy value), timeInfo
    returns that very day with exactly one period, from the configured
    session start to the configured session end in the zone of the calendar
    (a zone with a fixed UTC offset), whatever the offset of the host. *)
Theorem timeInfo_open_weekday_single_session
    (fuel : nat) (c : TradeCalendar.t) (date : Z) (direction : option Z) :
  calendar_date date ->
  let day := Moment.parse8 date in
  let s := _point2timestamp c day (cfg_start (_config c)) in
  let e := _point2timestamp c day (cfg_end (_config c)) in
  0 < Moment.days day < 6 ->
  _holidayFinder c s e = FinderList [] \/ _holidayFinder c s e = FinderNothing ->
  timeInfo (S fuel) c date direction =
  Ok (mkTimeInfo (Moment.format8 day)
        [mkPeriod
           (Moment.startOfDay (timezoneOffset c) day + pointMs (cfg_start (_config c)))
           (Moment.startOfDay (timezoneOffset c) day + pointMs (cfg_end (_config c)))]
        (Moment.startOfDay (timezoneOffset c) day)
        (Moment.endOfDay (timezoneOffset c) day)).
Proof.
  intros _ day s e Hwd Hf. unfold timeInfo. fold day. simpl.
  assert (Hb : (0 <? Moment.days day) && (Moment.days day <? 6) = true).
  { apply andb_true_iff. rewrite !Z.ltb_lt. lia. }
  rewrite Hb. fold s e. unfold findHolidays.
  destruct Hf as [-> | ->]; simpl; do 3 f_equal;
    unfold s, e, _stamp, _point2timestamp, Moment.startOfDay; f_equal; lia.
Qed.

Lemma timeInfo_open_weekday_single_session_witness :
  timeInfo 1 us 20170801 None =
  Ok (mkTimeInfo 20170801 [mkPeriod 1501594200000 1501617600000]
        1501560000000 1501646399999).
Proof.
  exact (timeInfo_open_weekday_single_session 0 us 20170801 None
           ltac:(split; [lia|vm_compute; reflexivity])
           ltac:(vm_compute; split; reflexivity) ltac:(left; reflexivity)).
Defined.

Lemma merge_from_ends (l : list TimePeriod) :
  forall pre x, In x (merge_from pre l) ->
    end_ x = end_ pre \/ exists y, In y l /\ end_ x = end_ y.
Proof.
  induction l as [|h t IH]; intros pre x Hx; simpl in Hx.
  - destruct Hx as [<-|[]]. left; reflexivity.
  - destruct (end_ pre <? start h).
    + destruct Hx as [<-|Hx]; [left; reflexivity|].
      apply IH in Hx. simpl in Hx. right.
      destruct Hx as [Hx|(y & Hy & Hx)].
      * exists h; split; [left; reflexivity|exact Hx].
      * exists y; split; [right; exact Hy|exact Hx].
    + apply IH in Hx. simpl in Hx. right.
      destruct Hx as [Hx|(y & Hy & Hx)].
      * exists h; split; [left; reflexivity|exact Hx].
      * exists y; split; [right; exact Hy|exact Hx].
Qed.

Lemma normalize_spans (s e : Z) (hs : list TimePeriod) :
  (forall h, In h hs -> spans s e h) ->
  forall x, In x (normalize hs) -> spans s e x.
Proof.
  intros Hall x. rewrite normalize_unfold.
  assert (Hs : forall h, In h (sort_by_start hs) -> spans s e h).
  { intros h Hh. apply Hall. revert Hh. clear.
    induction hs as [|a t IH]; simpl; [tauto|].
    rewrite sort_insert_In. intuition auto. }
  destruct (sort_by_start hs) as [|h t]; [intros []|].
  intros Hx. split.
  - apply merge_from_starts in Hx. destruct Hx as [->|(y & Hy & ->)].
    + apply Hs. left; reflexivity.
    + apply Hs. right; exact Hy.
  - apply merge_from_ends in Hx. destruct Hx as [->|(y & Hy & ->)].
    + apply Hs. left; reflexivity.
    + apply Hs. right; exact Hy.
Qed.

Lemma normalize_nonempty (hs : list TimePeriod) :
  hs <> [] -> normalize hs <> [].
Proof.
  intros Hne. rewrite normalize_unfold.
  destruct (sort_by_start hs) as [|h t] eqn:E.
  - destruct hs as [|a l]; [congruence|]. simpl in E.
    destruct (sort_by_start l) as [|x xs]; simpl in E; [discriminate|].
    destruct (start a <=? start x); discriminate.
  - destruct t as [|h' t']; simpl; [discriminate|].
    destruct (end_ h <? start h'); [discriminate|].
    clear. generalize (mkPeriod (start h) (end_ h')). induction t' as [|a l IH].
    + discriminate.
    + intros p. simpl. destruct (end_ p <? start a); [discriminate|apply IH].
Qed.

Lemma holiday_periods_spanning (c : TradeCalendar.t) (s e : Z) (l : list TimePeriod) :
  (forall h, In h l -> spans s e h) ->
  forall acc, fold_left (holiday_periods c s e) l acc = acc.
Proof.
  induction l as [|h t IH]; intros Hall acc; simpl; [reflexivity|].
  destruct (Hall h (or_introl eq_refl)) as [H1 H2].
  unfold holiday_periods at 2.
  destruct (s <? start h) eqn:E1; [apply Z.ltb_lt in E1; lia|].
  destruct (end_ h <? e) eqn:E2; [apply Z.ltb_lt in E2; lia|].
  apply IH. intros x Hx. apply Hall. right; exact Hx.
Qed.

(** X5: a calendar date that is a day from Monday to Friday on which every
    holiday the source reports spans the whole session (starts at or before
    the session start and ends at or after the session end) is not a trade
    date: timeInfo goes on with the next day in the search direction. *)
Theorem timeInfo_skips_fully_closed_day
    (fuel : nat) (c : TradeCalendar.t) (date : Z) (direction : option Z)
    (hs : list TimePeriod) :
  calendar_date date ->
  let day := Moment.parse8 date in
  let s := _point2timestamp c day (cfg_start (_config c)) in
  let e := _point2timestamp c day (cfg_end (_config c)) in
  0 < Moment.days day < 6 ->
  _holidayFinder c s e = FinderList hs ->
  hs <> [] ->
  (forall h, In h hs -> spans s e h) ->
  timeInfo (S fuel) c date direction =
  timeInfo_loop fuel c (day + normDirection direction) (normDirection direction).
Proof.
  intros _ day s e Hwd Hf Hne Hall. unfold timeInfo. fold day. simpl.
  assert (Hb : (0 <? Moment.days day) && (Moment.days day <? 6) = true).
  { apply andb_true_iff. rewrite !Z.ltb_lt. lia. }
  rewrite Hb. fold s e. unfold findHolidays. rewrite Hf.
  pose proof (normalize_nonempty hs Hne) as Hn.
  pose proof (normalize_spans s e hs Hall) as Hsp.
  destruct (normalize hs) as [|h t]; [congruence|].
  rewrite (holiday_periods_spanning c s e (h :: t) Hsp). reflexivity.
Qed.

Lemma timeInfo_skips_fully_closed_day_witness :
  timeInfo 4 cn_friday_closed 20170804 (Some 1) =
  Ok (mkTimeInfo 20170807 [mkPeriod 1502069400000 1502092800000]
        1502035200000 1502121599999).
Proof.
  rewrite (timeInfo_skips_fully_closed_day 3 cn_friday_closed 20170804 (Some 1)
             [friday_closure]
             ltac:(split; [lia|vm_compute; reflexivity])
             ltac:(vm_compute; split; reflexivity) ltac:(vm_compute; reflexivity)
             ltac:(discriminate)
             ltac:(intros h [<-|[]]; vm_compute; split; discriminate)).
  vm_compute. reflexivity.
Defined.

(** X6: with a single holiday reported for the session of a calendar date
    that is a day from Monday to Friday, timeInfo returns the stretch before the holiday when the
    holiday starts after the session start, and the stretch after it when
    it ends before the session end, in that order, provided one of the two
    exists; the tests compare the holiday with the session bounds only, so a
    holiday that lies wholly before the session (it ends before the session
    starts) yields a period that begins at the end of the holiday, before
    the session start. *)
Theorem timeInfo_single_holiday_periods
    (fuel : nat) (c : TradeCalendar.t) (date : Z) (direction : option Z)
    (h : TimePeriod) :
  calendar_date date ->
  let day := Moment.parse8 date in
  let s := _point2timestamp c day (cfg_start (_config c)) in
  let e := _point2timestamp c day (cfg_end (_config c)) in
  0 < Moment.days day < 6 ->
  _holidayFinder c s e = FinderList [h] ->
  s < start h \/ end_ h < e ->
  exists ti,
    timeInfo (S fuel) c date direction = Ok ti /\
    tradeDate ti = Moment.format8 day /\
    timePeriods ti =
      (if s <? start h then [mkPeriod (_stamp c s) (_stamp c (start h))] else [])
      ++ (if end_ h <? e then [mkPeriod (_stamp c (end_ h)) (_stamp c e)] else []) /\
    (end_ h < s -> s < e ->
     exists p, In p (timePeriods ti) /\ start p < _stamp c s).
Proof.
  intros _ day s e Hwd Hf Hsome.
  assert (Hn : normalize [h] = [h]) by (apply normalize_id; repeat constructor).
  unfold timeInfo. fold day. simpl.
  assert (Hb : (0 <? Moment.days day) && (Moment.days day <? 6) = true).
  { apply andb_true_iff. rewrite !Z.ltb_lt. lia. }
  rewrite Hb. fold s e. unfold findHolidays. rewrite Hf, Hn. simpl.
  unfold holiday_periods.
  destruct (s <? start h) eqn:E1; destruct (end_ h <? e) eqn:E2; simpl;
    try (apply Z.ltb_ge in E1; apply Z.ltb_ge in E2; lia);
    (eexists; split; [reflexivity|]; simpl; split; [reflexivity|];
     split; [reflexivity|]); intros Hbefore Hse;
    try (apply Z.ltb_ge in E2; lia).
  - exists (mkPeriod (_stamp c (end_ h)) (_stamp c e)).
    split; [right; left; reflexivity|]. simpl. unfold _stamp. lia.
  - exists (mkPeriod (_stamp c (end_ h)) (_stamp c e)).
    split; [left; reflexivity|]. simpl. unfold _stamp. lia.
Qed.

Lemma timeInfo_single_holiday_periods_witness :
  (exists ti,
     timeInfo 1 cn_morning_closed 20170801 None = Ok ti /\
     timePeriods ti = [mkPeriod 1501560000000 1501574400000]) /\
  (exists ti,
     timeInfo 1 cn_eve_closed 20170801 None = Ok ti /\
     exists p, In p (timePeriods ti) /\ start p < 1501551000000).
Proof.
  split.
  - destruct (timeInfo_single_holiday_periods 0 cn_morning_closed 20170801 None
                (mkPeriod 1501551000000 1501560000000)
                ltac:(split; [lia|vm_compute; reflexivity])
                ltac:(vm_compute; split; reflexivity) eq_refl
                ltac:(right; vm_compute; reflexivity))
      as (ti & H1 & _ & H2 & _).
    exists ti. split; [exact H1|]. rewrite H2. vm_compute. reflexivity.
  - destruct (timeInfo_single_holiday_periods 0 cn_eve_closed 20170801 None
                (mkPeriod 1501495200000 1501502400000)
                ltac:(split; [lia|vm_compute; reflexivity])
                ltac:(vm_compute; split; reflexivity) eq_refl
                ltac:(right; vm_compute; reflexivity))
      as (ti & H1 & _ & _ & H3).
    exists ti. split; [exact H1|].
    apply H3; vm_compute; reflexivity.
Defined.

Lemma timeInfo_loop_open_day (n : nat) (c : TradeCalendar.t) (d dir : Z) :
  (forall s e, _holidayFinder c s e = FinderList [] \/
               _holidayFinder c s e = FinderNothing) ->
  0 < Moment.days d < 6 ->
  timeInfo_loop (S n) c d dir = Ok (whole_session c d).
Proof.
  intros Hfree Hwd. simpl.
  assert (Hb : (0 <? Moment.days d) && (Moment.days d <? 6) = true).
  { apply andb_true_iff. rewrite !Z.ltb_lt. lia. }
  rewrite Hb. unfold findHolidays, whole_session.
  destruct (Hfree (_point2timestamp c d (cfg_start (_config c)))
                  (_point2timestamp c d (cfg_end (_config c)))) as [-> | ->];
    simpl; do 3 f_equal;
    unfold _stamp, _point2timestamp, Moment.startOfDay; f_equal; lia.
Qed.

Lemma timeInfo_loop_weekend (n : nat) (c : TradeCalendar.t) (d dir : Z) :
  Moment.days d = 6 \/ Moment.days d = 0 ->
  timeInfo_loop (S n) c d dir = timeInfo_loop n c (d + dir) dir.
Proof.
  intros Hwe. simpl.
  assert (Hb : (0 <? Moment.days d) && (Moment.days d <? 6) = false).
  { apply andb_false_iff. rewrite !Z.ltb_ge. lia. }
  rewrite Hb. reflexivity.
Qed.

(** X7: from a calendar date that is a Saturday or a Sunday, with a source
    that reports no holiday, timeInfo returns the Monday after when it searches forward (two days
    after a Saturday, one after a Sunday) and the Friday before when it
    searches backward, with the whole session as its only period. *)
Theorem timeInfo_weekend_moves_to_nearest_weekday
    (fuel : nat) (c : TradeCalendar.t) (date : Z) (direction : option Z) :
  calendar_date date ->
  let day := Moment.parse8 date in
  let dir := normDirection direction in
  let k := if Moment.days day =? 6
           then (if dir =? 1 then 2 else 1)
           else (if dir =? 1 then 1 else 2) in
  (forall s e, _holidayFinder c s e = FinderList [] \/
               _holidayFinder c s e = FinderNothing) ->
  Moment.days day = 6 \/ Moment.days day = 0 ->
  timeInfo (3 + fuel) c date direction = Ok (whole_session c (day + k * dir)).
Proof.
  intros _ day dir k Hfree Hwe. unfold timeInfo. fold day dir.
  assert (Hdir : dir = 1 \/ dir = -1).
  { unfold dir, normDirection. destruct direction as [z|]; [|auto].
    destruct (z <? 0); auto. }
  change (3 + fuel)%nat with (S (S (S fuel))).
  rewrite (timeInfo_loop_weekend _ c day dir Hwe).
  unfold k. clear k. unfold Moment.days in Hwe.
  destruct Hwe as [Hsat|Hsun].
  - assert (E : (Moment.days day =? 6) = true)
      by (apply Z.eqb_eq; exact Hsat). rewrite E.
    destruct Hdir as [-> | ->]; simpl Z.eqb; cbv iota.
    + rewrite timeInfo_loop_weekend
        by (right; unfold Moment.days; Z.div_mod_to_equations; lia).
      replace (day + 2 * 1) with (day + 1 + 1) by lia.
      apply timeInfo_loop_open_day; [exact Hfree|].
      unfold Moment.days; Z.div_mod_to_equations; lia.
    + replace (day + 1 * -1) with (day + -1) by lia.
      apply timeInfo_loop_open_day; [exact Hfree|].
      unfold Moment.days; Z.div_mod_to_equations; lia.
  - assert (E : (Moment.days day =? 6) = false)
      by (apply Z.eqb_neq; unfold Moment.days; lia). rewrite E.
    destruct Hdir as [-> | ->]; simpl Z.eqb; cbv iota.
    + replace (day + 1 * 1) with (day + 1) by lia.
      apply timeInfo_loop_open_day; [exact Hfree|].
      unfold Moment.days; Z.div_mod_to_equations; lia.
    + rewrite timeInfo_loop_weekend
        by (left; unfold Moment.days; Z.div_mod_to_equations; lia).
      replace (day + 2 * -1) with (day + -1 + -1) by lia.
      apply timeInfo_loop_open_day; [exact Hfree|].
      unfold Moment.days; Z.div_mod_to_equations; lia.
Qed.

Lemma timeInfo_weekend_moves_to_nearest_weekday_witness :
  timeInfo 3 cn 20170730 (Some (-1)) =
  Ok (mkTimeInfo 20170728 [mkPeriod 1501205400000 1501228800000]
        1501171200000 1501257599999).
Proof.
  exact (timeInfo_weekend_moves_to_nearest_weekday 0 cn 20170730 (Some (-1))
           ltac:(split; [lia|vm_compute; reflexivity])
           ltac:(intros; left; reflexivity) ltac:(right; vm_compute; reflexivity)).
Defined.

Lemma realTimePeriod_id (now : Z) (l : list TimePeriod) :
  Forall (fun p => start p <> 0 /\ end_ p <> 0) l ->
  map (realTimePeriod now) l = l.
Proof.
  induction 1 as [|p l [Hs He] _ IH]; simpl; [reflexivity|].
  rewrite IH. f_equal. unfold realTimePeriod, realStamp.
  apply Z.eqb_neq in Hs. apply Z.eqb_neq in He. rewrite Hs, He.
  apply period_eta.
Qed.

(** X8: on a TradeCalendar the real coordinates are the calendar
    coordinates: for a date that is given, realTimeInfo (getTimeInfo)
    returns the TimeInfo of timeInfo unchanged as long as none of its
    timestamps is 0, and passes on the error of timeInfo when it raises. *)
Theorem realTimeInfo_is_timeInfo
    (fuel : nat) (c : TradeCalendar.t) (now date : Z) (direction : option Z) :
  date <> 0 ->
  (forall ti, timeInfo fuel c date direction = Ok ti -> no_zero_stamp ti ->
              realTimeInfo fuel c now date direction = Ok ti) /\
  (forall err, timeInfo fuel c date direction = Throw err ->
               realTimeInfo fuel c now date direction = Throw err).
Proof.
  intros Hd. apply Z.eqb_neq in Hd. unfold realTimeInfo. rewrite Hd. split.
  - intros ti -> (Hs & He & Hp). rewrite (realTimePeriod_id now _ Hp).
    unfold realStamp. apply Z.eqb_neq in Hs. apply Z.eqb_neq in He.
    rewrite Hs, He. destruct ti; reflexivity.
  - intros err ->. reflexivity.
Qed.

Lemma realTimeInfo_is_timeInfo_witness :
  realTimeInfo 10 cn at_0800 20170801 None = Ok ti_20170801.
Proof.
  apply (realTimeInfo_is_timeInfo 10 cn at_0800 20170801 None ltac:(discriminate)).
  - vm_compute. reflexivity.
  - unfold no_zero_stamp, ti_20170801. simpl.
    repeat split; try discriminate. repeat constructor; simpl; discriminate.
Defined.

End ResolverMore.

(** ** The boundaries of a date *)
Section Boundaries.
Import TradeCalendar.

(** X9: the accessors agree with the resolver: for a calendar date from
    Monday to Friday without holiday, in a zone with a fixed UTC offset, and
    boundaries that are not the timestamp 0,
    the single period timeInfo returns runs from realMarketOpen(date) to
    realMarketClose(date), which marketOpen and marketClose return as well,
    and its dayStart and dayEnd are startOfDay(date) and endOfDay(date). *)
Theorem timeInfo_agrees_with_boundary_accessors
    (fuel : nat) (c : TradeCalendar.t) (now date : Z) (direction : option Z) :
  calendar_date date ->
  (forall s e, _holidayFinder c s e = FinderList [] \/
               _holidayFinder c s e = FinderNothing) ->
  0 < Moment.days (Moment.parse8 date) < 6 ->
  point2timestamp c date (cfg_start (_config c)) <> 0 ->
  point2timestamp c date (cfg_end (_config c)) <> 0 ->
  timeInfo (S fuel) c date direction =
    Ok (mkTimeInfo (Moment.format8 (Moment.parse8 date))
          [mkPeriod (realMarketOpen c now date) (realMarketClose c now date)]
          (startOfDay c date) (endOfDay c date)) /\
  marketOpen c now date = realMarketOpen c now date /\
  marketClose c now date = realMarketClose c now date.
Proof.
  intros _ Hfree Hwd Ho Hc.
  assert (Eo : realMarketOpen c now date = point2timestamp c date (cfg_start (_config c))).
  { unfold realMarketOpen, realStamp. apply Z.eqb_neq in Ho. rewrite Ho. reflexivity. }
  assert (Ec : realMarketClose c now date = point2timestamp c date (cfg_end (_config c))).
  { unfold realMarketClose, realStamp. apply Z.eqb_neq in Hc. rewrite Hc. reflexivity. }
  split; [|split].
  - unfold timeInfo. rewrite (timeInfo_loop_open_day fuel c _ _ Hfree Hwd).
    rewrite Eo, Ec. unfold whole_session, startOfDay, endOfDay, point2timestamp,
      Moment.startOfDay, Moment.endOfDay, pointMs, Moment.msPerDay. simpl.
    do 2 f_equal; [|lia|lia]. f_equal. f_equal; lia.
  - unfold marketOpen, timestamp. rewrite Eo. apply Z.eqb_neq in Ho. rewrite Ho.
    reflexivity.
  - unfold marketClose, timestamp. rewrite Ec. apply Z.eqb_neq in Hc. rewrite Hc.
    reflexivity.
Qed.

Lemma timeInfo_agrees_with_boundary_accessors_witness :
  timeInfo 1 cn 20170801 None =
    Ok (mkTimeInfo 20170801
          [mkPeriod (realMarketOpen cn at_1200 20170801)
                    (realMarketClose cn at_1200 20170801)]
          (startOfDay cn 20170801) (endOfDay cn 20170801)).
Proof.
  exact (proj1 (timeInfo_agrees_with_boundary_accessors 0 cn at_1200 20170801 None
                  ltac:(split; [lia|vm_compute; reflexivity])
                  ltac:(intros; left; reflexivity)
                  ltac:(vm_compute; split; reflexivity)
                  ltac:(vm_compute; discriminate) ltac:(vm_compute; discriminate))).
Defined.

(** X24: the boundaries of a calendar date keep the order of the
    configured time points, in a zone with a fixed UTC offset: when the time
    points of the configuration ascend from the pre-market start to the
    post-market end within one day, and no boundary is the timestamp 0, then
    startOfDay, beforeMarketStart, marketOpen, marketClose, afterMarketEnd
    (also in its real form) and endOfDay of the date ascend. *)
Theorem boundaries_of_a_date_are_ordered
    (c : TradeCalendar.t) (now date : Z) :
  calendar_date date ->
  let cfg := _config c in
  0 <= pointMs (cp_start (cfg_before cfg)) ->
  pointMs (cp_start (cfg_before cfg)) <= pointMs (cfg_start cfg) ->
  pointMs (cfg_start cfg) <= pointMs (cfg_end cfg) ->
  pointMs (cfg_end cfg) <= pointMs (cp_end (cfg_after cfg)) ->
  pointMs (cp_end (cfg_after cfg)) <= 86399999 ->
  point2timestamp c date (cp_start (cfg_before cfg)) <> 0 ->
  point2timestamp c date (cfg_start cfg) <> 0 ->
  point2timestamp c date (cfg_end cfg) <> 0 ->
  point2timestamp c date (cp_end (cfg_after cfg)) <> 0 ->
  startOfDay c date <= beforeMarketStart c now date /\
  beforeMarketStart c now date <= marketOpen c now date /\
  marketOpen c now date <= marketClose c now date /\
  marketClose c now date <= afterMarketEnd c date /\
  afterMarketEnd c date = realAfterMarketEnd c now date /\
  afterMarketEnd c date <= endOfDay c date.
Proof.
  intros _ cfg H0 H1 H2 H3 H4 Nb No Nc Na.
  unfold beforeMarketStart, realBeforeMarketStart, marketOpen, realMarketOpen,
    marketClose, realMarketClose, realAfterMarketEnd, afterMarketEnd,
    timestamp, realStamp. fold cfg.
  apply Z.eqb_neq in Nb, No, Nc, Na.
  rewrite ?Nb, ?No, ?Nc, ?Na. rewrite ?Nb, ?No, ?Nc, ?Na.
  unfold startOfDay, endOfDay, point2timestamp in *.
  change (pointMs (mkTimePoint 0 0 0 0)) with 0.
  change (pointMs (mkTimePoint 23 59 59 999)) with 86399999.
  repeat split; lia.
Qed.

Lemma boundaries_of_a_date_are_ordered_witness :
  startOfDay cn 20170801 <= beforeMarketStart cn at_1200 20170801 /\
  beforeMarketStart cn at_1200 20170801 <= marketOpen cn at_1200 20170801 /\
  marketOpen cn at_1200 20170801 <= marketClose cn at_1200 20170801 /\
  marketClose cn at_1200 20170801 <= afterMarketEnd cn 20170801.
Proof.
  destruct (boundaries_of_a_date_are_ordered cn at_1200 20170801
              ltac:(split; [lia|vm_compute; reflexivity])
              ltac:(vm_compute; discriminate) ltac:(vm_compute; discriminate)
              ltac:(vm_compute; discriminate) ltac:(vm_compute; discriminate)
              ltac:(vm_compute; discriminate) ltac:(vm_compute; discriminate)
              ltac:(vm_compute; discriminate) ltac:(vm_compute; discriminate)
              ltac:(vm_compute; discriminate))
    as (H1 & H2 & H3 & H4 & _).
  exact (conj H1 (conj H2 (conj H3 H4))).
Defined.

End Boundaries.

(** ** VirtualCalendar: reload and the two conversions *)
Section VirtualMore.
Local Open Scope Q_scope.
Import VirtualCalendar.

(** X10: with the strategy SYSTEM, reload ignores oneDay, standard and
    custom: virtual time is real time, both conversions return a non-zero
    time unchanged. *)
Theorem reload_system_is_identity
    (vc : VirtualConfig) (startTime now t : Q) :
  vc_strategy vc = Some (Some SYSTEM) ->
  ~ t == 0 ->
  exists v, reload vc startTime = Ok v /\
            timestamp v now (Some t) == t /\ realStamp v now (Some t) == t.
Proof.
  intros Hs Ht. unfold reload. rewrite Hs. eexists. split; [reflexivity|].
  unfold timestamp, realStamp. rewrite (orNow_nonzero _ _ Ht). simpl.
  split; field.
Qed.

Lemma reload_system_is_identity_witness :
  exists v, reload (mkVirtualConfig (Some (Some SYSTEM)) 1000 None 43200000) 7 = Ok v /\
            timestamp v 9 (Some 1500) == 1500 /\ realStamp v 9 (Some 1500) == 1500.
Proof.
  apply (reload_system_is_identity
           (mkVirtualConfig (Some (Some SYSTEM)) 1000 None 43200000) 7 9 1500 eq_refl).
  vm_compute. discriminate.
Defined.

Lemma reload_shape (vc : VirtualConfig) (startTime : Q) (v : VirtualCalendar.t) :
  reload vc startTime = Ok v ->
  vc_strategy vc <> Some (Some SYSTEM) ->
  v = mk match vc_strategy vc, vc_custom vc with
         | Some (Some START), _ => startTime
         | Some (Some CUSTOM), Some custom => custom
         | _, _ => vc_standard vc
         end
         (vc_standard vc) (vc_oneDay vc / (24 * 60 * 60 * 1000)).
Proof.
  intros Hr Hns. unfold reload in Hr.
  destruct (vc_strategy vc) as [[[]|]|]; try discriminate; try congruence.
  destruct (vc_custom vc) as [custom|]; [|discriminate].
  destruct (Qeq_bool custom 0); [discriminate|]. congruence.
Qed.

Lemma anchor_conversions (rb vb r now : Q) :
  ~ r == 0 ->
  (~ rb == 0 -> timestamp (mk rb vb r) now (Some rb) == vb) /\
  (~ vb == 0 -> realStamp (mk rb vb r) now (Some vb) == rb).
Proof.
  intros Hr. split; intros Hb.
  - unfold timestamp. rewrite (orNow_nonzero _ _ Hb). simpl. field. exact Hr.
  - unfold realStamp. rewrite (orNow_nonzero _ _ Hb). simpl. ring.
Qed.

(** X11: for every other strategy that reload accepts, the virtual anchor
    is the configured standard instant, the ratio is oneDay / 86400000, and
    the real anchor is the standard instant itself (STANDARD, also when no
    strategy is given), the start time (START) or the custom instant
    (CUSTOM); with a non-zero ratio, the real anchor, when it is not 0, is
    converted to the standard instant, and the standard instant, when it is
    not 0, is converted back to the real anchor. *)
Theorem reload_anchors
    (vc : VirtualConfig) (startTime now : Q) (v : VirtualCalendar.t) :
  reload vc startTime = Ok v ->
  vc_strategy vc <> Some (Some SYSTEM) ->
  _virtualBase v = vc_standard vc /\
  _timeRatio v = vc_oneDay vc / (24 * 60 * 60 * 1000) /\
  _realBase v =
    match vc_strategy vc, vc_custom vc with
    | Some (Some START), _ => startTime
    | Some (Some CUSTOM), Some custom => custom
    | _, _ => vc_standard vc
    end /\
  (~ _timeRatio v == 0 ->
   (~ _realBase v == 0 -> timestamp v now (Some (_realBase v)) == vc_standard vc) /\
   (~ vc_standard vc == 0 -> realStamp v now (Some (vc_standard vc)) == _realBase v)).
Proof.
  intros Hr Hns. rewrite (reload_shape vc startTime v Hr Hns). simpl.
  split; [reflexivity|]. split; [reflexivity|]. split; [reflexivity|].
  intros Hratio. apply (anchor_conversions _ _ _ now Hratio).
Qed.

Lemma reload_anchors_witness :
  exists v,
    reload (mkVirtualConfig (Some (Some START)) 1000 None 43200000) 7000 = Ok v /\
    timestamp v 9 (Some 7000) == 1000.
Proof.
  exists (mk 7000 1000 (43200000 / (24 * 60 * 60 * 1000))).
  split; [reflexivity|].
  pose proof (reload_anchors (mkVirtualConfig (Some (Some START)) 1000 None 43200000)
                7000 9 (mk 7000 1000 (43200000 / (24 * 60 * 60 * 1000)))
                eq_refl ltac:(discriminate)) as (_ & _ & _ & H).
  destruct (H ltac:(vm_compute; discriminate)) as [H1 _].
  exact (H1 ltac:(vm_compute; discriminate)).
Defined.

(** X12: reload fails in two cases only: a strategy string that names no
    strategy raises INVALID_STRATEGY, and the strategy CUSTOM without a
    custom instant (absent, or 0) fails its assertion. *)
Theorem reload_fails_iff
    (vc : VirtualConfig) (startTime : Q) (err : string) :
  reload vc startTime = Throw err <->
  (vc_strategy vc = Some None /\ err = "INVALID_STRATEGY") \/
  (vc_strategy vc = Some (Some CUSTOM) /\ err = "AssertionError" /\
   (vc_custom vc = None \/ exists custom, vc_custom vc = Some custom /\ custom == 0)).
Proof.
  unfold reload. split.
  - destruct (vc_strategy vc) as [[[]|]|]; try discriminate.
    + destruct (vc_custom vc) as [custom|] eqn:Ec.
      * destruct (Qeq_bool custom 0) eqn:E; [|discriminate].
        intros [= <-]. right. repeat split; try reflexivity.
        right. exists custom. split; [reflexivity|]. apply Qeq_bool_iff, E.
      * intros [= <-]. right. auto.
    + intros [= <-]. left. auto.
  - intros [[-> ->]|(-> & -> & [-> | (custom & -> & Hc)])]; try reflexivity.
    apply Qeq_bool_iff in Hc. rewrite Hc. reflexivity.
Qed.

Lemma reload_fails_iff_witness :
  reload (mkVirtualConfig (Some (Some CUSTOM)) 1000 None 43200000) 7000
  = Throw "AssertionError".
Proof.
  apply (proj2 (reload_fails_iff
                  (mkVirtualConfig (Some (Some CUSTOM)) 1000 None 43200000) 7000
                  "AssertionError")).
  right. split; [reflexivity|]. split; [reflexivity|]. left. reflexivity.
Defined.

(** X14: the round trip in the other direction, as the host computes it:
    take a virtual instant [x] other than 0, a non-zero ratio, and any
    rounding [fl] whose relative error is at most [u] ([Double.round] and
    [2^-53] for doubles).  When the real image the code computes is not 0,
    realStamp followed by timestamp, every operation rounded, gives [x]
    within [u] times the sum of the magnitudes of the six intermediate
    results, whatever the clock shows at either call; in exact arithmetic
    it gives [x] itself. *)
Theorem timestamp_realStamp_roundtrip_within_epsilon
    (fl : Q -> Q) (u : Q) (v : VirtualCalendar.t) (now1 now2 x : Q) :
  (forall y, Qabs (fl y - y) <= u * Qabs y) ->
  ~ _timeRatio v == 0 ->
  ~ x == 0 ->
  (~ realStampFl fl v now1 (Some x) == 0 ->
   Qabs (timestampFl fl v now2 (Some (realStampFl fl v now1 (Some x))) - x)
     <= u * reverse_scale fl v x) /\
  (~ realStamp v now1 (Some x) == 0 ->
   timestamp v now2 (Some (realStamp v now1 (Some x))) == x).
Proof.
  intros Hfl Hr Hx. split.
  - intros Hv.
    unfold timestampFl. rewrite (orNow_nonzero _ _ Hv).
    unfold realStampFl, reverse_scale. rewrite (orNow_nonzero _ _ Hx).
    destruct v as [rb vb r]. cbn [_realBase _virtualBase _timeRatio] in *.
    set (x1 := x - vb). set (x2 := fl x1 * r). set (x3 := fl x2 + rb).
    set (x4 := fl x3 - rb). set (x5 := fl x4 / r). set (x6 := fl x5 + vb).
    assert (E : fl x6 - x ==
                (fl x1 - x1) + / r * ((fl x2 - x2) + (fl x3 - x3) + (fl x4 - x4))
                + (fl x5 - x5) + (fl x6 - x6)).
    { unfold x6, x5, x4, x3, x2, x1. field. exact Hr. }
    assert (Hs : Qabs x1 + (Qabs x2 + Qabs x3 + Qabs x4) / Qabs r
                 + Qabs x5 + Qabs x6
                 == Qabs x1 + Qabs (/ r) * (Qabs x2 + Qabs x3 + Qabs x4)
                    + Qabs x5 + Qabs x6).
    { rewrite Qabs_Qinv. unfold Qdiv. ring. }
    eapply Qle_trans;
      [apply Qle_lteq; right; apply Qabs_wd; exact E|].
    eapply Qle_trans; [apply six_roundings; apply Hfl|].
    apply Qle_lteq. right. apply Qmult_comp; [reflexivity|].
    symmetry. exact Hs.
  - intros Hv.
    unfold timestamp. rewrite (orNow_nonzero _ _ Hv).
    unfold realStamp. rewrite (orNow_nonzero _ _ Hx).
    field. exact Hr.
Qed.

Lemma timestamp_realStamp_roundtrip_within_epsilon_witness :
  Qabs (timestampFl Double.round
          (mk 1483200000000 1483200000000 (Double.round (1 # 3))) 7
          (Some (realStampFl Double.round
                   (mk 1483200000000 1483200000000 (Double.round (1 # 3))) 9
                   (Some 1501551000001))) - 1501551000001)
    <= Double.u * reverse_scale Double.round
                    (mk 1483200000000 1483200000000 (Double.round (1 # 3)))
                    1501551000001.
Proof.
  apply (timestamp_realStamp_roundtrip_within_epsilon Double.round Double.u
           (mk 1483200000000 1483200000000 (Double.round (1 # 3))) 9 7
           1501551000001 round_error);
    vm_compute; discriminate.
Defined.

(** The round trip of the virtual instant 1501551000001 with oneDay
    28800000, the ratio being the double nearest to 1/3: the host's doubles
    give 1501551000000.9998, [2^-12] below [x]. *)
Example reverse_roundtrip_ratio_third :
  let v := mk 1483200000000 1483200000000 (Double.round (28800000 / 86400000)) in
  timestampFl Double.round v 7
    (Some (realStampFl Double.round v 9 (Some 1501551000001)))
    == 6150352896004095 # 4096.
Proof. vm_compute. reflexivity. Qed.

End VirtualMore.

(** ** The calendar manager: start, stop and stopAll *)
Section ManagerMore.
Import CalendarManager.

Lemma stop_frame (name : string) (w : World) :
  calendars (stop name w) = calendars w /\
  emitted (stop name w) = emitted w /\
  nextHandle (stop name w) = nextHandle w /\
  clock (stop name w) = clock w /\
  (forall h, timers w !! h = None -> timers (stop name w) !! h = None) /\
  (forall h t, timers (stop name w) !! h = Some t -> timers w !! h = Some t).
Proof.
  destruct (calendars w !! name) as [cal|] eqn:Hcal.
  - rewrite (stop_eq name w cal Hcal). simpl.
    repeat split; try reflexivity; intros h; rewrite !cancel_lookup;
      repeat case_decide; congruence.
  - rewrite (stop_unknown_name name w Hcal). repeat split; auto.
Qed.

Lemma stop_each_frame (names : list string) :
  forall w,
    let w' := foldl (fun w0 name => stop name w0) w names in
    calendars w' = calendars w /\
    emitted w' = emitted w /\
    (forall h, timers w !! h = None -> timers w' !! h = None) /\
    (forall h t, timers w' !! h = Some t -> timers w !! h = Some t).
Proof.
  induction names as [|n l IH]; intros w; simpl; [auto|].
  destruct (stop_frame n w) as (Hc & He & _ & _ & Hn & Hs).
  destruct (IH (stop n w)) as (Hc' & He' & Hn' & Hs').
  split; [congruence|]. split; [congruence|]. split.
  - intros h Hh. apply Hn', Hn, Hh.
  - intros h t Hh. apply Hs, Hs', Hh.
Qed.

Lemma stop_each_cancels (names : list string) :
  forall w name cal prop h,
    In name names ->
    calendars w !! name = Some cal ->
    prop = "_timeInfoHandler" \/ prop = "_startTimeHandler" \/ prop = "_endTimeHandler" ->
    Cal.handlers cal !! prop = Some h ->
    timers (foldl (fun w0 n => stop n w0) w names) !! h = None.
Proof.
  induction names as [|n l IH]; intros w name cal prop h Hin Hcal Hprop Hh;
    [destruct Hin|]. simpl.
  destruct (stop_frame n w) as (Hc & _).
  destruct Hin as [->|Hin].
  - apply (stop_each_frame l (stop name w)).
    apply (stop_cancels_three name w cal prop h Hcal Hprop Hh).
  - apply (IH (stop n w) name cal prop h Hin); try assumption.
    rewrite Hc. exact Hcal.
Qed.

(** X15: stopAll cancels, for every registered calendar, the timers whose
    handles are kept in [_timeInfoHandler], [_startTimeHandler] and
    [_endTimeHandler]; it arms no timer, emits no event and leaves the
    registry and the properties of the calendars as they are (the calendars
    stay registered, with their handle properties still set). *)
Theorem stopAll_cancels_for_every_calendar
    (w : World) (name : string) (cal : Cal.t) (prop : string) (h : nat) :
  calendars w !! name = Some cal ->
  prop = "_timeInfoHandler" \/ prop = "_startTimeHandler" \/ prop = "_endTimeHandler" ->
  Cal.handlers cal !! prop = Some h ->
  timers (stopAll w) !! h = None /\
  calendars (stopAll w) = calendars w /\
  emitted (stopAll w) = emitted w /\
  (forall h' t, timers (stopAll w) !! h' = Some t -> timers w !! h' = Some t).
Proof.
  intros Hcal Hprop Hh. unfold stopAll.
  destruct (stop_each_frame (map fst (map_to_list (calendars w))) w)
    as (Hc & He & _ & Hs).
  split; [|auto].
  apply (stop_each_cancels _ w name cal prop h); try assumption.
  apply in_map_iff. exists (name, cal). split; [reflexivity|].
  apply list_elem_of_In, elem_of_map_to_list, Hcal.
Qed.

Lemma stopAll_cancels_for_every_calendar_witness :
  timers (stopAll started_0800) !! 5%nat = None /\
  calendars (stopAll started_0800) = calendars started_0800.
Proof.
  destruct (stopAll_cancels_for_every_calendar started_0800 "cn" cal_started_0800
              "_timeInfoHandler" 5
              ltac:(vm_compute; reflexivity) ltac:(left; reflexivity)
              ltac:(vm_compute; reflexivity)) as (H1 & H2 & _).
  exact (conj H1 H2).
Defined.

(** X16: start refuses a name that is bound to another calendar object: it
    raises REPEAT_NAME before anything is changed; for the object that is
    already bound to the name it keeps the registered object, with the
    properties the manager has assigned on it, and runs a pass with no
    anchor and no retry; without a calendar and for a name that is not
    registered it raises a TypeError, nothing being changed. *)
Theorem start_checks_the_name
    (fuel : nat) (name : string) (c : Cal.t) (w : World) :
  (forall old, calendars w !! name = Some old ->
     (Cal.oid old <> Cal.oid c -> start fuel name (Some c) w = Raised "REPEAT_NAME" w) /\
     (Cal.oid old = Cal.oid c ->
      start fuel name (Some c) w = setTimeInfo fuel name 0 false w)) /\
  (calendars w !! name = None ->
   start (S fuel) name None w = Raised "TypeError" w /\
   start fuel name (Some c) w =
     setTimeInfo fuel name 0 false (set_calendars (<[name := c]> (calendars w)) w)).
Proof.
  split.
  - intros old Hold. unfold start. rewrite Hold. split; intros Hid.
    + apply Nat.eqb_neq in Hid. rewrite Hid. reflexivity.
    + apply Nat.eqb_eq in Hid. rewrite Hid. reflexivity.
  - intros Hnone. unfold start. rewrite Hnone. split; [|reflexivity].
    simpl. rewrite Hnone. reflexivity.
Qed.

Lemma start_checks_the_name_witness :
  start 10 "cn" (Some (Cal.new us 2)) started_0800 = Raised "REPEAT_NAME" started_0800.
Proof.
  exact (proj1 (proj1 (start_checks_the_name 10 "cn" (Cal.new us 2) started_0800)
                  cal_started_0800 ltac:(vm_compute; reflexivity))
           ltac:(vm_compute; discriminate)).
Defined.

(** *** Period timers *)

(** X18: a period timer never runs its listener early: fired before its
    target instant it emits nothing and assigns nothing, and arms a new
    timer for the same listener and target with the remaining delay; fired
    at or after the target it runs the listener, which for the start of a
    period emits system-time-start with the current period. *)
Theorem period_timer_waits_for_its_target
    (fuel : nat) (w : World) (h : nat) (l : Listener) (time d now : Z) :
  timers w !! h = Some (mkTimer (RealTimeoutAtCb l time) d) ->
  (now < time ->
   fire fuel h now w =
   Done tt (mkWorld (calendars w)
              (<[nextHandle w := mkTimer (RealTimeoutAtCb l time) (time - now)]>
                 (delete h (timers w)))
              (S (nextHandle w)) (emitted w) now)) /\
  (time <= now ->
   fire fuel h now w =
   Done tt (run_listener l
              (mkWorld (calendars w) (delete h (timers w)) (nextHandle w)
                 (emitted w) now)) /\
   forall name c, l = SystemTimeStart name -> calendars w !! name = Some c ->
     fire fuel h now w =
     Done tt (mkWorld (calendars w) (delete h (timers w)) (nextHandle w)
                (emitted w ++ [system_time_start name (Cal.systemPeriod c)]) now)).
Proof.
  intros Ht. unfold fire. rewrite Ht. cbn [callback run_callback clock]. split.
  - intros Hlt. apply Z.leb_gt in Hlt. rewrite Hlt. reflexivity.
  - intros Hle. apply Z.leb_le in Hle. rewrite Hle. split; [reflexivity|].
    intros name c -> Hc. simpl. rewrite Hc. reflexivity.
Qed.

Lemma period_timer_waits_for_its_target_witness :
  emitted (world_of (fire 10 1 (1501551000000 - 5) started_0800))
  = emitted started_0800 /\
  emitted (world_of (fire 10 1 1501551000000 started_0800))
  = emitted started_0800
    ++ [system_time_start "cn" (Some (mkPeriod 1501551000000 1501574400000))].
Proof.
  destruct (period_timer_waits_for_its_target 10 started_0800 1
              (SystemTimeStart "cn") 1501551000000 5400000 (1501551000000 - 5)
              ltac:(vm_compute; reflexivity)) as [Hearly _].
  destruct (period_timer_waits_for_its_target 10 started_0800 1
              (SystemTimeStart "cn") 1501551000000 5400000 1501551000000
              ltac:(vm_compute; reflexivity)) as [_ Hdue].
  rewrite (Hearly ltac:(vm_compute; reflexivity)).
  destruct (Hdue ltac:(vm_compute; discriminate)) as [_ Hstart].
  rewrite (Hstart "cn" cal_started_0800 eq_refl ltac:(vm_compute; reflexivity)).
  split; [reflexivity|]. vm_compute. reflexivity.
Defined.

(** X19: the timer that an early firing arms is kept in no property of the
    calendar: when every handle the calendar keeps was issued before, stop
    leaves that timer armed, and it will still run its listener. *)
Theorem rearmed_period_timer_survives_stop
    (fuel : nat) (w w' : World) (name : string) (cal : Cal.t) (h : nat)
    (l : Listener) (time d now : Z) :
  timers w !! h = Some (mkTimer (RealTimeoutAtCb l time) d) ->
  calendars w !! name = Some cal ->
  (forall prop h', Cal.handlers cal !! prop = Some h' -> (h' < nextHandle w)%nat) ->
  now < time ->
  fire fuel h now w = Done tt w' ->
  timers (stop name w') !! nextHandle w =
  Some (mkTimer (RealTimeoutAtCb l time) (time - now)).
Proof.
  intros Ht Hcal Hfresh Hlt Hfire.
  unfold fire in Hfire. rewrite Ht in Hfire.
  cbn [callback run_callback clock] in Hfire.
  apply Z.leb_gt in Hlt. rewrite Hlt in Hfire. injection Hfire as <-.
  rewrite (stop_eq name (mkWorld _ _ _ _ _) cal Hcal). simpl.
  rewrite !cancel_lookup.
  repeat case_decide;
    try match goal with
        | H : Cal.handlers cal !! _ = Some (nextHandle w) |- _ =>
            apply Hfresh in H; lia
        end.
  apply lookup_insert_eq.
Qed.

Lemma rearmed_period_timer_survives_stop_witness :
  timers (stop "cn" (world_of (fire 10 1 (1501551000000 - 5) started_0800))) !! 6%nat =
  Some (mkTimer (RealTimeoutAtCb (SystemTimeStart "cn") 1501551000000) 5).
Proof.
  apply (rearmed_period_timer_survives_stop 10 started_0800 _ "cn" cal_started_0800
           1 (SystemTimeStart "cn") 1501551000000 5400000 (1501551000000 - 5)).
  - vm_compute. reflexivity.
  - vm_compute. reflexivity.
  - assert (HF : map_Forall (fun _ h' => (h' < nextHandle started_0800)%nat)
                   (Cal.handlers cal_started_0800)).
    { apply (bool_decide_unpack _). vm_compute. exact I. }
    exact HF.
  - vm_compute. reflexivity.
  - vm_compute. reflexivity.
Defined.

Lemma clear_handler_nextHandle (name prop : string) (w : World) :
  nextHandle (clear_handler name prop w) = nextHandle w.
Proof.
  unfold clear_handler. destruct (calendars w !! name) as [c|]; [|reflexivity].
  destruct (Cal.handlers c !! prop); reflexivity.
Qed.

Lemma clear_handler_emitted (name prop : string) (w : World) :
  emitted (clear_handler name prop w) = emitted w.
Proof.
  unfold clear_handler. destruct (calendars w !! name) as [c|]; [|reflexivity].
  destruct (Cal.handlers c !! prop); reflexivity.
Qed.

Lemma arm_lookup (name prop : string) (cb : Callback) (d : Z) (w : World) (c : Cal.t) :
  calendars w !! name = Some c ->
  calendars (arm name prop cb d w) !! name =
  Some (Cal.set_handlers (<[prop := nextHandle w]> (Cal.handlers c)) c).
Proof.
  intros Hc. unfold arm, set_handler. rewrite update_lookup.
  case_decide; [|congruence]. simpl. rewrite Hc. reflexivity.
Qed.

(** What changeSystemPeriod leaves behind when the queue is not empty. *)
Lemma changeSystemPeriod_pops (name : string) (w : World) (c : Cal.t)
    (p : TimePeriod) (rest : list TimePeriod) :
  calendars w !! name = Some c ->
  Cal.systemPeriods c = p :: rest ->
  let w' := changeSystemPeriod name w in
  emitted w' = emitted w ++ [system_period_change name p rest] /\
  (exists c', calendars w' !! name = Some c' /\
              Cal.systemPeriod c' = Some p /\ Cal.systemPeriods c' = rest /\
              Cal.tradeDate c' = Cal.tradeDate c) /\
  handler_of w' name "_startTimeHandler" = Some (nextHandle w) /\
  handler_of w' name "_endTimeHandler" = Some (S (nextHandle w)) /\
  timers w' !! nextHandle w =
    Some (mkTimer (RealTimeoutAtCb (SystemTimeStart name) (period_start p))
            (period_start p - clock w)) /\
  timers w' !! S (nextHandle w) =
    Some (mkTimer (RealTimeoutAtCb (SystemTimeEnd name) (end_ p)) (end_ p - clock w)) /\
  nextHandle w' = S (S (nextHandle w)).
Proof.
  intros Hc Hp. cbv zeta.
  rewrite (changeSystemPeriod_eq name w c p rest Hc Hp). cbv zeta.
  set (w1 := update name _ w).
  set (w4 := clear_handler name "_endTimeHandler" _).
  assert (Hc4 : calendars w4 !! name =
                Some (Cal.set_systemPeriods rest (Cal.set_systemPeriod (Some p) c))).
  { unfold w4. rewrite !clear_handler_calendars. simpl.
    rewrite lookup_alter. case_decide; [|congruence]. rewrite Hc. reflexivity. }
  assert (Hn4 : nextHandle w4 = nextHandle w)
    by (unfold w4; rewrite !clear_handler_nextHandle; reflexivity).
  assert (Hk4 : clock w4 = clock w)
    by (unfold w4; rewrite !clear_handler_clock; reflexivity).
  assert (He4 : emitted w4 = emitted w ++ [system_period_change name p rest])
    by (unfold w4; rewrite !clear_handler_emitted; reflexivity).
  set (w6 := arm name "_startTimeHandler" _ _ w4).
  pose proof (arm_lookup name "_startTimeHandler"
                (RealTimeoutAtCb (SystemTimeStart name) (period_start p))
                (period_start p - clock w4) w4 _ Hc4) as Hc6. fold w6 in Hc6.
  split; [exact He4|]. split.
  { eexists. split; [apply (arm_lookup _ _ _ _ _ _ Hc6)|]. simpl. auto. }
  split.
  { rewrite arm_handler_of by eauto. case_decide; [discriminate|].
    unfold w6. rewrite arm_handler_of by eauto.
    case_decide; [congruence|congruence]. }
  split.
  { rewrite arm_handler_of by eauto. case_decide; [|congruence].
    unfold w6. rewrite arm_nextHandle, Hn4. reflexivity. }
  split.
  { rewrite arm_timers. unfold w6 at 1. rewrite arm_nextHandle.
    rewrite lookup_insert_ne by lia.
    unfold w6. rewrite arm_timers, Hn4, Hk4. apply lookup_insert_eq. }
  split.
  { rewrite arm_timers. unfold w6 at 1 2. rewrite arm_nextHandle, arm_clock, Hn4, Hk4.
    apply lookup_insert_eq. }
  rewrite arm_nextHandle. unfold w6. rewrite arm_nextHandle, Hn4. reflexivity.
Qed.

(** X20: when the timer for the end of the current period fires at or after
    its target, system-time-end is emitted with the current period; if the
    queue still holds a period, that period becomes the current one, a
    system-period-change is emitted with it and with the rest of the queue,
    and timers for its start and its end are armed under the two handle
    properties; if the queue is empty nothing else happens: no event, no
    timer, and the current period stays set. *)
Theorem period_end_takes_next_period
    (fuel : nat) (w : World) (h : nat) (name : string) (time d now : Z) (c : Cal.t) :
  timers w !! h = Some (mkTimer (RealTimeoutAtCb (SystemTimeEnd name) time) d) ->
  calendars w !! name = Some c ->
  time <= now ->
  (Cal.systemPeriods c = [] ->
   fire fuel h now w =
   Done tt (mkWorld (calendars w) (delete h (timers w)) (nextHandle w)
              (emitted w ++ [system_time_end name (Cal.systemPeriod c)]) now)) /\
  (forall p rest, Cal.systemPeriods c = p :: rest ->
   exists w',
     fire fuel h now w = Done tt w' /\
     emitted w' = emitted w ++ [system_time_end name (Cal.systemPeriod c);
                                system_period_change name p rest] /\
     (exists c', calendars w' !! name = Some c' /\
                 Cal.systemPeriod c' = Some p /\ Cal.systemPeriods c' = rest) /\
     handler_of w' name "_startTimeHandler" = Some (nextHandle w) /\
     handler_of w' name "_endTimeHandler" = Some (S (nextHandle w)) /\
     timers w' !! nextHandle w =
       Some (mkTimer (RealTimeoutAtCb (SystemTimeStart name) (period_start p))
               (period_start p - now)) /\
     timers w' !! S (nextHandle w) =
       Some (mkTimer (RealTimeoutAtCb (SystemTimeEnd name) (end_ p)) (end_ p - now))).
Proof.
  intros Ht Hc Hle. unfold fire. rewrite Ht.
  cbn [callback run_callback clock]. apply Z.leb_le in Hle. rewrite Hle.
  cbn [run_listener calendars]. rewrite Hc. split.
  - intros Hq. unfold changeSystemPeriod. cbn [calendars emit]. rewrite Hc, Hq.
    reflexivity.
  - intros p rest Hq. eexists. split; [reflexivity|].
    match goal with
    | |- context [changeSystemPeriod name ?w0] =>
        destruct (changeSystemPeriod_pops name w0 c p rest Hc Hq)
          as (He & (c' & Hc' & Hp1 & Hp2 & _) & Hs & Hen & Ht1 & Ht2 & _)
    end.
    split; [rewrite He; simpl; rewrite <- app_assoc; reflexivity|].
    split; [eauto|]. auto.
Qed.

Lemma period_end_takes_next_period_witness :
  fire 10 2 1501574400000 started_0800 =
  Done tt (mkWorld (calendars started_0800) (delete 2%nat (timers started_0800)) 6
             (emitted started_0800
              ++ [system_time_end "cn" (Some (mkPeriod 1501551000000 1501574400000))])
             1501574400000).
Proof.
  destruct (period_end_takes_next_period 10 started_0800 2 "cn" 1501574400000
              28800000 1501574400000 cal_started_0800
              ltac:(vm_compute; reflexivity) ltac:(vm_compute; reflexivity)
              ltac:(vm_compute; discriminate)) as [Hempty _].
  exact (Hempty ltac:(vm_compute; reflexivity)).
Defined.

(** *** The trade date *)

(** X21: the block that follows a resolution does nothing when the resolved
    trade date is the stored one; otherwise it stores the resolved date with
    its dayStart and dayEnd, takes as previous trade date the date stored
    so far when that is positive (and the result of a backward lookup from
    the day before otherwise), takes as next trade date the result of a
    forward lookup from the day after, and emits one trade-date-change with
    the three dates; it arms and cancels no timer. *)
Theorem changeTradeDate_stores_and_announces
    (fuel : nat) (name : string) (ti : TimeInfo) (w w1 : World) (c : Cal.t) :
  calendars w !! name = Some c ->
  changeTradeDate fuel name ti w = Done tt w1 ->
  (Cal.tradeDate c = tradeDate ti -> w1 = w) /\
  (Cal.tradeDate c <> tradeDate ti ->
   exists p nd,
     TradeCalendar.realTimeInfo fuel (Cal.self c) (clock w)
       (addDays 1 (tradeDate ti)) (Some 1) = Ok nd /\
     (0 < Cal.tradeDate c -> p = Some (Cal.tradeDate c)) /\
     (Cal.tradeDate c <= 0 ->
      exists pi, TradeCalendar.realTimeInfo fuel (Cal.self c) (clock w)
                   (addDays (-1) (tradeDate ti)) (Some (-1)) = Ok pi /\
                 p = Some (tradeDate pi)) /\
     calendars w1 !! name =
       Some (Cal.set_dates (tradeDate nd) (tradeDate ti) (dayStart ti) (dayEnd ti)
               (Cal.set_preTradeDate p c)) /\
     emitted w1 =
       emitted w ++ [trade_date_change name (tradeDate ti) p (tradeDate nd)] /\
     timers w1 = timers w).
Proof.
  intros Hc H. unfold changeTradeDate in H. rewrite Hc in H.
  destruct (Cal.tradeDate c =? tradeDate ti) eqn:E.
  - apply Z.eqb_eq in E. injection H as <-. split; [reflexivity|congruence].
  - apply Z.eqb_neq in E. split; [congruence|]. intros _.
    destruct (0 <? Cal.tradeDate c) eqn:Epos.
    + apply Z.ltb_lt in Epos.
      destruct (TradeCalendar.realTimeInfo fuel (Cal.self c) (clock w)
                  (addDays 1 (tradeDate ti)) (Some 1)) as [nd|e|]; try discriminate.
      injection H as <-. exists (Some (Cal.tradeDate c)), nd.
      split; [reflexivity|]. split; [reflexivity|]. split; [lia|].
      split; [|split; reflexivity].
      simpl. rewrite !lookup_alter. repeat case_decide; try congruence.
      rewrite Hc. reflexivity.
    + apply Z.ltb_ge in Epos.
      destruct (TradeCalendar.realTimeInfo fuel (Cal.self c) (clock w)
                  (addDays (-1) (tradeDate ti)) (Some (-1))) as [pi|e|];
        try discriminate.
      destruct (TradeCalendar.realTimeInfo fuel (Cal.self c) (clock w)
                  (addDays 1 (tradeDate ti)) (Some 1)) as [nd|e|]; try discriminate.
      injection H as <-. exists (Some (tradeDate pi)), nd.
      split; [reflexivity|]. split; [lia|]. split; [eauto|].
      split; [|split; reflexivity].
      simpl. rewrite !lookup_alter. repeat case_decide; try congruence.
      rewrite Hc. reflexivity.
Qed.

Lemma changeTradeDate_stores_and_announces_witness :
  emitted (world_of (changeTradeDate 9 "cn" ti_20170801 (world_with cn at_0800)))
  = [trade_date_change "cn" 20170801 (Some 20170731) 20170802].
Proof.
  destruct (changeTradeDate_stores_and_announces 9 "cn" ti_20170801
              (world_with cn at_0800)
              (world_of (changeTradeDate 9 "cn" ti_20170801 (world_with cn at_0800)))
              (Cal.new cn 1)
              ltac:(vm_compute; reflexivity) ltac:(vm_compute; reflexivity))
    as [_ H].
  destruct (H ltac:(vm_compute; discriminate))
    as (p & nd & Hnd & _ & Hback & _ & He & _).
  destruct (Hback ltac:(vm_compute; discriminate)) as (pi & Hpi & ->).
  vm_compute in Hnd. injection Hnd as <-.
  vm_compute in Hpi. injection Hpi as <-.
  rewrite He. reflexivity.
Defined.

(** X22: the previous trade date is assigned before the next trade date is
    looked up: when that lookup fails in a pass without the retry flag, the
    pass raises the error with [preTradeDate] already overwritten by the
    stored trade date, while the trade date itself, the timers and the
    events are as before the pass. *)
Theorem failed_next_lookup_leaves_preTradeDate_assigned
    (fuel : nat) (name : string) (start_ : Z) (w : World) (cal : Cal.t)
    (ti : TimeInfo) (err : string) :
  calendars w !! name = Some cal ->
  TradeCalendar.realTimeInfo fuel (Cal.self cal) (clock w) start_ None = Ok ti ->
  clock w <= TradeCalendar.realAfterMarketEnd (Cal.self cal) (clock w) (tradeDate ti) ->
  0 < Cal.tradeDate cal ->
  Cal.tradeDate cal <> tradeDate ti ->
  TradeCalendar.realTimeInfo fuel (Cal.self cal) (clock w)
    (addDays 1 (tradeDate ti)) (Some 1) = Throw err ->
  setTimeInfo (S fuel) name start_ false w =
  Raised err (update name (Cal.set_preTradeDate (Some (Cal.tradeDate cal))) w).
Proof.
  intros Hcal Hti Hnot Hpos Hne Hnext. simpl. rewrite Hcal, Hti.
  destruct (_ <? clock w) eqn:E; [apply Z.ltb_lt in E; lia|].
  unfold resolved, changeTradeDate. rewrite Hcal.
  apply Z.eqb_neq in Hne. rewrite Hne.
  apply Z.ltb_lt in Hpos. rewrite Hpos, Hnext. reflexivity.
Qed.

Lemma failed_next_lookup_leaves_preTradeDate_assigned_witness :
  setTimeInfo 10 "cn" 20170801 false world_flaky =
  Raised "ETIMEDOUT"
    (update "cn" (Cal.set_preTradeDate (Some 20170731)) world_flaky).
Proof.
  exact (failed_next_lookup_leaves_preTradeDate_assigned 9 "cn" 20170801 world_flaky
           cal_flaky
           (mkTimeInfo 20170801 [mkPeriod 1501551000000 1501574400000]
              1501516800000 1501603199999) "ETIMEDOUT"
           ltac:(vm_compute; reflexivity) ltac:(vm_compute; reflexivity)
           ltac:(vm_compute; discriminate) ltac:(vm_compute; reflexivity)
           ltac:(vm_compute; discriminate) ltac:(vm_compute; reflexivity)).
Defined.

(** *** The terminal timer *)

Lemma update_handler_of (name : string) (f : Cal.t -> Cal.t) (w : World) (prop : string) :
  (forall c, Cal.handlers (f c) = Cal.handlers c) ->
  handler_of (update name f w) name prop = handler_of w name prop.
Proof.
  intros Hf. unfold handler_of. rewrite update_lookup.
  case_decide; [|congruence].
  destruct (calendars w !! name) as [c|]; simpl; [rewrite Hf|]; reflexivity.
Qed.

Lemma changeTradeDate_handler_of (fuel : nat) (name : string) (ti : TimeInfo)
    (w w1 : World) (prop : string) :
  changeTradeDate fuel name ti w = Done tt w1 ->
  handler_of w1 name prop = handler_of w name prop.
Proof.
  unfold changeTradeDate.
  destruct (calendars w !! name) as [c|] eqn:Hc; [|discriminate].
  destruct (Cal.tradeDate c =? tradeDate ti); [intros [= <-]; reflexivity|].
  set (pre := if 0 <? Cal.tradeDate c then _ else _).
  destruct pre as [p|e|]; try discriminate.
  destruct (TradeCalendar.realTimeInfo fuel (Cal.self c) (clock w)
              (addDays 1 (tradeDate ti)) (Some 1)) as [nd|e|]; try discriminate.
  intros [= <-].
  change (handler_of (update name (Cal.set_dates (tradeDate nd) (tradeDate ti)
                                     (dayStart ti) (dayEnd ti))
                        (update name (Cal.set_preTradeDate p) w)) name prop
          = handler_of w name prop).
  rewrite !update_handler_of; reflexivity.
Qed.

Lemma changeSystemPeriod_keeps_terminal (name : string) (w : World) :
  is_Some (calendars w !! name) ->
  handler_of (changeSystemPeriod name w) name "_timeInfoHandler"
    = handler_of w name "_timeInfoHandler" /\
  (nextHandle w <= nextHandle (changeSystemPeriod name w))%nat.
Proof.
  intros [c Hc]. destruct (Cal.systemPeriods c) as [|p rest] eqn:Hp.
  - unfold changeSystemPeriod. rewrite Hc, Hp. split; [reflexivity|lia].
  - destruct (changeSystemPeriod_pops name w c p rest Hc Hp)
      as (_ & _ & _ & _ & _ & _ & Hn).
    split; [|rewrite Hn; lia].
    rewrite (changeSystemPeriod_eq name w c p rest Hc Hp). cbv zeta.
    set (w1 := update name _ w).
    set (w4 := clear_handler name "_endTimeHandler" _).
    assert (Hreg4 : is_Some (calendars w4 !! name)).
    { unfold w4. rewrite !clear_handler_calendars. simpl.
      apply (update_registered name _ w). eauto. }
    rewrite arm_handler_of by (apply arm_registered, Hreg4).
    case_decide; [discriminate|].
    rewrite arm_handler_of by exact Hreg4.
    case_decide; [discriminate|].
    unfold w4, handler_of. rewrite !clear_handler_calendars.
    change (handler_of (update name
                          (fun c => Cal.set_systemPeriods rest
                                      (Cal.set_systemPeriod (Some p) c)) w)
              name "_timeInfoHandler" = handler_of w name "_timeInfoHandler").
    apply update_handler_of. reflexivity.
Qed.

Lemma armMarketTimers_keeps_old (name : string) (mo mc : option Z) (now : Z)
    (w : World) :
  let w' := armMarketTimers name mo mc now w in
  (nextHandle w <= nextHandle w')%nat /\
  clock w' = clock w /\
  (is_Some (calendars w !! name) -> is_Some (calendars w' !! name)) /\
  (forall h, (h < nextHandle w)%nat -> timers w' !! h = timers w !! h).
Proof.
  cbv zeta. unfold armMarketTimers.
  destruct mo as [o|], mc as [k|];
    try (split; [lia|]; split; [reflexivity|]; split; [auto|reflexivity]).
  destruct (truthy (Some o) && truthy (Some k));
    [|split; [lia|]; split; [reflexivity|]; split; [auto|reflexivity]].
  destruct (now <? k).
  - change (let w1 := arm name "_marketOpenTimeHandler" (MarketOpenCb name)
                        (TradeCalendar.timestamp (clock w) (Some o) - clock w) w in
            let w2 := arm name "_marketCloseTimeHandler" (MarketCloseCb name)
                        (TradeCalendar.timestamp (clock w1) (Some k) - clock w1) w1 in
            (nextHandle w <= nextHandle w2)%nat /\ clock w2 = clock w /\
            (is_Some (calendars w !! name) -> is_Some (calendars w2 !! name)) /\
            (forall h, (h < nextHandle w)%nat -> timers w2 !! h = timers w !! h)).
    cbv zeta. rewrite !arm_nextHandle, !arm_clock.
    split; [lia|]. split; [reflexivity|]. split.
    + intros H. apply arm_registered, arm_registered, H.
    + intros h Hh. rewrite arm_timers, arm_nextHandle.
      rewrite lookup_insert_ne by lia.
      rewrite arm_timers. apply lookup_insert_ne. lia.
  - change (let w2 := arm name "_marketCloseTimeHandler" (MarketCloseCb name)
                        (TradeCalendar.timestamp (clock w) (Some k) - clock w) w in
            (nextHandle w <= nextHandle w2)%nat /\ clock w2 = clock w /\
            (is_Some (calendars w !! name) -> is_Some (calendars w2 !! name)) /\
            (forall h, (h < nextHandle w)%nat -> timers w2 !! h = timers w !! h)).
    cbv zeta. rewrite !arm_nextHandle, !arm_clock.
    split; [lia|]. split; [reflexivity|]. split.
    + intros H. apply arm_registered, H.
    + intros h Hh. rewrite arm_timers. apply lookup_insert_ne. lia.
Qed.

(** X23: a pass that succeeds replaces the terminal timer: the timer whose
    handle [_timeInfoHandler] kept before the pass is cancelled, and a new
    timer, due at the after-market-close boundary of the resolved trade
    date and carrying the after-market-close callback, is armed and kept in
    [_timeInfoHandler]. *)
Theorem successful_pass_replaces_terminal_timer
    (fuel : nat) (name : string) (c : TradeCalendar.t) (ti : TimeInfo)
    (w w' : World) :
  resolved fuel name c ti (clock w) w = Done tt w' ->
  (exists h,
     handler_of w' name "_timeInfoHandler" = Some h /\
     timers w' !! h =
       Some (mkTimer (AfterMarketCloseCb name)
               (TradeCalendar.afterMarketEnd c (tradeDate ti) - clock w))) /\
  (forall h0, handler_of w name "_timeInfoHandler" = Some h0 ->
              (h0 < nextHandle w)%nat -> timers w' !! h0 = None).
Proof.
  intros Hres.
  destruct (changeTradeDate fuel name ti w) as [[] w1|e w1|] eqn:Hctd;
    try (unfold resolved in Hres; rewrite Hctd in Hres; discriminate).
  rewrite (resolved_eq _ _ _ _ _ _ _ Hctd) in Hres. cbv zeta in Hres.
  destruct (changeTradeDate_facts _ _ _ _ _ Hctd) as (Hreg1 & Hclk1 & Htm1 & Hn1).
  pose proof (changeTradeDate_handler_of _ _ _ _ _ "_timeInfoHandler" Hctd) as Hh1.
  set (w2 := update name (Cal.set_systemPeriods (timePeriods ti)) w1) in *.
  assert (Hreg2 : is_Some (calendars w2 !! name)) by (apply update_registered, Hreg1).
  assert (Hh2 : handler_of w2 name "_timeInfoHandler"
                = handler_of w name "_timeInfoHandler").
  { unfold w2. rewrite update_handler_of by reflexivity. exact Hh1. }
  destruct (changeSystemPeriod_facts name w2 Hreg2) as (Hreg3 & Hclk3 & _).
  destruct (changeSystemPeriod_keeps_terminal name w2 Hreg2) as (Hh3 & Hn3).
  set (w3 := changeSystemPeriod name w2) in *.
  set (w4 := clear_handler name "_timeInfoHandler" w3) in *.
  assert (Hreg4 : is_Some (calendars w4 !! name))
    by (unfold w4; rewrite clear_handler_calendars; exact Hreg3).
  assert (Hclk4 : clock w4 = clock w).
  { unfold w4. rewrite clear_handler_clock, Hclk3. exact Hclk1. }
  assert (Hn4 : (nextHandle w <= nextHandle w4)%nat).
  { unfold w4. rewrite clear_handler_nextHandle. unfold w2 in Hn3. simpl in Hn3.
    rewrite Hn1 in Hn3. exact Hn3. }
  destruct (armMarketTimers_keeps_old name (marketOpenOf ti) (marketCloseOf ti)
              (clock w) w4) as (Hn5 & Hclk5 & Hreg5 & Hold5).
  set (w5 := armMarketTimers name (marketOpenOf ti) (marketCloseOf ti) (clock w) w4) in *.
  injection Hres as <-. split.
  - exists (nextHandle w5). split.
    + rewrite arm_handler_of by (apply Hreg5, Hreg4).
      case_decide; [reflexivity|congruence].
    + rewrite arm_timers, Hclk5, Hclk4. apply lookup_insert_eq.
  - intros h0 Hh0 Hlt. rewrite arm_timers.
    rewrite lookup_insert_ne by lia.
    rewrite Hold5 by lia.
    unfold w4, clear_handler.
    destruct Hreg3 as [c3 Hc3]. rewrite Hc3.
    assert (Hc3h : Cal.handlers c3 !! "_timeInfoHandler" = Some h0).
    { rewrite <- Hh0, <- Hh2, <- Hh3. unfold handler_of. fold w3. rewrite Hc3.
      reflexivity. }
    rewrite Hc3h. simpl. apply lookup_delete_eq.
Qed.

Lemma successful_pass_replaces_terminal_timer_witness :
  exists h,
    handler_of started_0800 "cn" "_timeInfoHandler" = Some h /\
    timers started_0800 !! h =
      Some (mkTimer (AfterMarketCloseCb "cn")
              (TradeCalendar.afterMarketEnd cn 20170801 - at_0800)).
Proof.
  exact (proj1 (successful_pass_replaces_terminal_timer 9 "cn" cn ti_20170801
                  (world_with cn at_0800) started_0800
                  ltac:(vm_compute; reflexivity))).
Defined.

(** *** Errors under the retry flag *)







End ManagerMore.
